(** * SmartTask: task lifecycle, notifications and the AI adapters

    A shallow embedding of [models.py], [utils.py] and [routes.py] of the
    SmartTask web application, and the properties of its task lifecycle.

    - The relational store is a record of finite maps from primary key to
      row (stdpp's [gmap]).
    - A request handler is a computation in a small state-and-exception
      monad over the [World]: the committed store, the log of calls to the
      email helper, and the number of clock readings taken so far.
    - Everything the program obtains from outside (the clock, the mail
      transport, [datetime.strptime], the database engine's treatment of
      foreign keys, the chat-completion backend, [json.loads]) is a field
      of an environment record, so every theorem holds for all behaviours
      of these collaborators. *)

From Stdlib Require Import ZArith Ascii String List Bool Lia.
From stdpp Require Import base option list gmap strings pretty.

Set Warnings "-register-all".

Local Open Scope string_scope.

(** ** Python text *)

(** Python's [str] is modelled by [string], which holds the bytes of the
    UTF-8 encoding of the text. *)
Module Py.

Definition empty : string := EmptyString.

(** The line feed that an f-string writes as a backslash and [n]. *)
Definition nl : string := String (ascii_of_nat 10) EmptyString.

(** Truthiness of an optional text, as in [if not title]: [None] and the
    empty text are false. *)
Definition truthy (o : option string) : bool :=
  match o with
  | None => false
  | Some EmptyString => false
  | Some (String _ _) => true
  end.

(** [str(x)] for an optional text, as an f-string renders it. *)
Definition str (o : option string) : string :=
  match o with
  | None => "None"
  | Some s => s
  end.

(** White space as [str.strip()] sees it: the code points U+0009 to
    U+000D, U+001C to U+0020, U+0085, U+00A0, U+1680, U+2000 to U+200A,
    U+2028, U+2029, U+202F, U+205F and U+3000, told by the one, two or
    three bytes that encode them. *)
Definition isspace1 (a : ascii) : bool :=
  let a := nat_of_ascii a in
  (((9 <=? a) && (a <=? 13)) || ((28 <=? a) && (a <=? 32)))%nat.

Definition isspace2 (a b : ascii) : bool :=
  let a := nat_of_ascii a in
  let b := nat_of_ascii b in
  ((a =? 194) && ((b =? 133) || (b =? 160)))%nat.

Definition isspace3 (a b c : ascii) : bool :=
  let a := nat_of_ascii a in
  let b := nat_of_ascii b in
  let c := nat_of_ascii c in
  (((a =? 225) && (b =? 154) && (c =? 128))
   || ((a =? 226) && (b =? 128)
       && (((128 <=? c) && (c <=? 138)) || (c =? 168) || (c =? 169) || (c =? 175)))
   || ((a =? 226) && (b =? 129) && (c =? 159))
   || ((a =? 227) && (b =? 128) && (c =? 128)))%nat.

(** Drop the white space at the head of [s], where [sp2] and [sp3] tell
    the encodings of two and three bytes. *)
Fixpoint lstrip_with (sp2 : ascii -> ascii -> bool)
    (sp3 : ascii -> ascii -> ascii -> bool) (s : string) : string :=
  match s with
  | EmptyString => EmptyString
  | String a r =>
      if isspace1 a then lstrip_with sp2 sp3 r
      else
        match r with
        | String b r2 =>
            if sp2 a b then lstrip_with sp2 sp3 r2
            else
              match r2 with
              | String c r3 => if sp3 a b c then lstrip_with sp2 sp3 r3 else s
              | EmptyString => s
              end
        | EmptyString => s
        end
  end.

(** [s.lstrip()] *)
Definition lstrip (s : string) : string := lstrip_with isspace2 isspace3 s.

(** [s.rstrip()]: the same from the other end, where the bytes of an
    encoding come last byte first. *)
Definition rstrip (s : string) : string :=
  String.rev (lstrip_with (fun b a => isspace2 a b) (fun c b a => isspace3 a b c)
                (String.rev s)).

(** [s.strip()] *)
Definition strip (s : string) : string := rstrip (lstrip s).

Definition lower_char (c : ascii) : ascii :=
  let n := nat_of_ascii c in
  if ((65 <=? n) && (n <=? 90))%nat then ascii_of_nat (n + 32) else c.

(** The three bytes that encode the Kelvin sign, U+212A. *)
Definition is_kelvin (a b c : ascii) : bool :=
  ((nat_of_ascii a =? 226) && (nat_of_ascii b =? 132) && (nat_of_ascii c =? 170))%nat.

(** [s.lower()], exact for every text whose lower-cased form lies in
    ASCII: the letters A to Z are mapped, and so is the Kelvin sign, the
    one code point outside ASCII that lower-cases to an ASCII letter. The
    other letters outside ASCII, which lower-case to letters outside
    ASCII, are carried through unchanged. *)
Fixpoint lower (s : string) : string :=
  match s with
  | EmptyString => EmptyString
  | String a r =>
      match r with
      | String b (String c r3) =>
          if is_kelvin a b c then String "k" (lower r3)
          else String (lower_char a) (lower r)
      | _ => String (lower_char a) (lower r)
      end
  end.

(** [x in xs] for a list of texts. *)
Definition in_list (x : string) (xs : list string) : bool :=
  existsb (String.eqb x) xs.

(** [sub in s] for two texts: [sub] occurs in [s]. *)
Fixpoint contains (s sub : string) : bool :=
  String.prefix sub s ||
  match s with
  | EmptyString => false
  | String _ r => contains r sub
  end.

End Py.

(** ** models.py *)

(** A primary key. *)
Abbreviation Id := nat.

(** A [datetime], as a count of microseconds. *)
Abbreviation DateTime := Z.

(** Each class of [models.py] is a record of its columns, without the
  primary key: a row is stored under its key in the table. An attribute
  that a handler may set to [None] on the Python object is optional. *)
Module User.
Record t := mk {
  username : option string;
  email : option string;
  password_hash : string;
  role : string;
  created_at : DateTime;
}.
Definition is_admin (u : t) : bool := String.eqb (role u) "admin".
Definition is_client (u : t) : bool := String.eqb (role u) "client".
End User.

Module Task.
Record t := mk {
  title : option string;
  description : option string;
  service_type : option string;
  priority : option string;
  status : string;
  deadline : option DateTime;
  created_at : DateTime;
  updated_at : DateTime;
  client_id : option Id;
  creator_id : Id;
}.
End Task.

Module Comment.
Record t := mk {
  content : string;
  created_at : DateTime;
  task_id : Id;
  user_id : Id;
}.
End Comment.

Module Attachment.
Record t := mk {
  filename : string;
  original_filename : string;
  file_type : string;
  uploaded_at : DateTime;
  task_id : Id;
  user_id : Id;
}.
End Attachment.

Module Notification.
Record t := mk {
  title : string;
  message : string;
  is_read : bool;
  created_at : DateTime;
  user_id : option Id;
  task_id : option Id;
}.
End Notification.

(** ** The world a request runs in *)

(** The tables of the relational store. *)
Record Store := mkStore {
  users : gmap Id User.t;
  tasks : gmap Id Task.t;
  comments : gmap Id Comment.t;
  attachments : gmap Id Attachment.t;
  notifications : gmap Id Notification.t;
}.

(** What became of one call of [send_task_notification_email]. *)
Inductive SendResult :=
| NoRecipient      (* [if not to]: logged, [mail.send] not reached *)
| Sent             (* [mail.send] returned *)
| SendFailed.      (* [mail.send] raised; caught and logged *)

(** One call of [send_task_notification_email(to, subject, body)]. *)
Record EmailCall := mkEmailCall {
  mail_to : option string;
  mail_subject : string;
  mail_body : string;
  mail_result : SendResult;
}.

Record World := mkWorld {
  db : Store;                    (* committed rows *)
  email_log : list EmailCall;    (* calls of the email helper, oldest first *)
  clock_reads : nat;             (* readings of [datetime.utcnow] so far *)
  uuid_draws : nat;              (* calls of [uuid.uuid4] so far *)
  upload_folder : list string;   (* names of the files saved so far *)
}.

(** The collaborators outside the program. *)
Record Env := mkEnv {
  (** the [n]-th reading of [datetime.utcnow()] *)
  utcnow : nat -> DateTime;
  (** whether [mail.send] raises, given how many calls of the email helper
      came before *)
  mail_send_raises : nat -> bool;
  (** [datetime.strptime(s, '%Y-%m-%dT%H:%M')]; [None] is its ValueError *)
  strptime : string -> option DateTime;
  (** whether the database engine checks the declared [db.ForeignKey]
      references when it writes (the engine behind DATABASE_URL decides) *)
  enforce_foreign_keys : bool;
  (** werkzeug's [generate_password_hash] *)
  generate_password_hash : string -> string;
  (** werkzeug's [secure_filename] *)
  secure_filename : string -> string;
  (** [os.path.splitext(name)[1]] *)
  splitext_ext : string -> string;
  (** the [n]-th [uuid.uuid4().hex] *)
  uuid4_hex : nat -> string;
}.

(** ** Exceptions and the handler monad *)

Inductive Exn :=
| NotFound                (* [get_or_404], [first_or_404]: HTTP 404 *)
| Forbidden               (* [abort(403)] *)
| AuthorizationError      (* raised by the role decorators *)
| IntegrityError          (* a constraint violation at flush *)
| PyError (msg : string). (* any other uncaught Python exception *)

Inductive Outcome (A : Type) :=
| Return (a : A)
| Raise (e : Exn).
Arguments Return {A} a.
Arguments Raise {A} e.

(** A computation reads and changes the world and either returns or
    raises; what was committed before an exception stays committed. *)
Definition M (A : Type) : Type := World -> Outcome A * World.

Definition ret {A} (a : A) : M A := fun w => (Return a, w).

Definition raise {A} (e : Exn) : M A := fun w => (Raise e, w).

Definition bind {A B} (m : M A) (k : A -> M B) : M B :=
  fun w =>
    match m w with
    | (Return a, w') => k a w'
    | (Raise e, w') => (Raise e, w')
    end.

Declare Scope handler_scope.
Delimit Scope handler_scope with handler.
Notation "'do' x <- m ; k" := (bind m (fun x => k))
  (at level 10, x name, m at level 100, k at level 200,
   format "'[v' 'do'  x  <-  m ; '/' k ']'") : handler_scope.
Notation "'exec' m ; k" := (bind m (fun _ => k))
  (at level 10, m at level 100, k at level 200,
   format "'[v' 'exec'  m ; '/' k ']'") : handler_scope.
Local Open Scope handler_scope.

Definition get_world : M World := fun w => (Return w, w).

Definition set_db (d : Store) : M unit :=
  fun w => (Return tt,
            mkWorld d (email_log w) (clock_reads w) (uuid_draws w) (upload_folder w)).

Definition set_users (m : gmap Id User.t) (d : Store) : Store :=
  mkStore m (tasks d) (comments d) (attachments d) (notifications d).
Definition set_tasks (m : gmap Id Task.t) (d : Store) : Store :=
  mkStore (users d) m (comments d) (attachments d) (notifications d).
Definition set_comments (m : gmap Id Comment.t) (d : Store) : Store :=
  mkStore (users d) (tasks d) m (attachments d) (notifications d).
Definition set_attachments (m : gmap Id Attachment.t) (d : Store) : Store :=
  mkStore (users d) (tasks d) (comments d) m (notifications d).
Definition set_notifications (m : gmap Id Notification.t) (d : Store) : Store :=
  mkStore (users d) (tasks d) (comments d) (attachments d) m.

(** The key an auto-incrementing primary key column gives a new row: one
    that no row of the table has. *)
Definition new_id {V} (table : gmap Id V) : Id := fresh (dom table).

Section Primitives.
Context (env : Env).

(** [datetime.utcnow()] *)
Definition now : M DateTime :=
  fun w => (Return (utcnow env (clock_reads w)),
            mkWorld (db w) (email_log w) (S (clock_reads w)) (uuid_draws w)
                    (upload_folder w)).

(** [uuid.uuid4().hex] *)
Definition uuid4 : M string :=
  fun w => (Return (uuid4_hex env (uuid_draws w)),
            mkWorld (db w) (email_log w) (clock_reads w) (S (uuid_draws w))
                    (upload_folder w)).

(** [file.save(file_path)], taken to succeed *)
Definition file_save (name : string) : M unit :=
  fun w => (Return tt,
            mkWorld (db w) (email_log w) (clock_reads w) (uuid_draws w)
                    (upload_folder w ++ [name])).

(** Record one call of the email helper. *)
Definition log_email (c : EmailCall) : M unit :=
  fun w => (Return tt,
            mkWorld (db w) (email_log w ++ [c]) (clock_reads w) (uuid_draws w)
                    (upload_folder w)).

(** [Model.query.get(id)] *)
Definition query_get {V} (table : Store -> gmap Id V) (id : Id) : M (option V) :=
  do w <- get_world; ret (table (db w) !! id).

(** [Model.query.get_or_404(id)] *)
Definition get_or_404 {V} (table : Store -> gmap Id V) (id : Id) : M V :=
  do r <- query_get table id;
  match r with
  | Some v => ret v
  | None => raise NotFound
  end.

(** A reference into [table] holds when the engine does not check it,
    when it is NULL, or when the row it names exists. *)
Definition fk_ok {V} (table : gmap Id V) (ref : option Id) : bool :=
  negb (enforce_foreign_keys env) ||
  match ref with
  | Some k => bool_decide (is_Some (table !! k))
  | None => true
  end.

(** A constraint that the flush checks. *)
Definition require (ok : bool) : M unit :=
  if ok then ret tt else raise IntegrityError.

End Primitives.

(** ** JSON values, as [json.loads] and [jsonify] have them *)

Module Json.

Inductive t :=
| Null
| Bool (b : bool)
| Int (n : Z)
| Float (literal : string)
| Str (s : string)
| Arr (items : list t)
| Obj (members : list (string * t)).

Definition is_str (s : string) (j : t) : bool :=
  match j with
  | Str s' => String.eqb s s'
  | _ => false
  end.

(** The entry of a dict under a key. *)
Fixpoint assoc (k : string) (members : list (string * t)) : option t :=
  match members with
  | [] => None
  | (k', v) :: rest => if String.eqb k k' then Some v else assoc k rest
  end.

(** [key in j], by the type of [j]: a dict looks among its keys, a list
    among its items, a text searches for the substring; anything else
    raises TypeError (left, with the message). *)
Definition py_in (key : string) (j : t) : string + bool :=
  match j with
  | Obj members => inr (bool_decide (is_Some (assoc key members)))
  | Arr items => inr (existsb (is_str key) items)
  | Str s => inr (Py.contains s key)
  | Null => inl "argument of type 'NoneType' is not iterable"
  | Bool _ => inl "argument of type 'bool' is not iterable"
  | Int _ => inl "argument of type 'int' is not iterable"
  | Float _ => inl "argument of type 'float' is not iterable"
  end.

(** [j[key]] for a text key: the entry of a dict; KeyError or TypeError
    otherwise (left, with the message). *)
Definition getitem (j : t) (key : string) : string + t :=
  match j with
  | Obj members =>
      match assoc key members with
      | Some v => inr v
      | None => inl ("'" +:+ key +:+ "'")
      end
  | Arr _ => inl "list indices must be integers or slices, not str"
  | Str _ => inl "string indices must be integers, not 'str'"
  | Null => inl "'NoneType' object is not subscriptable"
  | Bool _ => inl "'bool' object is not subscriptable"
  | Int _ => inl "'int' object is not subscriptable"
  | Float _ => inl "'float' object is not subscriptable"
  end.

End Json.

(** ** Requests and responses *)

Inductive Method := GET | POST.

Record Request := mkRequest {
  (** the user id the session cookie carries, if any *)
  session_user_id : option Id;
  method : Method;
  (** the header [X-Requested-With] equals [XMLHttpRequest] *)
  xhr : bool;
}.

(** A flashed message with its category. *)
Definition Flash : Type := string * string.

Inductive Response :=
| Redirect (endpoint : string) (flashed : option Flash)
| RenderTemplate (template : string) (flashed : option Flash) (task : option Task.t)
| Jsonify (body : Json.t).

(** ** utils.py *)

Module Utils.

(** *** The email helper *)

Section Email.
Context (env : Env).

Definition send_task_notification_email
    (to : option string) (subject body : string) : M bool :=
  if negb (Py.truthy to) then
    exec log_email (mkEmailCall to subject body NoRecipient);
    ret false
  else
    do w <- get_world;
    if mail_send_raises env (length (email_log w)) then
      exec log_email (mkEmailCall to subject body SendFailed);
      ret false
    else
      exec log_email (mkEmailCall to subject body Sent);
      ret true.

End Email.

(** *** The AI adapters *)

(** One call of [openai_client.chat.completions.create]. *)
Record ChatRequest := mkChatRequest {
  chat_model : string;
  chat_system : string;        (* content of the system message *)
  chat_user : string;          (* content of the user message *)
  chat_json_object : bool;     (* [response_format] asks for a JSON object *)
  chat_temperature : string;   (* the decimal literal in the source *)
  chat_max_tokens : nat;
}.

Inductive ChatResult :=
| ApiError (msg : string)
    (* the call raised; [msg] is [str(e)] *)
| Completion (choices : list (option string)).
    (* [message.content] of each entry of [response.choices] *)

(** The result of [json.loads]. *)
Inductive Loaded :=
| Decoded (j : Json.t)
| JSONDecodeError (msg : string).

(** The text-generation backend and the JSON decoder. *)
Record Backend := mkBackend {
  chat_completions_create : ChatRequest -> ChatResult;
  json_loads : string -> Loaded;
}.

(** Inside a [try] block a step either yields a value or raises an
    exception, held by its message [str(e)]. *)
Definition Try (A : Type) : Type := string + A.

Definition and_then {A B} (m : Try A) (k : A -> Try B) : Try B :=
  match m with
  | inl msg => inl msg
  | inr a => k a
  end.

Notation "'try' x <- m ; k" := (and_then m (fun x => k))
  (at level 10, x name, m at level 100, k at level 200,
   format "'[v' 'try'  x  <-  m ; '/' k ']'").

(** [response.choices[0].message.content] *)
Definition first_content (r : ChatResult) : Try (option string) :=
  match r with
  | ApiError msg => inl msg
  | Completion [] => inl "list index out of range"
  | Completion (content :: _) => inr content
  end.

(** The dict that [generate_ai_task_description] returns. *)
Record Draft := mkDraft {
  draft_title : Json.t;
  draft_description : Json.t;
  draft_success : bool;
  draft_error : option string;
}.

(** The prompt that [generate_ai_task_description] builds and the
    arguments it passes to the backend. *)
Definition description_request (service_type keywords : string)
    (client_name priority : option string) : ChatRequest :=
  (* Build the prompt with available information *)
  let prompt := "Generate a professional " +:+ service_type +:+ " task" in
  let prompt := if Py.truthy client_name
                then prompt +:+ " for client " +:+ Py.str client_name else prompt in
  let prompt := if Py.truthy priority
                then prompt +:+ " with " +:+ Py.str priority +:+ " priority" else prompt in
  let prompt := prompt +:+ ". Task keywords: " +:+ keywords in
  let prompt := prompt +:+ Py.nl +:+
    "Format the response as JSON with 'title' (max 10 words) and 'description' (2-3 paragraphs) fields." in
  mkChatRequest "gpt-4o"
    ("You are a professional " +:+ service_type +:+
     " task description generator. Create clear, concise task descriptions that follow industry standards.")
    prompt true "0.7" 500.

(** The prompt that [analyze_task_priority] builds and the arguments it
    passes to the backend. *)
Definition priority_request (task_description : string) (deadline_days : option Z)
    : ChatRequest :=
  (* Build the prompt with available information *)
  let prompt :=
    "Analyze this task description and recommend a priority level (low, medium, or high):"
      +:+ Py.nl +:+ Py.nl +:+ task_description in
  let prompt := match deadline_days with
                | Some days => prompt +:+ Py.nl +:+ Py.nl +:+
                               "The deadline for this task is " +:+ pretty days
                               +:+ " days from now."
                | None => prompt
                end in
  mkChatRequest "gpt-4o"
    "You are a task priority analyzer. Respond with only 'low', 'medium', or 'high' based on task urgency and importance."
    prompt false "0.3" 50.

(** The dict of the [except] branch of [generate_ai_task_description]. *)
Definition failed_draft (msg : string) : Draft :=
  mkDraft (Json.Str Py.empty) (Json.Str Py.empty) false (Some msg).

Section Adapters.
Context (backend : Backend).

Definition generate_ai_task_description (service_type keywords : string)
    (client_name priority : option string) : Draft :=
  let attempt : Try Draft :=
    let response := chat_completions_create backend
      (description_request service_type keywords client_name priority) in
    (* Parse the response *)
    try content <- first_content response;
    match content with
    | Some content =>
        try result <- match json_loads backend content with
                      | Decoded j => inr j
                      | JSONDecodeError msg => inl msg
                      end;
        (* Ensure we have the required fields *)
        try has_title <- Json.py_in "title" result;
        try missing <- if negb has_title then inr true
                       else try has_description <- Json.py_in "description" result;
                            inr (negb has_description);
        if (missing : bool) then inl "AI response missing required fields"
        else
          try title <- Json.getitem result "title";
          try description <- Json.getitem result "description";
          inr (mkDraft title description true None)
    | None => inl "No content received from AI"
    end in
  match attempt with
  | inr draft => draft
  | inl msg => failed_draft msg
  end.

Definition analyze_task_priority (task_description : string) (deadline_days : option Z)
    : string :=
  let attempt : Try string :=
    let response := chat_completions_create backend
      (priority_request task_description deadline_days) in
    (* Get the suggested priority *)
    try content <- first_content response;
    match content with
    | Some content =>
        let suggested_priority := Py.lower (Py.strip content) in
        (* Validate and return the priority *)
        if Py.in_list suggested_priority ["low"; "medium"; "high"]
        then inr suggested_priority
        else (* Default to medium if response is invalid or empty *)
             inr "medium"
    | None => inr "medium"
    end in
  match attempt with
  | inr priority => priority
  | inl _ => (* Default to medium on error *) "medium"
  end.

End Adapters.
End Utils.

(** ** The unit of work: what [db.session.add] and [db.session.commit] write *)

Module Session.
Section Session.
Context (env : Env).

(** [db.session.add(Task(...)); db.session.commit()]. The INSERT takes
    [created_at] and then [updated_at] each from its own call of the
    column default [datetime.utcnow], gives [priority] its default when
    the attribute is [None], and fails on a NULL in a [nullable=False]
    column or on a dangling reference. Returns the new row's id. *)
Definition add_task (title description service_type priority : option string)
    (deadline : option DateTime) (client_id : option Id) (creator_id : Id)
    (status : string) : M Id :=
  do created <- now env;
  do updated <- now env;
  do w <- get_world;
  let d := db w in
  exec require (bool_decide (is_Some title) && bool_decide (is_Some client_id));
  exec require (fk_ok env (users d) client_id && fk_ok env (users d) (Some creator_id));
  let id := new_id (tasks d) in
  let row := Task.mk title description service_type
               (Some (default "medium" priority)) status deadline
               created updated client_id creator_id in
  exec set_db (set_tasks (<[id := row]> (tasks d)) d);
  ret id.

(** The UPDATE that [edit_task] flushes for the task object [t] it has
    assigned the submitted fields to. The submitted [client_id] is form
    text and never equal to the stored integer, so the row always counts
    as changed and [updated_at] takes [onupdate=datetime.utcnow]. The
    result is the row as the UPDATE leaves it. *)
Definition flush_task_edit (t : Task.t) : M Task.t :=
  do updated <- now env;
  do w <- get_world;
  exec require (bool_decide (is_Some (Task.title t)) &&
                bool_decide (is_Some (Task.priority t)) &&
                bool_decide (is_Some (Task.client_id t)));
  exec require (fk_ok env (users (db w)) (Task.client_id t));
  ret (Task.mk (Task.title t) (Task.description t) (Task.service_type t)
         (Task.priority t) (Task.status t) (Task.deadline t)
         (Task.created_at t) updated (Task.client_id t) (Task.creator_id t)).

(** [db.session.commit()] in [edit_task]. *)
Definition commit_task_edit (id : Id) (t : Task.t) : M unit :=
  do row <- flush_task_edit t;
  do w <- get_world;
  set_db (set_tasks (<[id := row]> (tasks (db w))) (db w)).

(** [db.session.commit()] in [update_task_status], where [old] is the row
    as loaded and [t] the object after the two assignments. The UPDATE
    sets the columns whose value changed; when the assigned [updated_at]
    happens to equal the stored one, the column is not among them and
    takes [onupdate=datetime.utcnow] instead. *)
Definition commit_task_status (id : Id) (old t : Task.t) : M unit :=
  do updated <- (if bool_decide (Task.updated_at t = Task.updated_at old)
                 then now env else ret (Task.updated_at t));
  do w <- get_world;
  let row := Task.mk (Task.title t) (Task.description t) (Task.service_type t)
               (Task.priority t) (Task.status t) (Task.deadline t)
               (Task.created_at t) updated (Task.client_id t) (Task.creator_id t) in
  set_db (set_tasks (<[id := row]> (tasks (db w))) (db w)).

(** [db.session.delete(task); db.session.commit()]: the ORM cascade
    removes the task's comments and attachments with it; a notification
    that refers to the task blocks the DELETE when references are
    checked. *)
Definition delete_task_row (id : Id) : M unit :=
  do w <- get_world;
  let d := db w in
  exec require (negb (enforce_foreign_keys env) ||
                bool_decide (map_Forall
                  (fun _ n => Notification.task_id n <> Some id) (notifications d)));
  set_db (mkStore (users d)
            (delete id (tasks d))
            (filter (fun kv => Comment.task_id kv.2 <> id) (comments d))
            (filter (fun kv => Attachment.task_id kv.2 <> id) (attachments d))
            (notifications d)).

(** [db.session.add(Notification(...)); db.session.commit()] *)
Definition add_notification (title message : string)
    (user_id task_id : option Id) : M Id :=
  do created <- now env;
  do w <- get_world;
  let d := db w in
  exec require (bool_decide (is_Some user_id));
  exec require (fk_ok env (users d) user_id && fk_ok env (tasks d) task_id);
  let id := new_id (notifications d) in
  exec set_db (set_notifications
                 (<[id := Notification.mk title message false created user_id task_id]>
                    (notifications d)) d);
  ret id.

(** [db.session.add(Comment(...)); db.session.commit()] *)
Definition add_comment_row (content : string) (task_id user_id : Id) : M Id :=
  do created <- now env;
  do w <- get_world;
  let d := db w in
  exec require (fk_ok env (tasks d) (Some task_id) && fk_ok env (users d) (Some user_id));
  let id := new_id (comments d) in
  exec set_db (set_comments (<[id := Comment.mk content created task_id user_id]>
                               (comments d)) d);
  ret id.

(** [db.session.add(Attachment(...)); db.session.commit()] *)
Definition add_attachment_row (filename original_filename file_type : string)
    (task_id user_id : Id) : M Id :=
  do uploaded <- now env;
  do w <- get_world;
  let d := db w in
  exec require (fk_ok env (tasks d) (Some task_id) && fk_ok env (users d) (Some user_id));
  let id := new_id (attachments d) in
  exec set_db (set_attachments
                 (<[id := Attachment.mk filename original_filename file_type
                            uploaded task_id user_id]> (attachments d)) d);
  ret id.

(** [db.session.add(User(...)); db.session.commit()]: [username] and
    [email] are [nullable=False] and [unique=True]. *)
Definition add_user (username email : option string) (password_hash role : string)
    : M Id :=
  do created <- now env;
  do w <- get_world;
  let d := db w in
  exec require (bool_decide (is_Some username) && bool_decide (is_Some email));
  exec require (bool_decide (map_Forall
                  (fun _ u => User.username u <> username /\ User.email u <> email)
                  (users d)));
  let id := new_id (users d) in
  exec set_db (set_users (<[id := User.mk username email password_hash role created]>
                            (users d)) d);
  ret id.

(** [notification.is_read = True; db.session.commit()] *)
Definition commit_notification_read (id : Id) (n : Notification.t) : M unit :=
  do w <- get_world;
  set_db (set_notifications
            (<[id := Notification.mk (Notification.title n) (Notification.message n)
                       true (Notification.created_at n) (Notification.user_id n)
                       (Notification.task_id n)]> (notifications (db w))) (db w)).

End Session.
End Session.

(** ** routes.py *)

Module Routes.

(** The fields of the task form, as [request.form.get] returns them. The
    submitted [client_id] is held as the user id it denotes; [None] is a
    missing or empty field. *)
Record TaskForm := mkTaskForm {
  f_title : option string;
  f_description : option string;
  f_client_id : option Id;
  f_service_type : option string;
  f_priority : option string;
  f_deadline : option string;
}.

Record RegisterForm := mkRegisterForm {
  r_username : option string;
  r_email : option string;
  r_password : option string;
  r_confirm_password : option string;
  r_role : option string;
}.

(** An entry of [request.files] for a part that carries a Content-Type
    header, as browsers send it, so that [file.content_type] is a text.
    werkzeug gives such an entry a [filename], which is empty when no file
    was chosen; [None] is a [FileStorage] without a name, which counts as
    no file. *)
Record FileStorage := mkFileStorage {
  fs_filename : option string;
  fs_content_type : string;
}.

Section Handlers.
Context (env : Env).

(** flask_login's [login_required]: [current_user] is the row that
    [load_user] finds for the session's user id; a request without one is
    sent to the login view. The view receives [current_user.id] and the
    row. *)
Definition login_required (rq : Request) (view : Id -> User.t -> M Response)
    : M Response :=
  do w <- get_world;
  match session_user_id rq with
  | Some uid =>
      match users (db w) !! uid with
      | Some u => view uid u
      | None => ret (Redirect "login" (Some ("Please log in to access this page.", "info")))
      end
  | None => ret (Redirect "login" (Some ("Please log in to access this page.", "info")))
  end.

(** Modelled from the spec: [admin_required] of [auth.py], which is not
    among the sources. Section 4.1: an operation that is exclusive to a
    role checks the role of the caller, and a violation fails with an
    authorization error. *)
Definition admin_required (u : User.t) (view : M Response) : M Response :=
  if User.is_admin u then view else raise AuthorizationError.

(** Modelled from the spec: [client_required] of [auth.py], which is not
    among the sources; see [admin_required]. *)
Definition client_required (u : User.t) (view : M Response) : M Response :=
  if User.is_client u then view else raise AuthorizationError.

Definition register (rq : Request) (form : RegisterForm) : M Response :=
  do w <- get_world;
  if bool_decide (is_Some (session_user_id rq ≫= fun uid => users (db w) !! uid)) then
    ret (Redirect "index" None)
  else
    match method rq with
    | POST =>
        let username := r_username form in
        let email := r_email form in
        let password := r_password form in
        let confirm_password := r_confirm_password form in
        let role := default "client" (r_role form) in
        let role := if negb (Py.in_list role ["admin"; "client"]) then "client" else role in
        if bool_decide (map_Exists (fun _ u => User.email u = email) (users (db w))) then
          ret (RenderTemplate "register.html" (Some ("Email already exists", "danger")) None)
        else if bool_decide (map_Exists (fun _ u => User.username u = username) (users (db w))) then
          ret (RenderTemplate "register.html" (Some ("Username already exists", "danger")) None)
        else if negb (bool_decide (password = confirm_password)) then
          ret (RenderTemplate "register.html" (Some ("Passwords do not match", "danger")) None)
        else
          match password with
          | None => raise (PyError "'NoneType' object has no attribute 'encode'")
          | Some pw =>
              exec Session.add_user env username email (generate_password_hash env pw) role;
              ret (Redirect "login"
                     (Some ("Your account has been created! You can now log in", "success")))
          end
    | GET => ret (RenderTemplate "register.html" None None)
    end.

Definition new_task (rq : Request) (form : TaskForm) : M Response :=
  login_required rq (fun uid current_user =>
  admin_required current_user (
    match method rq with
    | POST =>
        let title := f_title form in
        let description := f_description form in
        let client_id := f_client_id form in
        let service_type := f_service_type form in
        let priority := f_priority form in
        let deadline_str := f_deadline form in
        if negb (Py.truthy title) || negb (bool_decide (is_Some client_id)) then
          ret (RenderTemplate "admin/task_form.html"
                 (Some ("Title and client are required!", "danger")) None)
        else
          (* Parse the deadline if provided; the inner [None] is ValueError *)
          let deadline :=
            if Py.truthy deadline_str
            then match strptime env (Py.str deadline_str) with
                 | Some d => Some (Some d)
                 | None => None
                 end
            else Some None in
          match deadline with
          | None =>
              ret (RenderTemplate "admin/task_form.html"
                     (Some ("Invalid deadline format", "danger")) None)
          | Some deadline =>
              (* Create new task *)
              do new_task_id <- Session.add_task env title description service_type
                                  priority deadline client_id uid "pending";
              (* Create notification for the client *)
              exec Session.add_notification env "New Task Assigned"
                     ("You have been assigned a new task: " +:+ Py.str title)
                     client_id (Some new_task_id);
              (* Send email notification *)
              do client <- match client_id with
                           | Some cid => query_get users cid
                           | None => ret None
                           end;
              exec match client with
                   | Some c =>
                       exec Utils.send_task_notification_email env (User.email c)
                              "New Task Assigned"
                              ("You have been assigned a new task: " +:+ Py.str title);
                       ret tt
                   | None => ret tt
                   end;
              ret (Redirect "admin_tasks" (Some ("Task created successfully!", "success")))
          end
    | GET => ret (RenderTemplate "admin/task_form.html" None None)
    end)).

Definition edit_task (rq : Request) (task_id : Id) (form : TaskForm) : M Response :=
  login_required rq (fun uid current_user =>
  admin_required current_user (
    do task <- get_or_404 tasks task_id;
    (* Make sure the admin is the creator of this task *)
    if negb (Task.creator_id task =? uid)%nat then
      ret (Redirect "admin_tasks"
             (Some ("You are not authorized to edit this task", "danger")))
    else
      match method rq with
      | POST =>
          let assigned (deadline : option DateTime) :=
            Task.mk (f_title form) (f_description form) (f_service_type form)
              (f_priority form) (Task.status task) deadline
              (Task.created_at task) (Task.updated_at task)
              (f_client_id form) (Task.creator_id task) in
          let deadline_str := f_deadline form in
          (* Parse the deadline if provided; the outer [None] is ValueError *)
          let parsed :=
            if Py.truthy deadline_str
            then match strptime env (Py.str deadline_str) with
                 | Some d => Some (assigned (Some d))
                 | None => None
                 end
            else Some (assigned (Task.deadline task)) in
          match parsed with
          | None =>
              (* [User.query...all()] flushes the changed task before it
                 selects, which leaves the [onupdate] reading of the clock
                 in the task object that the template gets; nothing is
                 committed, and the end of the request rolls the flush
                 back *)
              do flushed <- Session.flush_task_edit env (assigned (Task.deadline task));
              ret (RenderTemplate "admin/task_form.html"
                     (Some ("Invalid deadline format", "danger"))
                     (Some flushed))
          | Some task =>
              exec Session.commit_task_edit env task_id task;
              (* Create notification for the client *)
              exec Session.add_notification env "Task Updated"
                     ("A task assigned to you has been updated: " +:+ Py.str (Task.title task))
                     (Task.client_id task) (Some task_id);
              (* Send email notification *)
              do client <- match Task.client_id task with
                           | Some cid => query_get users cid
                           | None => ret None
                           end;
              exec match client with
                   | Some c =>
                       exec Utils.send_task_notification_email env (User.email c)
                              "Task Updated"
                              ("A task assigned to you has been updated: "
                                 +:+ Py.str (Task.title task));
                       ret tt
                   | None => ret tt
                   end;
              ret (Redirect "admin_tasks" (Some ("Task updated successfully!", "success")))
          end
      | GET => ret (RenderTemplate "admin/task_form.html" None (Some task))
      end)).

Definition delete_task (rq : Request) (task_id : Id) : M Response :=
  login_required rq (fun uid current_user =>
  admin_required current_user (
    do task <- get_or_404 tasks task_id;
    (* Make sure the admin is the creator of this task *)
    if negb (Task.creator_id task =? uid)%nat then
      ret (Redirect "admin_tasks"
             (Some ("You are not authorized to delete this task", "danger")))
    else
      exec Session.delete_task_row env task_id;
      ret (Redirect "admin_tasks" (Some ("Task deleted successfully!", "success"))))).

Definition update_task_status (rq : Request) (task_id : Id) (status : option string)
    : M Response :=
  login_required rq (fun uid current_user =>
  client_required current_user (
    do task <- get_or_404 tasks task_id;
    (* Make sure the client is assigned to this task *)
    if negb (bool_decide (Task.client_id task = Some uid)) then
      if xhr rq then
        ret (Jsonify (Json.Obj
               [("success", Json.Bool false);
                ("message", Json.Str "You are not authorized to update this task")]))
      else
        ret (Redirect "client_tasks"
               (Some ("You are not authorized to update this task", "danger")))
    else
      let new_status := status in
      if match new_status with
         | Some s => Py.in_list s ["pending"; "in-progress"; "completed"]
         | None => false
         end
      then
        let new_status := Py.str new_status in
        exec (* Only update if the status is actually changing *)
             if negb (String.eqb (Task.status task) new_status) then
               let old_status := Task.status task in
               do t_now <- now env;
               let task' :=
                 Task.mk (Task.title task) (Task.description task)
                   (Task.service_type task) (Task.priority task) new_status
                   (Task.deadline task) (Task.created_at task) t_now
                   (Task.client_id task) (Task.creator_id task) in
               exec Session.commit_task_status env task_id task task';
               (* Create notification for the admin *)
               exec Session.add_notification env "Task Status Updated"
                      ("Task '" +:+ Py.str (Task.title task) +:+ "' status updated from "
                         +:+ old_status +:+ " to " +:+ new_status)
                      (Some (Task.creator_id task)) (Some task_id);
               (* Send email notification *)
               do admin <- query_get users (Task.creator_id task);
               match admin with
               | Some a =>
                   exec Utils.send_task_notification_email env (User.email a)
                          "Task Status Updated"
                          ("Task '" +:+ Py.str (Task.title task)
                             +:+ "' status updated from "
                             +:+ old_status +:+ " to " +:+ new_status);
                   ret tt
               | None => ret tt
               end
             else ret tt;
        (* Check if this is an AJAX request or a regular form submission *)
        if xhr rq then
          ret (Jsonify (Json.Obj
                 [("success", Json.Bool true);
                  ("message", Json.Str ("Task status updated to " +:+ new_status));
                  ("task_id", Json.Int (Z.of_nat task_id));
                  ("new_status", Json.Str new_status)]))
        else
          ret (Redirect "client_task_detail"
                 (Some ("Task status updated to " +:+ new_status, "success")))
      else
        if xhr rq then
          ret (Jsonify (Json.Obj
                 [("success", Json.Bool false);
                  ("message", Json.Str "Invalid status value")]))
        else
          ret (Redirect "client_task_detail" (Some ("Invalid status value", "danger"))))).

Definition add_comment (rq : Request) (task_id : Id) (content : option string)
    : M Response :=
  login_required rq (fun uid current_user =>
    do task <- get_or_404 tasks task_id;
    (* Check authorization (both client assigned to task and admin creator
       can comment) *)
    if negb (bool_decide (Some uid = Task.client_id task))
       && negb (uid =? Task.creator_id task)%nat then
      if String.eqb (User.role current_user) "admin" then
        ret (Redirect "admin_tasks"
               (Some ("You are not authorized to comment on this task", "danger")))
      else
        ret (Redirect "client_tasks"
               (Some ("You are not authorized to comment on this task", "danger")))
    else
      do flashed <-
        if negb (Py.truthy content) then
          ret ("Comment cannot be empty", "danger")
        else
          exec Session.add_comment_row env (Py.str content) task_id uid;
          (* Notify the other party *)
          let recipient_id :=
            if (uid =? Task.creator_id task)%nat
            then Task.client_id task else Some (Task.creator_id task) in
          exec Session.add_notification env "New Comment"
                 ("New comment on task '" +:+ Py.str (Task.title task) +:+ "'")
                 recipient_id (Some task_id);
          ret ("Comment added successfully", "success");
      (* Redirect back to the appropriate page *)
      if String.eqb (User.role current_user) "admin" then
        ret (Redirect "admin_tasks" (Some flashed))
      else
        ret (Redirect "client_task_detail" (Some flashed))).

Definition upload_attachment (rq : Request) (task_id : Id) (file : option FileStorage)
    : M Response :=
  login_required rq (fun uid current_user =>
    do task <- get_or_404 tasks task_id;
    let back (flashed : option Flash) :=
      if String.eqb (User.role current_user) "admin" then
        ret (Redirect "admin_tasks" flashed)
      else
        ret (Redirect "client_task_detail" flashed) in
    (* Check authorization (both client assigned to task and admin creator
       can upload) *)
    if negb (bool_decide (Some uid = Task.client_id task))
       && negb (uid =? Task.creator_id task)%nat then
      if String.eqb (User.role current_user) "admin" then
        ret (Redirect "admin_tasks"
               (Some ("You are not authorized to upload attachments to this task", "danger")))
      else
        ret (Redirect "client_tasks"
               (Some ("You are not authorized to upload attachments to this task", "danger")))
    else
      match file with
      | None =>
          (* the post request has no file part *)
          back (Some ("No file part", "danger"))
      | Some file =>
          if bool_decide (fs_filename file = Some Py.empty) then
            back (Some ("No selected file", "danger"))
          else if Py.truthy (fs_filename file) then
            (* Create a unique filename to prevent conflicts *)
            let original_filename := secure_filename env (Py.str (fs_filename file)) in
            let file_ext := splitext_ext env original_filename in
            do hex <- uuid4 env;
            let unique_filename := hex +:+ file_ext in
            (* Save the file *)
            exec file_save unique_filename;
            (* Create DB record *)
            exec Session.add_attachment_row env unique_filename original_filename
                   (fs_content_type file) task_id uid;
            (* Notify the other party *)
            let recipient_id :=
              if (uid =? Task.creator_id task)%nat
              then Task.client_id task else Some (Task.creator_id task) in
            exec Session.add_notification env "New Attachment"
                   ("New file attached to task '" +:+ Py.str (Task.title task) +:+ "'")
                   recipient_id (Some task_id);
            back (Some ("File uploaded successfully", "success"))
          else
            back None
      end).

Definition mark_notification_read (rq : Request) (notification_id : Id) : M Response :=
  login_required rq (fun uid current_user =>
    do notification <- get_or_404 notifications notification_id;
    (* Make sure the notification belongs to the current user *)
    if negb (bool_decide (Notification.user_id notification = Some uid)) then
      raise Forbidden
    else
      exec Session.commit_notification_read notification_id notification;
      ret (Jsonify (Json.Obj [("success", Json.Bool true)]))).

End Handlers.

(** *** The application as a transition system *)

(** A request that can change the world, with what it submits. *)
Inductive Call :=
| Register (form : RegisterForm)
| NewTask (form : TaskForm)
| EditTask (task_id : Id) (form : TaskForm)
| DeleteTask (task_id : Id)
| UpdateTaskStatus (task_id : Id) (status : option string)
| AddComment (task_id : Id) (content : option string)
| UploadAttachment (task_id : Id) (file : option FileStorage)
| MarkNotificationRead (notification_id : Id).

Definition dispatch (env : Env) (rq : Request) (c : Call) : M Response :=
  match c with
  | Register form => register env rq form
  | NewTask form => new_task env rq form
  | EditTask task_id form => edit_task env rq task_id form
  | DeleteTask task_id => delete_task env rq task_id
  | UpdateTaskStatus task_id status => update_task_status env rq task_id status
  | AddComment task_id content => add_comment env rq task_id content
  | UploadAttachment task_id file => upload_attachment env rq task_id file
  | MarkNotificationRead notification_id => mark_notification_read rq notification_id
  end.

(** The world before the first request: empty tables, nothing sent. *)
Definition initial : World :=
  mkWorld (mkStore ∅ ∅ ∅ ∅ ∅) [] 0 0 [].

(** The worlds that some sequence of requests leads to; each point
    between two requests is an observation point. *)
Inductive reachable (env : Env) : World -> Prop :=
| reachable_initial : reachable env initial
| reachable_step w rq c :
    reachable env w -> reachable env (dispatch env rq c w).2.

End Routes.

(** ** Properties of worlds *)

(** The clock never runs backwards from one reading to the next. *)
Definition monotone_clock (env : Env) : Prop :=
  forall n, (utcnow env n <= utcnow env (S n))%Z.

(** Every task was created by a user of the store. *)
Definition creators_registered (w : World) : Prop :=
  forall id t, tasks (db w) !! id = Some t ->
    is_Some (users (db w) !! Task.creator_id t).

(** Every task was created no later than it was last updated, and no
    later than any reading of the clock still to come. *)
Definition timestamps_ordered (env : Env) (w : World) : Prop :=
  forall id t, tasks (db w) !! id = Some t ->
    (Task.created_at t <= Task.updated_at t)%Z /\
    forall k, clock_reads w <= k -> (Task.created_at t <= utcnow env k)%Z.

Definition invariant (env : Env) (w : World) : Prop :=
  creators_registered w /\ (monotone_clock env -> timestamps_ordered env w).

(** One row was added to the notifications, addressed to [recipient] and
    linked to the task [task_id]; no other row changed. *)
Definition one_notification (w w' : World) (recipient task_id : Id) : Prop :=
  exists nid n,
    notifications (db w) !! nid = None /\
    notifications (db w') = <[nid := n]> (notifications (db w)) /\
    Notification.user_id n = Some recipient /\
    Notification.task_id n = Some task_id.

(** The email helper was called once, with the address of [u]. *)
Definition one_email (w w' : World) (u : User.t) : Prop :=
  exists call,
    email_log w' = (email_log w ++ [call])%list /\
    mail_to call = User.email u.

(** What becomes of a call of the email helper that a request makes in
    world [w] with the address [to]: without an address [mail.send] is
    not reached; with one it is reached once and is sent or fails as the
    transport decides. *)
Definition send_result (env : Env) (w : World) (to : option string) : SendResult :=
  if Py.truthy to then
    if mail_send_raises env (length (email_log w)) then SendFailed else Sent
  else NoRecipient.

(** The email helper was called once, with the address of [u], the
    given subject and body, and the result that the address and the
    transport determine. *)
Definition emailed_once (env : Env) (w w' : World) (u : User.t)
    (subject body : string) : Prop :=
  email_log w' =
    (email_log w ++
       [mkEmailCall (User.email u) subject body (send_result env w (User.email u))])%list.

(** The email helper was not called. *)
Definition no_email (w w' : World) : Prop :=
  email_log w' = email_log w.

(** The user that a comment or an attachment of [uid] on [task] is
    announced to: [recipient_id] in [add_comment] and
    [upload_attachment]. *)
Definition counterparty (uid : Id) (task : Task.t) : option Id :=
  if (uid =? Task.creator_id task)%nat
  then Task.client_id task else Some (Task.creator_id task).

(** ** A concrete deployment, used to run the handlers *)

Module Demo.

(** A clock that reads 0, 1, 2, ...; a mail transport that always fails;
    a [strptime] that knows one date; an engine that checks references. *)
Definition env : Env :=
  mkEnv (fun n => Z.of_nat n)
        (fun _ => true)
        (fun s => if String.eqb s "2030-01-15T09:30"
                  then Some 1894699800000000%Z else None)
        true
        (fun password => "hash:" +:+ password)
        (fun name => name)
        (fun _ => ".txt")
        (fun n => "file" +:+ pretty n).

Definition anonymous : Request := mkRequest None POST false.

Definition as_user (uid : Id) : Request := mkRequest (Some uid) POST false.

Definition alice : Routes.RegisterForm :=
  Routes.mkRegisterForm (Some "alice") (Some "alice@example.com")
    (Some "secret") (Some "secret") (Some "admin").

Definition bob : Routes.RegisterForm :=
  Routes.mkRegisterForm (Some "bob") (Some "bob@example.com")
    (Some "hunter2") (Some "hunter2") (Some "client").

Definition audit : Routes.TaskForm :=
  Routes.mkTaskForm (Some "Audit") (Some "Yearly audit") (Some 1) (Some "Legal")
    None None.

Definition carol : Routes.RegisterForm :=
  Routes.mkRegisterForm (Some "carol") (Some "carol@example.com")
    (Some "tr0ub4dor") (Some "tr0ub4dor") (Some "client").

(** Alice, an admin, has id 0; the clients Bob and Carol have ids 1 and 2. *)
Definition w_alice : World :=
  (Routes.dispatch env anonymous (Routes.Register alice) Routes.initial).2.

Definition w_bob : World :=
  (Routes.dispatch env anonymous (Routes.Register bob) w_alice).2.

Definition w_users : World :=
  (Routes.dispatch env anonymous (Routes.Register carol) w_bob).2.

(** The rows of Alice and Bob. *)
Definition alice_row : User.t :=
  User.mk (Some "alice") (Some "alice@example.com") "hash:secret" "admin" 0.

Definition bob_row : User.t :=
  User.mk (Some "bob") (Some "bob@example.com") "hash:hunter2" "client" 1.

Definition carol_row : User.t :=
  User.mk (Some "carol") (Some "carol@example.com") "hash:tr0ub4dor" "client" 2.

(** Alice has created task 0 for Bob. *)
Definition w_task : World :=
  (Routes.dispatch env (as_user 0) (Routes.NewTask audit) w_users).2.

(** The row of task 0. *)
Definition audit_row : Task.t :=
  Task.mk (Some "Audit") (Some "Yearly audit") (Some "Legal") (Some "medium")
    "pending" None 3 4 (Some 1) 0.

(** The double quote. *)
Definition dq : string := String (ascii_of_nat 34) EmptyString.

(** The JSON text of an object whose two fields are empty texts. *)
Definition empty_fields : string :=
  "{" +:+ dq +:+ "title" +:+ dq +:+ ": " +:+ dq +:+ dq +:+ ", "
      +:+ dq +:+ "description" +:+ dq +:+ ": " +:+ dq +:+ dq +:+ "}".

(** A backend that answers every request with [empty_fields], and a
    decoder that knows this one text. *)
Definition backend_empty_fields : Utils.Backend :=
  Utils.mkBackend
    (fun _ => Utils.Completion [Some empty_fields])
    (fun s => if String.eqb s empty_fields
              then Utils.Decoded
                     (Json.Obj [("title", Json.Str EmptyString);
                                ("description", Json.Str EmptyString)])
              else Utils.JSONDecodeError "Expecting value").

(** The same deployment on an engine that does not check references. *)
Definition lenient_env : Env :=
  mkEnv (utcnow env) (mail_send_raises env) (strptime env) false
        (generate_password_hash env) (secure_filename env) (splitext_ext env)
        (uuid4_hex env).

(** The deployment with a mail transport that works. *)
Definition reliable_env : Env :=
  mkEnv (utcnow env) (fun _ => false) (strptime env) (enforce_foreign_keys env)
        (generate_password_hash env) (secure_filename env) (splitext_ext env)
        (uuid4_hex env).

(** An admin who registers with an empty email address and gets id 0;
    Bob gets id 1, and the admin creates task 0 for him. *)
Definition ghost : Routes.RegisterForm :=
  Routes.mkRegisterForm (Some "ghost") (Some EmptyString)
    (Some "boo") (Some "boo") (Some "admin").

Definition ghost_row : User.t :=
  User.mk (Some "ghost") (Some EmptyString) "hash:boo" "admin" 0.

Definition w_ghost : World :=
  (Routes.dispatch reliable_env anonymous (Routes.Register ghost) Routes.initial).2.

Definition w_ghost_bob : World :=
  (Routes.dispatch reliable_env anonymous (Routes.Register bob) w_ghost).2.

Definition w_haunted : World :=
  (Routes.dispatch reliable_env (as_user 0) (Routes.NewTask audit) w_ghost_bob).2.

(** A task form that names user 99, who does not exist. *)
Definition stray : Routes.TaskForm :=
  Routes.mkTaskForm (Some "Stray") None (Some 99) None None None.

(** A backend that is unreachable. *)
Definition backend_down : Utils.Backend :=
  Utils.mkBackend
    (fun _ => Utils.ApiError "Connection error.")
    (fun _ => Utils.JSONDecodeError "Expecting value").

End Demo.

(** ** More vocabulary for the properties *)

(** The notification [n] once its owner has read it. *)
Definition marked_read (n : Notification.t) : Notification.t :=
  Notification.mk (Notification.title n) (Notification.message n) true
    (Notification.created_at n) (Notification.user_id n) (Notification.task_id n).

(** The deployment [env] with another mail transport. *)
Definition with_mail_transport (raises : nat -> bool) (env : Env) : Env :=
  mkEnv (utcnow env) raises (strptime env) (enforce_foreign_keys env)
    (generate_password_hash env) (secure_filename env) (splitext_ext env)
    (uuid4_hex env).

(** ** More scenes of the concrete deployment *)

Module Scene.

(** The notification that told Bob of task 0. *)
Definition assigned_note : Notification.t :=
  Notification.mk "New Task Assigned" "You have been assigned a new task: Audit"
    false 5 (Some 1) (Some 0).

(** Bob has commented on task 0. *)
Definition w_comment : World :=
  (Routes.dispatch Demo.env (Demo.as_user 1) (Routes.AddComment 0 (Some "On it"))
     Demo.w_task).2.

(** A task form without a title, and one with a deadline that does not
    parse. *)
Definition untitled : Routes.TaskForm :=
  Routes.mkTaskForm None (Some "Yearly audit") (Some 1) None None None.

Definition misdated : Routes.TaskForm :=
  Routes.mkTaskForm (Some "Audit") None (Some 1) None None (Some "next week").

(** A second admin, Dave, with id 3. *)
Definition dave : Routes.RegisterForm :=
  Routes.mkRegisterForm (Some "dave") (Some "dave@example.com")
    (Some "letmein") (Some "letmein") (Some "admin").

Definition dave_row : User.t :=
  User.mk (Some "dave") (Some "dave@example.com") "hash:letmein" "admin" 6.

Definition w_dave : World :=
  (Routes.dispatch Demo.env Demo.anonymous (Routes.Register dave) Demo.w_task).2.

End Scene.

(** ** Queries *)

Module Query.

(** A query is the condition of its WHERE clause; [filter] and
    [filter_by] add a condition to it. *)
Definition and_also {V} (query condition : V -> bool) : V -> bool :=
  fun row => query row && condition row.

(** [query.count()] *)
Definition count {V} (query : V -> bool) (table : gmap Id V) : nat :=
  size (filter (fun kv => query kv.2 = true) table).

(** [query.all()]: the rows with their keys, in the order in which the
    engine returns them, which is fixed here as the order in which the
    table enumerates its rows. *)
Definition all {V} (query : V -> bool) (table : gmap Id V) : list (Id * V) :=
  map_to_list (filter (fun kv => query kv.2 = true) table).

(** [query.first()] *)
Definition first {V} (query : V -> bool) (table : gmap Id V) : option (Id * V) :=
  head (all query table).

Fixpoint insert_by {A} (le : A -> A -> bool) (x : A) (l : list A) : list A :=
  match l with
  | [] => [x]
  | y :: l' => if le x y then x :: l else y :: insert_by le x l'
  end.

(** [order_by(column)]: the rows sorted by [key], ascending. *)
Definition order_by {A} (key : A -> Z) (l : list A) : list A :=
  foldr (insert_by (fun x y => (key x <=? key y)%Z)) [] l.

(** [order_by(column.desc())] *)
Definition order_by_desc {A} (key : A -> Z) (l : list A) : list A :=
  foldr (insert_by (fun x y => (key y <=? key x)%Z)) [] l.

(** [limit(n)] *)
Definition limit {A} (n : nat) (l : list A) : list A := take n l.

End Query.

(** ** routes.py: the views, the download and the AI endpoints *)

Module Views.

(** What the Python runtime, the database engine and werkzeug decide. *)
Record Platform := mkPlatform {
  (** [column.contains(search)] for a column that is not NULL: the
      engine's [column LIKE '%' || search || '%'] *)
  like : string -> string -> bool;
  (** [s.isdigit()] *)
  isdigit : string -> bool;
  (** [int(s)]; [None] is its ValueError *)
  int : string -> option Z;
  (** werkzeug's [check_password_hash(pwhash, password)]; [None] when it
      raises *)
  check_password_hash : string -> option string -> option bool;
}.

(** The query string of the task lists: [request.args.get(name, '')]. *)
Record TaskFilters := mkTaskFilters {
  q_status : string;
  q_priority : string;
  q_client_id : string;
  q_search : string;
}.

(** The context that [admin_dashboard] passes to its template. *)
Record AdminDashboard := mkAdminDashboard {
  ad_total_tasks : nat;
  ad_pending_tasks : nat;
  ad_in_progress_tasks : nat;
  ad_completed_tasks : nat;
  ad_clients : list (Id * User.t);
  ad_recent_tasks : list (Id * Task.t);
  ad_due_soon : list (Id * Task.t);
}.

(** The context that [client_dashboard] passes to its template. *)
Record ClientDashboard := mkClientDashboard {
  cd_total_tasks : nat;
  cd_pending_tasks : nat;
  cd_in_progress_tasks : nat;
  cd_completed_tasks : nat;
  cd_recent_tasks : list (Id * Task.t);
  cd_due_soon : list (Id * Task.t);
  cd_notifications : list (Id * Notification.t);
}.

Inductive Reply :=
| Plain (response : Response)
| AdminDashboardPage (context : AdminDashboard)
| ClientDashboardPage (context : ClientDashboard)
| AdminTasksPage (task_rows : list (Id * Task.t)) (clients : list (Id * User.t))
| ClientTasksPage (task_rows : list (Id * Task.t))
| ClientTaskDetailPage (task : Task.t) (comment_rows : list (Id * Comment.t))
    (attachment_rows : list (Id * Attachment.t))
| SendFromDirectory (filename download_name : string)
    (* [send_from_directory(UPLOAD_FOLDER, filename, as_attachment=True,
       download_name=...)] *)
| JsonStatus (body : Json.t) (status : nat)
    (* [jsonify(...), status]; 200 when the source gives no status *)
| LoggedIn (uid : Id) (next_page : option string).
    (* [login_user(user)], then [redirect(next_page)], or
       [redirect(url_for('index'))] without one *)

(** The fields of the login form with the [next] of the query string. *)
Record LoginForm := mkLoginForm {
  l_email : option string;
  l_password : option string;
  l_next : option string;
}.

Section Views.
Context (env : Env) (platform : Platform) (backend : Utils.Backend).

(** [current_user] when it is authenticated: the row that [load_user]
    finds for the session's user id. *)
Definition current_user (rq : Request) (w : World) : option (Id * User.t) :=
  uid ← session_user_id rq; u ← users (db w) !! uid; Some (uid, u).

(** flask_login's [login_required], as [Routes.login_required], for the
    views of this module. *)
Definition login_required (rq : Request) (view : Id -> User.t -> M Reply) : M Reply :=
  do w <- get_world;
  match session_user_id rq with
  | Some uid =>
      match users (db w) !! uid with
      | Some u => view uid u
      | None =>
          ret (Plain (Redirect "login" (Some ("Please log in to access this page.", "info"))))
      end
  | None =>
      ret (Plain (Redirect "login" (Some ("Please log in to access this page.", "info"))))
  end.

(** Modelled from the spec: [admin_required] of [auth.py], which is not
    among the sources, as [Routes.admin_required]. *)
Definition admin_required (u : User.t) (view : M Reply) : M Reply :=
  if User.is_admin u then view else raise AuthorizationError.

(** Modelled from the spec: [client_required] of [auth.py], which is not
    among the sources, as [Routes.client_required]. *)
Definition client_required (u : User.t) (view : M Reply) : M Reply :=
  if User.is_client u then view else raise AuthorizationError.

Definition index (rq : Request) : M Reply :=
  do w <- get_world;
  match current_user rq w with
  | Some (_, u) =>
      if String.eqb (User.role u) "admin" then
        ret (Plain (Redirect "admin_dashboard" None))
      else
        ret (Plain (Redirect "client_dashboard" None))
  | None => ret (Plain (Redirect "login" None))
  end.

Definition login (rq : Request) (form : LoginForm) : M Reply :=
  do w <- get_world;
  if bool_decide (is_Some (current_user rq w)) then
    ret (Plain (Redirect "index" None))
  else
    match method rq with
    | POST =>
        let email := l_email form in
        let password := l_password form in
        let user := Query.first (fun u => bool_decide (User.email u = email))
                      (users (db w)) in
        do checked <- match user with
                      | Some (_, u) =>
                          match check_password_hash platform (User.password_hash u)
                                  password with
                          | Some ok => ret ok
                          | None => raise (PyError "check_password_hash")
                          end
                      | None => ret false
                      end;
        match user with
        | Some (uid, _) =>
            if (checked : bool) then ret (LoggedIn uid (l_next form))
            else
              ret (Plain (RenderTemplate "login.html"
                            (Some ("Login unsuccessful. Please check email and password",
                                   "danger")) None))
        | None =>
            ret (Plain (RenderTemplate "login.html"
                          (Some ("Login unsuccessful. Please check email and password",
                                 "danger")) None))
        end
    | GET => ret (Plain (RenderTemplate "login.html" None None))
    end.

(** [Task.deadline > today]; a NULL deadline compares to nothing. *)
Definition later_than (today : DateTime) (deadline : option DateTime) : bool :=
  match deadline with
  | Some d => (today <? d)%Z
  | None => false
  end.

Definition deadline_key (row : Id * Task.t) : Z := default 0%Z (Task.deadline row.2).

Definition admin_dashboard (rq : Request) : M Reply :=
  login_required rq (fun uid current_user =>
    admin_required current_user (
      do w <- get_world;
      let mine (t : Task.t) := (Task.creator_id t =? uid)%nat in
      (* Get counts for dashboard *)
      let total_tasks := Query.count mine (tasks (db w)) in
      let pending_tasks :=
        Query.count (fun t => mine t && String.eqb (Task.status t) "pending")
          (tasks (db w)) in
      let in_progress_tasks :=
        Query.count (fun t => mine t && String.eqb (Task.status t) "in-progress")
          (tasks (db w)) in
      let completed_tasks :=
        Query.count (fun t => mine t && String.eqb (Task.status t) "completed")
          (tasks (db w)) in
      (* Get clients for this admin *)
      let clients := Query.all (fun u => String.eqb (User.role u) "client")
                       (users (db w)) in
      (* Get recent tasks *)
      let recent_tasks :=
        Query.limit 5 (Query.order_by_desc (fun row => Task.created_at row.2)
                         (Query.all mine (tasks (db w)))) in
      (* Get tasks due soon (in the next 7 days) *)
      do today <- now env;
      let due_soon :=
        Query.limit 5
          (Query.order_by deadline_key
             (Query.all (fun t => mine t
                                  && negb (String.eqb (Task.status t) "completed")
                                  && later_than today (Task.deadline t))
                (tasks (db w)))) in
      ret (AdminDashboardPage
             (mkAdminDashboard total_tasks pending_tasks in_progress_tasks
                completed_tasks clients recent_tasks due_soon)))).

(** The conditions that the task lists add for the query string. *)
Definition with_status (status : string) (query : Task.t -> bool) : Task.t -> bool :=
  if Py.truthy (Some status)
  then Query.and_also query (fun t => String.eqb (Task.status t) status)
  else query.

Definition with_priority (priority : string) (query : Task.t -> bool)
    : Task.t -> bool :=
  if Py.truthy (Some priority)
  then Query.and_also query (fun t => bool_decide (Task.priority t = Some priority))
  else query.

(** [Task.title.contains(search) | Task.description.contains(search)]: a
    NULL column matches nothing. *)
Definition contains (search : string) (column : option string) : bool :=
  match column with
  | Some text => like platform text search
  | None => false
  end.

Definition with_search (search : string) (query : Task.t -> bool) : Task.t -> bool :=
  if Py.truthy (Some search)
  then Query.and_also query
         (fun t => contains search (Task.title t) || contains search (Task.description t))
  else query.

Definition admin_tasks (rq : Request) (args : TaskFilters) : M Reply :=
  login_required rq (fun uid current_user =>
    admin_required current_user (
      (* Get filter parameters *)
      let status := q_status args in
      let priority := q_priority args in
      let client_id := q_client_id args in
      let search := q_search args in
      (* Build the query *)
      let query (t : Task.t) := (Task.creator_id t =? uid)%nat in
      let query := with_status status query in
      let query := with_priority priority query in
      do query <- (if Py.truthy (Some client_id) && isdigit platform client_id then
                     match int platform client_id with
                     | Some n =>
                         ret (Query.and_also query
                                (fun t => bool_decide
                                            (Z.of_nat <$> Task.client_id t = Some n)))
                     | None => raise (PyError "invalid literal for int() with base 10")
                     end
                   else ret query);
      let query := with_search search query in
      do w <- get_world;
      (* Sort by creation date (newest first) *)
      let task_rows := Query.order_by_desc (fun row => Task.created_at row.2)
                         (Query.all query (tasks (db w))) in
      (* Get all clients for the filter dropdown *)
      let clients := Query.all (fun u => String.eqb (User.role u) "client")
                       (users (db w)) in
      ret (AdminTasksPage task_rows clients))).

Definition client_dashboard (rq : Request) : M Reply :=
  login_required rq (fun uid current_user =>
    client_required current_user (
      do w <- get_world;
      let mine (t : Task.t) := bool_decide (Task.client_id t = Some uid) in
      (* Get counts for dashboard *)
      let total_tasks := Query.count mine (tasks (db w)) in
      let pending_tasks :=
        Query.count (fun t => mine t && String.eqb (Task.status t) "pending")
          (tasks (db w)) in
      let in_progress_tasks :=
        Query.count (fun t => mine t && String.eqb (Task.status t) "in-progress")
          (tasks (db w)) in
      let completed_tasks :=
        Query.count (fun t => mine t && String.eqb (Task.status t) "completed")
          (tasks (db w)) in
      (* Get recent tasks *)
      let recent_tasks :=
        Query.limit 5 (Query.order_by_desc (fun row => Task.created_at row.2)
                         (Query.all mine (tasks (db w)))) in
      (* Get tasks due soon (in the next 7 days) *)
      do today <- now env;
      let due_soon :=
        Query.limit 5
          (Query.order_by deadline_key
             (Query.all (fun t => mine t
                                  && negb (String.eqb (Task.status t) "completed")
                                  && later_than today (Task.deadline t))
                (tasks (db w)))) in
      (* Get unread notifications *)
      let unread :=
        Query.limit 5
          (Query.order_by_desc (fun row => Notification.created_at row.2)
             (Query.all (fun n => bool_decide (Notification.user_id n = Some uid)
                                  && negb (Notification.is_read n))
                (notifications (db w)))) in
      ret (ClientDashboardPage
             (mkClientDashboard total_tasks pending_tasks in_progress_tasks
                completed_tasks recent_tasks due_soon unread)))).

Definition client_tasks (rq : Request) (args : TaskFilters) : M Reply :=
  login_required rq (fun uid current_user =>
    client_required current_user (
      (* Get filter parameters *)
      let status := q_status args in
      let priority := q_priority args in
      let search := q_search args in
      (* Build the query *)
      let query (t : Task.t) := bool_decide (Task.client_id t = Some uid) in
      let query := with_status status query in
      let query := with_priority priority query in
      let query := with_search search query in
      do w <- get_world;
      (* Sort by creation date (newest first) *)
      ret (ClientTasksPage
             (Query.order_by_desc (fun row => Task.created_at row.2)
                (Query.all query (tasks (db w))))))).

Definition client_task_detail (rq : Request) (task_id : Id) : M Reply :=
  login_required rq (fun uid current_user =>
    client_required current_user (
      do task <- get_or_404 tasks task_id;
      (* Make sure the client is assigned to this task *)
      if negb (bool_decide (Task.client_id task = Some uid)) then
        ret (Plain (Redirect "client_tasks"
                      (Some ("You are not authorized to view this task", "danger"))))
      else
        do w <- get_world;
        (* Get comments for this task *)
        let comment_rows :=
          Query.order_by (fun row => Comment.created_at row.2)
            (Query.all (fun c => (Comment.task_id c =? task_id)%nat) (comments (db w))) in
        (* Get attachments for this task *)
        let attachment_rows :=
          Query.order_by_desc (fun row => Attachment.uploaded_at row.2)
            (Query.all (fun a => (Attachment.task_id a =? task_id)%nat)
               (attachments (db w))) in
        ret (ClientTaskDetailPage task comment_rows attachment_rows))).

(** [send_from_directory]: 404 unless the upload folder holds the file. *)
Definition send_from_directory (filename download_name : string) : M Reply :=
  do w <- get_world;
  if Py.in_list filename (upload_folder w)
  then ret (SendFromDirectory filename download_name)
  else raise NotFound.

Definition download_file (rq : Request) (filename : string) : M Reply :=
  login_required rq (fun uid current_user =>
    do w <- get_world;
    match Query.first (fun a => String.eqb (Attachment.filename a) filename)
            (attachments (db w)) with
    | None => raise NotFound
    | Some (_, attachment) =>
        do task <- get_or_404 tasks (Attachment.task_id attachment);
        (* Check authorization (both client assigned to task and admin
           creator can download) *)
        if negb (bool_decide (Some uid = Task.client_id task))
           && negb (uid =? Task.creator_id task)%nat then
          raise Forbidden
        else
          send_from_directory filename (Attachment.original_filename attachment)
    end).

(** [result.get('error', default)] for the dict of a draft. *)
Definition error_or (default : string) (draft : Utils.Draft) : string :=
  match Utils.draft_error draft with
  | Some msg => msg
  | None => default
  end.

Definition generate_task_description_api (rq : Request)
    (service_type keywords : string) (client_name priority : option string)
    : M Reply :=
  login_required rq (fun uid current_user =>
    admin_required current_user (
      if negb (Py.truthy (Some service_type)) || negb (Py.truthy (Some keywords)) then
        ret (JsonStatus
               (Json.Obj [("success", Json.Bool false);
                          ("error", Json.Str "Service type and keywords are required")])
               400)
      else
        let result := Utils.generate_ai_task_description backend service_type keywords
                        client_name priority in
        if Utils.draft_success result then
          ret (JsonStatus
                 (Json.Obj [("success", Json.Bool true);
                            ("title", Utils.draft_title result);
                            ("description", Utils.draft_description result)])
                 200)
        else
          ret (JsonStatus
                 (Json.Obj [("success", Json.Bool false);
                            ("error", Json.Str (error_or "Failed to generate task description"
                                                  result))])
                 500))).

Definition analyze_task_priority_api (rq : Request) (description : string)
    (deadline_days : option string) : M Reply :=
  login_required rq (fun uid current_user =>
    admin_required current_user (
      if negb (Py.truthy (Some description)) then
        ret (JsonStatus
               (Json.Obj [("success", Json.Bool false);
                          ("error", Json.Str "Task description is required")])
               400)
      else
        do deadline_days <-
          match deadline_days with
          | Some text =>
              if Py.truthy (Some text) && isdigit platform text then
                match int platform text with
                | Some n => ret (Some n)
                | None => raise (PyError "invalid literal for int() with base 10")
                end
              else ret None
          | None => ret None
          end;
        let priority := Utils.analyze_task_priority backend description deadline_days in
        ret (JsonStatus
               (Json.Obj [("success", Json.Bool true); ("priority", Json.Str priority)])
               200))).

(** [get_unread_notification_count] of [utility_processor], as the
    templates call it while a page is rendered in world [w]. *)
Definition get_unread_notification_count (rq : Request) (w : World) : nat :=
  match current_user rq w with
  | Some (uid, _) =>
      Query.count (fun n => bool_decide (Notification.user_id n = Some uid)
                            && negb (Notification.is_read n))
        (notifications (db w))
  | None => 0
  end.

End Views.
End Views.

(** ** Visits to the concrete deployment *)

Module Visit.

(** A decimal digit of the ASCII range. *)
Definition is_digit (c : ascii) : bool :=
  let n := nat_of_ascii c in ((48 <=? n) && (n <=? 57))%nat.

(** [s.isdigit()] for a text of the ASCII range: not empty, and digits
    only. *)
Definition isdigit (s : string) : bool :=
  match s with
  | EmptyString => false
  | String _ _ => forallb is_digit (list_ascii_of_string s)
  end.

(** [int(s)] for a text of ASCII digits. *)
Definition int (s : string) : option Z :=
  if isdigit s then
    Some (fold_left (fun acc c => (10 * acc + (Z.of_nat (nat_of_ascii c) - 48))%Z)
            (list_ascii_of_string s) 0%Z)
  else None.

(** An engine whose LIKE tells the case of letters apart, Python on
    ASCII texts, and the password check that goes with the hashes of
    [Demo.env]. *)
Definition platform : Views.Platform :=
  Views.mkPlatform
    (fun text search => Py.contains text search)
    isdigit
    int
    (fun pwhash password =>
       match password with
       | Some p => Some (String.eqb pwhash ("hash:" +:+ p))
       | None => None
       end).

(** No filter at all, and the filter of the tasks that are pending. *)
Definition everything : Views.TaskFilters :=
  Views.mkTaskFilters EmptyString EmptyString EmptyString EmptyString.

Definition pending_only : Views.TaskFilters :=
  Views.mkTaskFilters "pending" EmptyString EmptyString EmptyString.

(** A client id that is no number. *)
Definition of_client_bob : Views.TaskFilters :=
  Views.mkTaskFilters EmptyString EmptyString "bob" EmptyString.

(** Bob has attached a file to task 0. *)
Definition notes : Routes.FileStorage :=
  Routes.mkFileStorage (Some "notes.txt") "text/plain".

Definition w_notes : World :=
  (Routes.dispatch Demo.env (Demo.as_user 1) (Routes.UploadAttachment 0 (Some notes))
     Demo.w_task).2.

(** Bob's credentials. *)
Definition bob_logs_in : Views.LoginForm :=
  Views.mkLoginForm (Some "bob@example.com") (Some "hunter2") (Some "/client/tasks").

End Visit.

(** ** utils.py: the voice command *)

Module Voice.

(** The text after the first comma of [s]. *)
Fixpoint after_comma (s : string) : string :=
  match s with
  | EmptyString => EmptyString
  | String c r => if Ascii.eqb c "," then r else after_comma r
  end.

(** The text before the first comma of [s], all of [s] without one. *)
Fixpoint before_comma (s : string) : string :=
  match s with
  | EmptyString => EmptyString
  | String c r => if Ascii.eqb c "," then EmptyString else String c (before_comma r)
  end.

(** [s.split(',')[1]] for a text with a comma: what stands between the
    first comma and the next one, or the end. *)
Definition second_field (s : string) : string := before_comma (after_comma s).

(** What decodes, stores and transcribes the audio. *)
Record Speech := mkSpeech {
  (** [base64.b64decode]; left is the message of its exception *)
  b64decode : string -> Utils.Try string;
  (** the path of the [n]-th [tempfile.NamedTemporaryFile(suffix='.webm')] *)
  temp_name : nat -> string;
  (** [openai_client.audio.transcriptions.create] on the file that holds
      the given bytes: the [text] of the transcript, or the message of
      the exception *)
  transcriptions_create : string -> Utils.Try string;
}.

(** The directory of the temporary files. *)
Record TempDir := mkTempDir {
  files : list string;   (* the files it holds *)
  made : nat;            (* how many were ever created *)
}.

(** The dict that [process_voice_command] returns. *)
Record Command := mkCommand {
  transcript : string;
  task_info : Json.t;
  success : bool;
  error : option string;
}.

(** The prompt that [process_voice_command] builds from the transcript
    and the arguments it passes to the backend. *)
Definition extraction_request (text : string) : Utils.ChatRequest :=
  let prompt :=
    "Extract task information from this voice command: '" +:+ text +:+ "'" +:+ Py.nl +:+
    "Parse it into JSON format with the following fields:" +:+ Py.nl +:+
    "1. title: The task title (create a concise, professional title based on the context)"
      +:+ Py.nl +:+
    "2. description: Detailed task description (expand on what was mentioned to create a comprehensive task description)"
      +:+ Py.nl +:+
    "3. service_type: Type of service (e.g., Legal, IT, Consulting, Design, etc.)"
      +:+ Py.nl +:+
    "4. priority: Task priority (low, medium, high - infer based on urgency words or task importance)"
      +:+ Py.nl +:+
    "5. client_name: Name of the client (exact name as mentioned)" +:+ Py.nl +:+
    "6. deadline: Suggested deadline in days from now (if mentioned or can be reasonably inferred)"
      +:+ Py.nl +:+
    "Always extract as much detail as possible from the voice command. If specific information isn't provided, make a reasonable inference based on the context of the task."
  in
  Utils.mkChatRequest "gpt-4o"
    "You are an assistant that extracts task information from voice commands."
    prompt true "0.3" 500.

(** The dict of the [except] branch. *)
Definition failed (msg : string) : Command :=
  mkCommand EmptyString (Json.Obj []) false (Some msg).

Section Voice.
Context (speech : Speech) (backend : Utils.Backend).

(** [process_voice_command(audio_base64)] for a text, in a directory of
    temporary files; creating, writing and removing the file are taken
    to succeed. *)
Definition process_voice_command (audio_base64 : string) (tmp : TempDir)
    : Command * TempDir :=
  (* Decode base64 audio *)
  match b64decode speech (if Py.contains audio_base64 ","
                          then second_field audio_base64 else audio_base64) with
  | inl msg => (failed msg, tmp)
  | inr audio_data =>
      (* Save to temporary file *)
      let temp_path := temp_name speech (made tmp) in
      let saved := mkTempDir (files tmp ++ [temp_path]) (S (made tmp)) in
      (* Transcribe audio using OpenAI Whisper *)
      match transcriptions_create speech audio_data with
      | inl msg => (failed msg, saved)
      | inr text =>
          (* Delete temporary file *)
          let removed :=
            mkTempDir (List.filter (fun f => negb (String.eqb f temp_path)) (files saved))
              (made saved) in
          (* Process the transcript to extract task information *)
          let response := Utils.chat_completions_create backend
                            (extraction_request text) in
          (* Parse the response *)
          match Utils.first_content response with
          | inl msg => (failed msg, removed)
          | inr (Some content) =>
              match Utils.json_loads backend content with
              | Utils.Decoded result => (mkCommand text result true None, removed)
              | Utils.JSONDecodeError msg => (failed msg, removed)
              end
          | inr None => (failed "No content received from AI", removed)
          end
      end
  end.

End Voice.

(** A decoder that takes every text as it is, and a transcription
    service that is down. *)
Definition deaf : Speech :=
  mkSpeech (fun s => inr s) (fun n => "/tmp/tmp" +:+ pretty n +:+ ".webm")
    (fun _ => inl "Connection error.").

Definition empty_dir : TempDir := mkTempDir [] 0.

End Voice.

(** * Proofs *)

Import Utils Routes.

(** ** Running the model *)

Example strip_lower_reply : Py.lower (Py.strip ("  High " +:+ Py.nl)) = "high".
Proof. reflexivity. Qed.

Example strip_inner_space : Py.strip "  in progress  " = "in progress".
Proof. reflexivity. Qed.

(** A no-break space (U+00A0) before and an em space (U+2003) after the
    word are white space to [strip]; a zero width space (U+200B) is
    not. *)
Example strip_unicode_space :
  let nbsp := String (ascii_of_nat 194) (String (ascii_of_nat 160) EmptyString) in
  let emsp := String (ascii_of_nat 226) (String (ascii_of_nat 128)
                (String (ascii_of_nat 131) EmptyString)) in
  let zwsp := String (ascii_of_nat 226) (String (ascii_of_nat 128)
                (String (ascii_of_nat 139) EmptyString)) in
  Py.lower (Py.strip (nbsp +:+ "High" +:+ emsp)) = "high" /\
  Py.strip (zwsp +:+ "high") = zwsp +:+ "high".
Proof. split; reflexivity. Qed.

Example priority_when_backend_down :
  analyze_task_priority Demo.backend_down "The server room is flooding" (Some 1%Z)
    = "medium".
Proof. reflexivity. Qed.

Example draft_when_backend_down :
  generate_ai_task_description Demo.backend_down "IT" "backup" None (Some "high")
    = failed_draft "Connection error.".
Proof. reflexivity. Qed.

(** Bob moves task 0 to 'in-progress': the reply, the task row and the
    email log, with a transport that fails. *)
Example bob_starts_task :
  let r := update_task_status Demo.env (Demo.as_user 1) 0 (Some "in-progress")
             Demo.w_task in
  r.1 = Return (Redirect "client_task_detail"
                  (Some ("Task status updated to in-progress", "success"))) /\
  tasks (db r.2) !! 0 =
    Some (Task.mk (Some "Audit") (Some "Yearly audit") (Some "Legal") (Some "medium")
            "in-progress" None 3 6 (Some 1) 0) /\
  email_log r.2 =
    [mkEmailCall (Some "bob@example.com") "New Task Assigned"
       "You have been assigned a new task: Audit" SendFailed;
     mkEmailCall (Some "alice@example.com") "Task Status Updated"
       "Task 'Audit' status updated from pending to in-progress" SendFailed].
Proof. repeat split; vm_compute; reflexivity. Qed.

(** A task for a user id that nobody has: an engine that checks
    references refuses the INSERT; one that does not stores the task and
    the notification, and [if client:] skips the email. *)
Example stray_task_strict :
  new_task Demo.env (Demo.as_user 0) Demo.stray Demo.w_users =
    (Raise IntegrityError,
     mkWorld (db Demo.w_users) [] 5 0 []).
Proof. vm_compute. reflexivity. Qed.

Example stray_task_lenient :
  let r := new_task Demo.lenient_env (Demo.as_user 0) Demo.stray Demo.w_users in
  r.1 = Return (Redirect "admin_tasks" (Some ("Task created successfully!", "success"))) /\
  size (tasks (db r.2)) = 1 /\
  size (notifications (db r.2)) = 1 /\
  email_log r.2 = [].
Proof. repeat split; vm_compute; reflexivity. Qed.

(** ** Evaluating a handler *)

Arguments String.append : simpl never.
Arguments Py.in_list : simpl never.
Arguments Py.truthy : simpl never.
Arguments fk_ok : simpl never.
Arguments new_id : simpl never.
Arguments String.eqb : simpl never.
Arguments Nat.eqb : simpl never.

(** Unfold the handlers and the monad down to functions of the world. *)
Ltac unfold_handlers :=
  unfold dispatch, register, new_task, edit_task, delete_task, update_task_status,
    add_comment, upload_attachment, mark_notification_read,
    login_required, admin_required, client_required, get_or_404, query_get,
    Session.add_task, Session.commit_task_edit, Session.flush_task_edit,
    Session.commit_task_status, Session.delete_task_row, Session.add_notification,
    Session.add_comment_row, Session.add_attachment_row, Session.add_user,
    Session.commit_notification_read, send_task_notification_email,
    require, log_email, file_save, uuid4, set_db, now, bind, ret, raise, get_world.

(** Split on the next test that the evaluation is stuck on. *)
Ltac step :=
  match goal with
  | |- context [bool_decide ?P] => destruct (bool_decide_reflect P)
  | |- context [match ?x with _ => _ end] =>
      lazymatch x with
      | context [match _ with _ => _ end] => fail
      | _ => destruct x eqn:?
      end
  end; cbn in *.

(** ** Basic facts *)

Lemma in_list_In x xs : Py.in_list x xs = true <-> In x xs.
Proof.
  unfold Py.in_list. rewrite existsb_exists. split.
  - intros (y & Hy & He). apply String.eqb_eq in He. by subst.
  - intros H. exists x. split; [done | apply String.eqb_refl].
Qed.

Lemma in_list_not_In x xs : ~ In x xs -> Py.in_list x xs = false.
Proof. intros H. apply not_true_is_false. by rewrite in_list_In. Qed.

Lemma is_client_role u : User.role u = "client" -> User.is_client u = true.
Proof. unfold User.is_client. by intros ->. Qed.

Lemma is_admin_role u : User.role u = "admin" -> User.is_admin u = true.
Proof. unfold User.is_admin. by intros ->. Qed.

Lemma fk_ok_Some {V} env (table : gmap Id V) k v :
  table !! k = Some v -> fk_ok env table (Some k) = true.
Proof.
  intros H. unfold fk_ok. rewrite H, bool_decide_eq_true_2 by eauto.
  apply orb_true_r.
Qed.

Lemma fk_ok_insert {V} env (table : gmap Id V) k v :
  fk_ok env (<[k := v]> table) (Some k) = true.
Proof. eapply fk_ok_Some, lookup_insert_eq. Qed.

Lemma new_id_fresh {V} (table : gmap Id V) : table !! new_id table = None.
Proof. unfold new_id. apply not_elem_of_dom, is_fresh. Qed.


Lemma status_differs a b : a <> b -> negb (String.eqb b a) = true.
Proof. intros H. apply negb_true_iff, String.eqb_neq. congruence. Qed.

(** ** What each handler does on its main path *)

(** Run [update_task_status] up to the ownership check, for a client who
    is logged in and a task that exists. *)
Ltac enter_update Hsession Huser Hrole Htask :=
  unfold_handlers; cbn;
  rewrite Hsession; cbn; rewrite Huser; cbn;
  rewrite (is_client_role _ Hrole); cbn; rewrite Htask; cbn.

Section UpdateTaskStatus.
Context (env : Env) (rq : Request) (task_id uid : Id) (cu : User.t) (task : Task.t)
  (w : World).
Context (Hsession : session_user_id rq = Some uid)
  (Huser : users (db w) !! uid = Some cu)
  (Hrole : User.role cu = "client")
  (Htask : tasks (db w) !! task_id = Some task).

Lemma update_task_status_effects s admin :
  Task.client_id task = Some uid ->
  users (db w) !! Task.creator_id task = Some admin ->
  In s ["pending"; "in-progress"; "completed"] ->
  s <> Task.status task ->
  exists resp w' k nid created result,
    let msg := "Task '" +:+ Py.str (Task.title task) +:+ "' status updated from "
                 +:+ Task.status task +:+ " to " +:+ s in
    update_task_status env rq task_id (Some s) w = (Return resp, w') /\
    clock_reads w <= k < clock_reads w' /\
    tasks (db w') =
      <[task_id := Task.mk (Task.title task) (Task.description task)
                     (Task.service_type task) (Task.priority task) s
                     (Task.deadline task) (Task.created_at task) (utcnow env k)
                     (Task.client_id task) (Task.creator_id task)]> (tasks (db w)) /\
    notifications (db w) !! nid = None /\
    notifications (db w') =
      <[nid := Notification.mk "Task Status Updated" msg false created
                 (Some (Task.creator_id task)) (Some task_id)]> (notifications (db w)) /\
    email_log w' =
      (email_log w ++
         [mkEmailCall (User.email admin) "Task Status Updated" msg result])%list /\
    users (db w') = users (db w) /\
    comments (db w') = comments (db w) /\
    attachments (db w') = attachments (db w) /\
    result = send_result env w (User.email admin).
Proof.
  intros Hc Hadmin Hs Hne. unfold send_result. enter_update Hsession Huser Hrole Htask.
  rewrite bool_decide_eq_true_2 by done. cbn.
  rewrite (proj2 (in_list_In _ _) Hs). cbn. rewrite (status_differs _ _ Hne). cbn.
  step.
  all: rewrite (fk_ok_Some _ _ _ _ Hadmin), fk_ok_insert; cbn; rewrite Hadmin; cbn.
  all: repeat step.
  all: do 6 eexists; cbn.
  all: repeat match goal with |- _ /\ _ => split end.
  all: cbn.
  all: try lazymatch goal with |- _ = _ => first [reflexivity | apply new_id_fresh] end.
  all: cbn; lia.
Qed.
End UpdateTaskStatus.

Lemma truthy_is_Some o : Py.truthy o = true -> is_Some o.
Proof. destruct o; [eauto | discriminate]. Qed.

(** Discharge the reference checks that the hypotheses settle. *)
Ltac fk :=
  repeat (first [rewrite fk_ok_insert | erewrite fk_ok_Some by eassumption]; cbn).

(** Close the equations between the worlds, then the bounds on the
    clock. *)
Ltac finish_effects :=
  repeat match goal with |- _ /\ _ => split end;
  cbn;
  try lazymatch goal with |- _ = _ => first [reflexivity | apply new_id_fresh] end;
  cbn; try lia.

Section AdminHandlers.
Context (env : Env) (rq : Request) (uid : Id) (cu : User.t) (w : World).
Context (Hsession : session_user_id rq = Some uid)
  (Huser : users (db w) !! uid = Some cu)
  (Hrole : User.role cu = "admin")
  (Hpost : method rq = POST).


Lemma new_task_effects form cid client :
  Py.truthy (f_title form) = true ->
  f_client_id form = Some cid ->
  users (db w) !! cid = Some client ->
  (Py.truthy (f_deadline form) = true ->
   is_Some (strptime env (Py.str (f_deadline form)))) ->
  exists w' created result,
    let tid := new_id (tasks (db w)) in
    let nid := new_id (notifications (db w)) in
    let msg := "You have been assigned a new task: " +:+ Py.str (f_title form) in
    new_task env rq form w =
      (Return (Redirect "admin_tasks" (Some ("Task created successfully!", "success"))),
       w') /\
    tasks (db w') =
      <[tid := Task.mk (f_title form) (f_description form) (f_service_type form)
                 (Some (default "medium" (f_priority form))) "pending"
                 (if Py.truthy (f_deadline form)
                  then strptime env (Py.str (f_deadline form)) else None)
                 (utcnow env (clock_reads w)) (utcnow env (S (clock_reads w)))
                 (Some cid) uid]> (tasks (db w)) /\
    notifications (db w') =
      <[nid := Notification.mk "New Task Assigned" msg false created
                 (Some cid) (Some tid)]> (notifications (db w)) /\
    email_log w' =
      (email_log w ++ [mkEmailCall (User.email client) "New Task Assigned" msg result])%list /\
    users (db w') = users (db w) /\
    comments (db w') = comments (db w) /\
    attachments (db w') = attachments (db w) /\
    result = send_result env w (User.email client).
Proof.
  intros Htitle Hcid Hclient Hdl. unfold send_result.
  unfold_handlers; cbn.
  rewrite Hsession; cbn; rewrite Huser; cbn.
  rewrite (is_admin_role _ Hrole), Hpost, Htitle, Hcid; cbn.
  destruct (Py.truthy (f_deadline form)) eqn:Ht; cbn.
  1: destruct (Hdl eq_refl) as [d Hd]; rewrite Hd; cbn.
  all: rewrite !bool_decide_eq_true_2 by eauto using truthy_is_Some; cbn.
  all: fk; rewrite Hclient; cbn.
  all: repeat step.
  all: do 3 eexists; finish_effects.
Qed.

Lemma creator_is_current task : Task.creator_id task = uid ->
  negb (Task.creator_id task =? uid)%nat = false.
Proof. intros ->. by rewrite Nat.eqb_refl. Qed.

Lemma edit_task_effects task_id task form cid client :
  tasks (db w) !! task_id = Some task ->
  Task.creator_id task = uid ->
  is_Some (f_title form) ->
  is_Some (f_priority form) ->
  f_client_id form = Some cid ->
  users (db w) !! cid = Some client ->
  (Py.truthy (f_deadline form) = true ->
   is_Some (strptime env (Py.str (f_deadline form)))) ->
  exists w' created result,
    let nid := new_id (notifications (db w)) in
    let msg := "A task assigned to you has been updated: " +:+ Py.str (f_title form) in
    edit_task env rq task_id form w =
      (Return (Redirect "admin_tasks" (Some ("Task updated successfully!", "success"))),
       w') /\
    tasks (db w') =
      <[task_id := Task.mk (f_title form) (f_description form) (f_service_type form)
                     (f_priority form) (Task.status task)
                     (if Py.truthy (f_deadline form)
                      then strptime env (Py.str (f_deadline form))
                      else Task.deadline task)
                     (Task.created_at task) (utcnow env (clock_reads w))
                     (Some cid) (Task.creator_id task)]> (tasks (db w)) /\
    notifications (db w') =
      <[nid := Notification.mk "Task Updated" msg false created
                 (Some cid) (Some task_id)]> (notifications (db w)) /\
    email_log w' =
      (email_log w ++ [mkEmailCall (User.email client) "Task Updated" msg result])%list /\
    users (db w') = users (db w) /\
    comments (db w') = comments (db w) /\
    attachments (db w') = attachments (db w) /\
    result = send_result env w (User.email client).
Proof.
  intros Htask Hcreator Htitle Hprio Hcid Hclient Hdl. unfold send_result.
  unfold_handlers; cbn.
  rewrite Hsession; cbn; rewrite Huser; cbn.
  rewrite (is_admin_role _ Hrole), Htask; cbn.
  rewrite (creator_is_current _ Hcreator), Hpost, Hcid; cbn.
  destruct (Py.truthy (f_deadline form)) eqn:Ht; cbn.
  1: destruct (Hdl eq_refl) as [d Hd]; rewrite Hd; cbn.
  all: rewrite !bool_decide_eq_true_2 by eauto; cbn.
  all: fk; rewrite Hclient; cbn.
  all: repeat step.
  all: do 3 eexists; finish_effects.
Qed.

Lemma edit_task_bad_deadline task_id task form :
  tasks (db w) !! task_id = Some task ->
  Task.creator_id task = uid ->
  Py.truthy (f_deadline form) = true ->
  strptime env (Py.str (f_deadline form)) = None ->
  exists o w',
    edit_task env rq task_id form w = (o, w') /\
    (o = Return (RenderTemplate "admin/task_form.html"
                   (Some ("Invalid deadline format", "danger"))
                   (Some (Task.mk (f_title form) (f_description form)
                            (f_service_type form) (f_priority form) (Task.status task)
                            (Task.deadline task) (Task.created_at task)
                            (utcnow env (clock_reads w)) (f_client_id form)
                            (Task.creator_id task))))
     \/ o = Raise IntegrityError) /\
    db w' = db w /\
    email_log w' = email_log w.
Proof.
  intros Htask Hcreator Ht Hd.
  unfold_handlers; cbn.
  rewrite Hsession; cbn; rewrite Huser; cbn.
  rewrite (is_admin_role _ Hrole), Htask; cbn.
  rewrite (creator_is_current _ Hcreator), Hpost, Ht, Hd; cbn.
  repeat step; do 2 eexists; (split; [reflexivity|]); cbn; auto.
Qed.

End AdminHandlers.

Section PartyHandlers.
Context (env : Env) (rq : Request) (uid : Id) (cu : User.t) (w : World)
  (task_id : Id) (task : Task.t) (rid : Id) (recipient : User.t).
Context (Hsession : session_user_id rq = Some uid)
  (Huser : users (db w) !! uid = Some cu)
  (Htask : tasks (db w) !! task_id = Some task)
  (Hparty : Task.client_id task = Some uid \/ Task.creator_id task = uid)
  (Hrid : (if (uid =? Task.creator_id task)%nat
           then Task.client_id task else Some (Task.creator_id task)) = Some rid)
  (Hrecipient : users (db w) !! rid = Some recipient).

Lemma party_authorized :
  negb (bool_decide (Some uid = Task.client_id task))
    && negb (uid =? Task.creator_id task)%nat = false.
Proof.
  destruct Hparty as [H | H].
  - by rewrite bool_decide_eq_true_2.
  - rewrite <- H, Nat.eqb_refl. apply andb_false_r.
Qed.

Lemma add_comment_effects content :
  Py.truthy content = true ->
  exists resp w' created ncreated,
    let cid := new_id (comments (db w)) in
    let nid := new_id (notifications (db w)) in
    add_comment env rq task_id content w = (Return resp, w') /\
    comments (db w') =
      <[cid := Comment.mk (Py.str content) created task_id uid]> (comments (db w)) /\
    notifications (db w') =
      <[nid := Notification.mk "New Comment"
                 ("New comment on task '" +:+ Py.str (Task.title task) +:+ "'")
                 false ncreated (Some rid) (Some task_id)]> (notifications (db w)) /\
    email_log w' = email_log w /\
    users (db w') = users (db w) /\
    tasks (db w') = tasks (db w) /\
    attachments (db w') = attachments (db w).
Proof.
  intros Hcontent.
  unfold_handlers; cbn.
  rewrite Hsession; cbn; rewrite Huser; cbn; rewrite Htask; cbn.
  rewrite party_authorized, Hcontent; cbn.
  fk. rewrite Hrid; cbn. fk.
  repeat step; do 4 eexists; finish_effects.
Qed.

Lemma upload_attachment_effects file name :
  fs_filename file = Some name ->
  name <> EmptyString ->
  exists resp w' uploaded ncreated,
    let aid := new_id (attachments (db w)) in
    let nid := new_id (notifications (db w)) in
    let original_filename := secure_filename env name in
    let unique_filename :=
      uuid4_hex env (uuid_draws w) +:+ splitext_ext env original_filename in
    upload_attachment env rq task_id (Some file) w = (Return resp, w') /\
    attachments (db w') =
      <[aid := Attachment.mk unique_filename original_filename (fs_content_type file)
                 uploaded task_id uid]> (attachments (db w)) /\
    notifications (db w') =
      <[nid := Notification.mk "New Attachment"
                 ("New file attached to task '" +:+ Py.str (Task.title task) +:+ "'")
                 false ncreated (Some rid) (Some task_id)]> (notifications (db w)) /\
    email_log w' = email_log w /\
    users (db w') = users (db w) /\
    tasks (db w') = tasks (db w) /\
    comments (db w') = comments (db w).
Proof.
  intros Hname Hne.
  unfold_handlers; cbn.
  rewrite Hsession; cbn; rewrite Huser; cbn; rewrite Htask; cbn.
  rewrite party_authorized, Hname; cbn.
  rewrite bool_decide_eq_false_2 by (unfold Py.empty; congruence). cbn.
  replace (Py.truthy (Some name)) with true by (by destruct name).
  cbn. fk. rewrite Hrid; cbn. fk.
  repeat step; do 4 eexists; finish_effects.
Qed.

End PartyHandlers.

(** ** The invariant of the reachable worlds *)

Lemma monotone_clock_le env n m :
  monotone_clock env -> n <= m -> (utcnow env n <= utcnow env m)%Z.
Proof.
  intros Hm Hle. induction Hle as [|m Hle IH]; [lia|].
  specialize (Hm m). lia.
Qed.


(** The invariant carries over to a world whose clock is not behind,
    whose users include the old ones, and whose tasks are each an old
    task, a new task stamped by the clock, or an old task with a later
    [updated_at]. *)
Lemma invariant_step env w W :
  invariant env w ->
  clock_reads w <= clock_reads W ->
  (forall k, is_Some (users (db w) !! k) -> is_Some (users (db W) !! k)) ->
  (forall id t', tasks (db W) !! id = Some t' ->
     tasks (db w) !! id = Some t' \/
     (is_Some (users (db W) !! Task.creator_id t') /\
      exists j k, clock_reads w <= j /\ j <= k /\ k < clock_reads W /\
        Task.created_at t' = utcnow env j /\ Task.updated_at t' = utcnow env k) \/
     (exists t, tasks (db w) !! id = Some t /\
        Task.creator_id t' = Task.creator_id t /\
        Task.created_at t' = Task.created_at t /\
        exists k, clock_reads w <= k /\ k < clock_reads W /\
          Task.updated_at t' = utcnow env k)) ->
  invariant env W.
Proof.
  intros [Hc Ht] Hclock Husers Htasks. split.
  - intros id t' Hl. destruct (Htasks id t' Hl) as [H | [[H _] | (t & H & Hcr & _)]].
    + by eapply Husers, Hc.
    + done.
    + rewrite Hcr. by eapply Husers, Hc.
  - intros Hm id t' Hl. specialize (Ht Hm).
    destruct (Htasks id t' Hl) as [H | [[_ H] | (t & H & _ & Hcr & k & Hk1 & Hk2 & Hu)]].
    + destruct (Ht id t' H) as [H1 H2]. split; [done|]. intros k Hk. apply H2. lia.
    + destruct H as (j & k & Hj & Hjk & Hk & -> & ->). split.
      * by apply monotone_clock_le.
      * intros k' Hk'. apply monotone_clock_le; [done | lia].
    + destruct (Ht id t H) as [H1 H2]. rewrite Hcr, Hu. split.
      * by apply H2.
      * intros k' Hk'. apply H2. lia.
Qed.


(** Classify a task of the new world as untouched, new or updated. *)
Ltac close_tasks :=
  let id := fresh "id" in
  let t' := fresh "t'" in
  let Hl := fresh "Hl" in
  intros id t' Hl;
  first
    [ left; exact Hl
    | match type of Hl with
      | <[?k := _]> _ !! _ = _ =>
          destruct (decide (id = k)) as [->|];
          [ rewrite lookup_insert_eq in Hl; injection Hl as <-; cbn; right;
            first
              [ left; split; [eexists; eassumption|];
                do 2 eexists; repeat split; lia
              | right; eexists; split; [eassumption|]; cbn; repeat split;
                eexists; repeat split; lia ]
          | rewrite lookup_insert_ne in Hl by done; left; exact Hl ]
      | delete ?k _ !! _ = _ =>
          destruct (decide (id = k)) as [->|];
          [ by rewrite lookup_delete_eq in Hl
          | rewrite lookup_delete_ne in Hl by done; left; exact Hl ]
      end ].

(** Every request preserves the invariant. *)
Lemma dispatch_preserves env rq c w :
  invariant env w -> invariant env (dispatch env rq c w).2.
Proof.
  intros Hinv. destruct c; unfold_handlers; cbn.
  all: repeat step.
  all: try assumption.
  all: eapply invariant_step;
    [ eassumption
    | cbn; lia
    | cbn; first [done | intros k Hk; rewrite lookup_insert; case_decide; eauto]
    | cbn; close_tasks ].
Qed.

Lemma reachable_invariant env w : reachable env w -> invariant env w.
Proof.
  induction 1 as [|w rq c _ IH]; [|by apply dispatch_preserves].
  split; [|intros _]; intros id t Hl; cbn in Hl; by rewrite lookup_empty in Hl.
Qed.

(** A task that [new_task] adds takes its two timestamps from two
    successive readings of the clock. *)
Lemma new_task_timestamps env rq form w id t :
  tasks (db w) !! id = None ->
  tasks (db (new_task env rq form w).2) !! id = Some t ->
  Task.created_at t = utcnow env (clock_reads w) /\
  Task.updated_at t = utcnow env (S (clock_reads w)).
Proof.
  intros Hnone. unfold_handlers; cbn.
  repeat step; intros Hl; try congruence.
  all: rewrite lookup_insert in Hl; case_decide; [|congruence].
  all: by injection Hl as <-.
Qed.

(** No request changes the [created_at] of a task that exists. *)
Lemma created_at_stable env rq c w id t t' :
  tasks (db w) !! id = Some t ->
  tasks (db (dispatch env rq c w).2) !! id = Some t' ->
  Task.created_at t' = Task.created_at t.
Proof.
  intros Hsome. destruct c; unfold_handlers; cbn.
  all: repeat step; intros Hl; try congruence.
  all: try (rewrite lookup_insert in Hl; case_decide; simplify_eq; try congruence).
  all: try reflexivity.
  all: try (rewrite new_id_fresh in Hsome; discriminate).
  all: try (rewrite lookup_delete in Hl; case_decide; congruence).
Qed.

(** ** Properties of the specification *)

(** C1, as the spec has it, fails for a creator without an address. The
    admin of task 0 has registered with an empty email, which [register]
    accepts. Bob moves the task to 'in-progress' over a mail transport
    that works: the status is written and the admin gets the
    notification, but the email helper returns at [if not to] and no send
    is attempted. *)
Lemma status_update_without_send_attempt :
  let r := update_task_status Demo.reliable_env (Demo.as_user 1) 0 (Some "in-progress")
             Demo.w_haunted in
  reachable Demo.reliable_env Demo.w_haunted /\
  users (db Demo.w_haunted) !! 0 = Some Demo.ghost_row /\
  tasks (db Demo.w_haunted) !! 0 =
    Some (Task.mk (Some "Audit") (Some "Yearly audit") (Some "Legal") (Some "medium")
            "pending" None 2 3 (Some 1) 0) /\
  r.1 = Return (Redirect "client_task_detail"
                  (Some ("Task status updated to in-progress", "success"))) /\
  tasks (db r.2) !! 0 =
    Some (Task.mk (Some "Audit") (Some "Yearly audit") (Some "Legal") (Some "medium")
            "in-progress" None 2 5 (Some 1) 0) /\
  one_notification Demo.w_haunted r.2 0 0 /\
  email_log r.2 =
    (email_log Demo.w_haunted ++
       [mkEmailCall (Some EmptyString) "Task Status Updated"
          "Task 'Audit' status updated from pending to in-progress" NoRecipient])%list.
Proof.
  cbn zeta. split.
  { unfold Demo.w_haunted, Demo.w_ghost_bob, Demo.w_ghost. repeat constructor. }
  do 4 (split; [vm_compute; reflexivity|]). split; [|vm_compute; reflexivity].
  exists 1, (Notification.mk "Task Status Updated"
               "Task 'Audit' status updated from pending to in-progress" false 6%Z
               (Some 0) (Some 0)).
  repeat split; vm_compute; reflexivity.
Qed.

(** C1, amended. A status update by the assigned client to a different,
    valid status writes the new status and a fresh [updated_at] to the
    task, adds exactly one notification for the task's creator whose
    message names the old and the new status, and calls the email helper
    exactly once with the creator's address and that message. What
    becomes of the call is [send_result]: with a non-empty address the
    helper makes one attempt to send, which the transport lets succeed
    or fail without any bearing on the rest; with an empty address it
    attempts no send. *)
Theorem update_task_status_notifies_creator
    env rq task_id uid cu task s w :
  reachable env w ->
  session_user_id rq = Some uid ->
  users (db w) !! uid = Some cu ->
  User.role cu = "client" ->
  tasks (db w) !! task_id = Some task ->
  Task.client_id task = Some uid ->
  In s ["pending"; "in-progress"; "completed"] ->
  s <> Task.status task ->
  exists resp w' admin k nid created,
    let msg := "Task '" +:+ Py.str (Task.title task) +:+ "' status updated from "
                 +:+ Task.status task +:+ " to " +:+ s in
    update_task_status env rq task_id (Some s) w = (Return resp, w') /\
    users (db w) !! Task.creator_id task = Some admin /\
    clock_reads w <= k < clock_reads w' /\
    tasks (db w') =
      <[task_id := Task.mk (Task.title task) (Task.description task)
                     (Task.service_type task) (Task.priority task) s
                     (Task.deadline task) (Task.created_at task) (utcnow env k)
                     (Task.client_id task) (Task.creator_id task)]> (tasks (db w)) /\
    notifications (db w) !! nid = None /\
    notifications (db w') =
      <[nid := Notification.mk "Task Status Updated" msg false created
                 (Some (Task.creator_id task)) (Some task_id)]> (notifications (db w)) /\
    email_log w' =
      (email_log w ++
         [mkEmailCall (User.email admin) "Task Status Updated" msg
            (send_result env w (User.email admin))])%list.
Proof.
  intros Hreach Hsession Huser Hrole Htask Hclient Hs Hne.
  destruct (proj1 (reachable_invariant _ _ Hreach) _ _ Htask) as [admin Hadmin].
  destruct (update_task_status_effects env rq task_id uid cu task w
              Hsession Huser Hrole Htask s admin Hclient Hadmin Hs Hne)
    as (resp & w' & k & nid & created & result & H).
  cbn zeta in H. destruct H as (Hrun & Hk & Ht & Hfresh & Hn & Hmail & _ & _ & _ & Hres).
  exists resp, w', admin, k, nid, created. cbn zeta. subst result. auto 10.
Qed.

(** Bob, the assignee of task 0, moves it from 'pending' to
    'in-progress'; the transport fails on the email to Alice. *)
Lemma update_task_status_notifies_creator_witness :
  exists resp w' admin k nid created,
    update_task_status Demo.env (Demo.as_user 1) 0 (Some "in-progress") Demo.w_task
      = (Return resp, w') /\
    users (db Demo.w_task) !! 0 = Some admin /\
    clock_reads Demo.w_task <= k < clock_reads w' /\
    tasks (db w') =
      <[0 := Task.mk (Some "Audit") (Some "Yearly audit") (Some "Legal") (Some "medium")
               "in-progress" None 3%Z (utcnow Demo.env k) (Some 1) 0]>
        (tasks (db Demo.w_task)) /\
    notifications (db Demo.w_task) !! nid = None /\
    notifications (db w') =
      <[nid := Notification.mk "Task Status Updated"
                 "Task 'Audit' status updated from pending to in-progress" false created
                 (Some 0) (Some 0)]> (notifications (db Demo.w_task)) /\
    email_log w' =
      (email_log Demo.w_task ++
         [mkEmailCall (User.email admin) "Task Status Updated"
            "Task 'Audit' status updated from pending to in-progress"
            (send_result Demo.env Demo.w_task (User.email admin))])%list.
Proof.
  apply (update_task_status_notifies_creator Demo.env (Demo.as_user 1) 0 1
           Demo.bob_row Demo.audit_row
           "in-progress" Demo.w_task).
  - unfold Demo.w_task, Demo.w_users, Demo.w_bob, Demo.w_alice. repeat constructor.
  - reflexivity.
  - vm_compute. reflexivity.
  - reflexivity.
  - vm_compute. reflexivity.
  - reflexivity.
  - simpl. auto.
  - discriminate.
Defined.

(** C2. A status update by the assigned client that asks for the status
    the task already has leaves the whole world as it was: the task row
    with its [updated_at], the notifications, the log of email calls and
    even the count of clock readings. *)
Theorem update_task_status_same_status_noop env rq task_id uid cu task w :
  session_user_id rq = Some uid ->
  users (db w) !! uid = Some cu ->
  User.role cu = "client" ->
  tasks (db w) !! task_id = Some task ->
  Task.client_id task = Some uid ->
  exists resp,
    update_task_status env rq task_id (Some (Task.status task)) w = (Return resp, w).
Proof.
  intros Hsession Huser Hrole Htask Hclient.
  enter_update Hsession Huser Hrole Htask.
  rewrite bool_decide_eq_true_2 by done. cbn.
  destruct (Py.in_list _ _); [rewrite String.eqb_refl; cbn|];
    destruct (xhr rq); eauto.
Qed.

(** Bob asks for 'pending' while task 0 is pending. *)
Lemma update_task_status_same_status_noop_witness :
  exists resp,
    update_task_status Demo.env (Demo.as_user 1) 0 (Some "pending") Demo.w_task
      = (Return resp, Demo.w_task).
Proof.
  apply (update_task_status_same_status_noop Demo.env (Demo.as_user 1) 0 1
           Demo.bob_row Demo.audit_row
           Demo.w_task).
  - reflexivity.
  - vm_compute. reflexivity.
  - reflexivity.
  - vm_compute. reflexivity.
  - reflexivity.
Defined.

(** C3. A status update by an authenticated client who is not the
    task's assignee is answered with the authorization failure (as JSON
    for an AJAX request, as a flashed redirect otherwise) and leaves the
    whole world as it was. *)
Theorem update_task_status_rejects_other_client
    env rq task_id status uid cu task w :
  session_user_id rq = Some uid ->
  users (db w) !! uid = Some cu ->
  User.role cu = "client" ->
  tasks (db w) !! task_id = Some task ->
  Task.client_id task <> Some uid ->
  update_task_status env rq task_id status w =
    (Return (if xhr rq
             then Jsonify (Json.Obj
                    [("success", Json.Bool false);
                     ("message", Json.Str "You are not authorized to update this task")])
             else Redirect "client_tasks"
                    (Some ("You are not authorized to update this task", "danger"))),
     w).
Proof.
  intros Hsession Huser Hrole Htask Hne.
  enter_update Hsession Huser Hrole Htask.
  rewrite bool_decide_eq_false_2 by done. cbn.
  by destruct (xhr rq).
Qed.

(** Carol, a client, tries to complete Bob's task 0. *)
Lemma update_task_status_rejects_other_client_witness :
  update_task_status Demo.env (Demo.as_user 2) 0 (Some "completed") Demo.w_task =
    (Return (Redirect "client_tasks"
               (Some ("You are not authorized to update this task", "danger"))),
     Demo.w_task).
Proof.
  apply (update_task_status_rejects_other_client Demo.env (Demo.as_user 2) 0
           (Some "completed") 2 Demo.carol_row Demo.audit_row Demo.w_task).
  - reflexivity.
  - vm_compute. reflexivity.
  - reflexivity.
  - vm_compute. reflexivity.
  - discriminate.
Defined.

(** C10. A status update by the assignee whose status field is missing
    or is none of the three tokens is answered with 'Invalid status
    value' and leaves the whole world as it was. *)
Theorem update_task_status_invalid_rejected env rq task_id status uid cu task w :
  session_user_id rq = Some uid ->
  users (db w) !! uid = Some cu ->
  User.role cu = "client" ->
  tasks (db w) !! task_id = Some task ->
  Task.client_id task = Some uid ->
  (forall s, status = Some s -> ~ In s ["pending"; "in-progress"; "completed"]) ->
  update_task_status env rq task_id status w =
    (Return (if xhr rq
             then Jsonify (Json.Obj
                    [("success", Json.Bool false);
                     ("message", Json.Str "Invalid status value")])
             else Redirect "client_task_detail" (Some ("Invalid status value", "danger"))),
     w).
Proof.
  intros Hsession Huser Hrole Htask Hclient Hbad.
  enter_update Hsession Huser Hrole Htask.
  rewrite bool_decide_eq_true_2 by done. cbn.
  destruct status as [s|]; [rewrite (in_list_not_In s) by auto|]; by destruct (xhr rq).
Qed.

(** Bob submits the status 'done'. *)
Lemma update_task_status_invalid_rejected_witness :
  update_task_status Demo.env (Demo.as_user 1) 0 (Some "done") Demo.w_task =
    (Return (Redirect "client_task_detail" (Some ("Invalid status value", "danger"))),
     Demo.w_task).
Proof.
  apply (update_task_status_invalid_rejected Demo.env (Demo.as_user 1) 0
           (Some "done") 1 Demo.bob_row Demo.audit_row Demo.w_task).
  - reflexivity.
  - vm_compute. reflexivity.
  - reflexivity.
  - vm_compute. reflexivity.
  - reflexivity.
  - intros s [= <-]. simpl. intuition discriminate.
Defined.

(** C5. An edit that the task's creator submits with a deadline text
    that [strptime] refuses is not carried out: the handler answers with
    the form and the format error (or fails on the flush that the query
    for the form's client list triggers), no row of the store changes
    and the email helper is not called. The task that the form shows is
    the object as the flush left it: the submitted fields, the stored
    deadline, and the reading of the clock that [onupdate] took for
    [updated_at]; none of it is in the store. *)
Theorem edit_task_bad_deadline_rejected env rq task_id form uid cu task w :
  session_user_id rq = Some uid ->
  users (db w) !! uid = Some cu ->
  User.role cu = "admin" ->
  method rq = POST ->
  tasks (db w) !! task_id = Some task ->
  Task.creator_id task = uid ->
  Py.truthy (f_deadline form) = true ->
  strptime env (Py.str (f_deadline form)) = None ->
  exists o w',
    edit_task env rq task_id form w = (o, w') /\
    (o = Return (RenderTemplate "admin/task_form.html"
                   (Some ("Invalid deadline format", "danger"))
                   (Some (Task.mk (f_title form) (f_description form)
                            (f_service_type form) (f_priority form) (Task.status task)
                            (Task.deadline task) (Task.created_at task)
                            (utcnow env (clock_reads w)) (f_client_id form)
                            (Task.creator_id task))))
     \/ o = Raise IntegrityError) /\
    db w' = db w /\
    email_log w' = email_log w.
Proof.
  intros Hsession Huser Hrole Hpost Htask Hcreator Htruthy Hparse.
  by eapply edit_task_bad_deadline.
Qed.

(** Alice edits task 0 and writes 'tomorrow' as the deadline. *)
Lemma edit_task_bad_deadline_rejected_witness :
  exists o w',
    edit_task Demo.env (Demo.as_user 0) 0
      (mkTaskForm (Some "Audit 2030") None (Some 2) None (Some "high") (Some "tomorrow"))
      Demo.w_task = (o, w') /\
    (o = Return (RenderTemplate "admin/task_form.html"
                   (Some ("Invalid deadline format", "danger"))
                   (Some (Task.mk (Some "Audit 2030") None None (Some "high") "pending"
                            None 3%Z 6%Z (Some 2) 0)))
     \/ o = Raise IntegrityError) /\
    db w' = db Demo.w_task /\
    email_log w' = email_log Demo.w_task.
Proof.
  apply (edit_task_bad_deadline_rejected Demo.env (Demo.as_user 0) 0
           (mkTaskForm (Some "Audit 2030") None (Some 2) None (Some "high")
              (Some "tomorrow"))
           0 Demo.alice_row Demo.audit_row Demo.w_task).
  - reflexivity.
  - vm_compute. reflexivity.
  - reflexivity.
  - reflexivity.
  - vm_compute. reflexivity.
  - reflexivity.
  - reflexivity.
  - reflexivity.
Defined.

(** C8, as the spec has it, fails when the assignee id names nobody. On
    an engine that does not check references Alice creates a task for
    user 99, who does not exist: the creation succeeds with status
    'pending' and one notification, but the notification is addressed to
    nobody and [if client:] skips the email, so that no send is
    attempted. *)
Lemma task_created_for_nobody :
  let r := new_task Demo.lenient_env (Demo.as_user 0) Demo.stray Demo.w_users in
  reachable Demo.lenient_env Demo.w_users /\
  users (db Demo.w_users) !! 99 = None /\
  r.1 = Return (Redirect "admin_tasks" (Some ("Task created successfully!", "success"))) /\
  tasks (db r.2) =
    {[0 := Task.mk (Some "Stray") None None (Some "medium") "pending" None 3 4
             (Some 99) 0]} /\
  notifications (db r.2) =
    {[0 := Notification.mk "New Task Assigned" "You have been assigned a new task: Stray"
             false 5 (Some 99) (Some 0)]} /\
  email_log r.2 = [].
Proof.
  cbn zeta. split.
  { replace Demo.w_users with
      (dispatch Demo.lenient_env Demo.anonymous (Register Demo.carol)
         (dispatch Demo.lenient_env Demo.anonymous (Register Demo.bob)
            (dispatch Demo.lenient_env Demo.anonymous (Register Demo.alice)
               initial).2).2).2
      by (vm_compute; reflexivity).
    repeat constructor. }
  repeat split; vm_compute; reflexivity.
Qed.

(** C8, amended. A task creation by an admin succeeds when the title is
    not empty, an assignee id is given, the deadline is absent or parses,
    and the assignee id names a user or the engine does not check
    references. Every successful creation has stored exactly one new
    task, whose status is 'pending', and exactly one notification, whose
    [user_id] is the submitted assignee id. When that id names a user,
    the email helper was called exactly once with the user's address:
    one attempt to send if the address is not empty, whatever the
    transport makes of it, and none if it is empty ([send_result]). When
    the id names nobody, which only an engine that does not check
    references lets through, the helper was not called. *)
Theorem new_task_pending_and_notifies env rq form uid cu w :
  session_user_id rq = Some uid ->
  users (db w) !! uid = Some cu ->
  User.role cu = "admin" ->
  method rq = POST ->
  let success :=
    Return (Redirect "admin_tasks" (Some ("Task created successfully!", "success"))) in
  (forall cid,
     Py.truthy (f_title form) = true ->
     f_client_id form = Some cid ->
     (Py.truthy (f_deadline form) = true ->
      is_Some (strptime env (Py.str (f_deadline form)))) ->
     enforce_foreign_keys env = false \/ is_Some (users (db w) !! cid) ->
     (new_task env rq form w).1 = success) /\
  (forall w',
     new_task env rq form w = (success, w') ->
     exists cid t created,
       let tid := new_id (tasks (db w)) in
       let nid := new_id (notifications (db w)) in
       let msg := "You have been assigned a new task: " +:+ Py.str (f_title form) in
       Py.truthy (f_title form) = true /\
       f_client_id form = Some cid /\
       tasks (db w) !! tid = None /\
       tasks (db w') = <[tid := t]> (tasks (db w)) /\
       Task.status t = "pending" /\
       Task.title t = f_title form /\
       Task.client_id t = Some cid /\
       Task.creator_id t = uid /\
       notifications (db w) !! nid = None /\
       notifications (db w') =
         <[nid := Notification.mk "New Task Assigned" msg false created
                    (Some cid) (Some tid)]> (notifications (db w)) /\
       email_log w' =
         (email_log w ++
            match users (db w) !! cid with
            | Some client =>
                [mkEmailCall (User.email client) "New Task Assigned" msg
                   (send_result env w (User.email client))]
            | None => []
            end)%list /\
       (users (db w) !! cid = None -> enforce_foreign_keys env = false)).
Proof.
  intros Hsession Huser Hrole Hpost. cbn zeta. split.
  - intros cid Htitle Hcid Hdl Hfk.
    unfold_handlers; cbn.
    rewrite Hsession; cbn; rewrite Huser; cbn.
    rewrite (is_admin_role _ Hrole), Hpost, Htitle, Hcid; cbn.
    destruct (Py.truthy (f_deadline form)) eqn:Ht; cbn.
    1: destruct (Hdl eq_refl) as [d Hd]; rewrite Hd; cbn.
    all: rewrite !bool_decide_eq_true_2 by eauto using truthy_is_Some; cbn.
    all: rewrite (fk_ok_Some _ _ _ _ Huser), andb_true_r.
    all: replace (fk_ok env (users (db w)) (Some cid)) with true
           by (symmetry; unfold fk_ok; destruct Hfk as [-> | H];
               [done | rewrite bool_decide_eq_true_2 by done; apply orb_true_r]).
    all: cbn; rewrite fk_ok_insert, andb_true_r.
    all: replace (fk_ok env (users (db w)) (Some cid)) with true
           by (symmetry; unfold fk_ok; destruct Hfk as [-> | H];
               [done | rewrite bool_decide_eq_true_2 by done; apply orb_true_r]).
    all: cbn; repeat step; reflexivity.
  - intros w'. unfold send_result.
    unfold_handlers; cbn.
    rewrite Hsession; cbn; rewrite Huser; cbn.
    rewrite (is_admin_role _ Hrole), Hpost; cbn.
    repeat step; intros Hrun; simplify_eq.
    all: try match goal with H : is_Some None |- _ => by destruct H end.
    all: do 3 eexists.
    all: repeat match goal with |- _ /\ _ => split end.
    all: cbn.
    all: try lazymatch goal with
             | |- _ = _ => first [reflexivity | apply new_id_fresh]
             end.
    all: try (rewrite orb_false_r in *; by apply negb_false_iff).
    all: try match goal with
             | H : users ?d !! ?c = _ |- context [users ?d !! ?c] =>
                 rewrite H;
                 try match goal with
                     | |- context [Py.truthy ?e] => destruct (Py.truthy e)
                     end;
                 cbn in *; rewrite ?app_nil_r; congruence
             end.
    all: try congruence.
    all: intros _; unfold fk_ok in *;
         destruct (enforce_foreign_keys env); [|done]; cbn in *;
         repeat match goal with
                | H : _ && _ = true |- _ => apply andb_true_iff in H; destruct H
                end;
         match goal with
         | H : bool_decide (is_Some (users _ !! _)) = true |- _ =>
             apply bool_decide_eq_true in H; destruct H; congruence
         end.
Qed.

(** Alice creates the audit task for Bob; the transport fails on the
    email to him. *)
Lemma new_task_pending_and_notifies_witness :
  exists cid t created,
    Py.truthy (f_title Demo.audit) = true /\
    f_client_id Demo.audit = Some cid /\
    tasks (db Demo.w_users) !! new_id (tasks (db Demo.w_users)) = None /\
    tasks (db Demo.w_task) =
      <[new_id (tasks (db Demo.w_users)) := t]> (tasks (db Demo.w_users)) /\
    Task.status t = "pending" /\
    Task.title t = f_title Demo.audit /\
    Task.client_id t = Some cid /\
    Task.creator_id t = 0 /\
    notifications (db Demo.w_users) !! new_id (notifications (db Demo.w_users)) = None /\
    notifications (db Demo.w_task) =
      <[new_id (notifications (db Demo.w_users)) :=
          Notification.mk "New Task Assigned"
            ("You have been assigned a new task: " +:+ Py.str (f_title Demo.audit))
            false created (Some cid) (Some (new_id (tasks (db Demo.w_users))))]>
        (notifications (db Demo.w_users)) /\
    email_log Demo.w_task =
      (email_log Demo.w_users ++
         match users (db Demo.w_users) !! cid with
         | Some client =>
             [mkEmailCall (User.email client) "New Task Assigned"
                ("You have been assigned a new task: " +:+ Py.str (f_title Demo.audit))
                (send_result Demo.env Demo.w_users (User.email client))]
         | None => []
         end)%list /\
    (users (db Demo.w_users) !! cid = None -> enforce_foreign_keys Demo.env = false).
Proof.
  refine (proj2 (new_task_pending_and_notifies Demo.env (Demo.as_user 0) Demo.audit 0
                   Demo.alice_row Demo.w_users _ _ _ _) Demo.w_task _).
  - reflexivity.
  - vm_compute. reflexivity.
  - reflexivity.
  - reflexivity.
  - vm_compute. reflexivity.
Defined.

(** C4, as the spec has it, fails for comments: Bob comments on task 0;
    the comment is stored and Alice gets a notification, but the email
    helper is not called. *)
Lemma comment_added_sends_no_email :
  let w' := (add_comment Demo.env (Demo.as_user 1) 0 (Some "On it") Demo.w_task).2 in
  comments (db Demo.w_task) = ∅ /\
  comments (db w') !! 0 = Some (Comment.mk "On it" 6%Z 0 1) /\
  one_notification Demo.w_task w' 0 0 /\
  ~ one_email Demo.w_task w' Demo.alice_row.
Proof.
  cbn zeta. split; [reflexivity|]. split; [vm_compute; reflexivity|]. split.
  - exists 1, (Notification.mk "New Comment" "New comment on task 'Audit'" false 7%Z
                 (Some 0) (Some 0)).
    repeat split; vm_compute; reflexivity.
  - intros (call & Hlog & _). apply (f_equal length) in Hlog.
    rewrite length_app in Hlog. vm_compute in Hlog. lia.
Qed.

(** C4, amended. Each tracked event adds exactly one notification for
    the counterparty, who is taken to be a registered user. A task
    created, a task updated and a status changed also call the email
    helper exactly once, with the counterparty's address and the subject
    and message of the event; with a non-empty address that is one
    attempt to send, whatever the transport makes of it, and with an
    empty address no send is attempted ([send_result]). A comment added
    and an attachment added call the helper not at all. *)
Theorem tracked_events_notify env rq uid cu w :
  session_user_id rq = Some uid ->
  users (db w) !! uid = Some cu ->
  (* task created *)
  (forall form cid client,
     User.role cu = "admin" -> method rq = POST ->
     Py.truthy (f_title form) = true ->
     f_client_id form = Some cid ->
     users (db w) !! cid = Some client ->
     (Py.truthy (f_deadline form) = true ->
      is_Some (strptime env (Py.str (f_deadline form)))) ->
     let w' := (new_task env rq form w).2 in
     one_notification w w' cid (new_id (tasks (db w))) /\
     emailed_once env w w' client "New Task Assigned"
       ("You have been assigned a new task: " +:+ Py.str (f_title form))) /\
  (* task updated *)
  (forall task_id task form cid client,
     User.role cu = "admin" -> method rq = POST ->
     tasks (db w) !! task_id = Some task ->
     Task.creator_id task = uid ->
     is_Some (f_title form) -> is_Some (f_priority form) ->
     f_client_id form = Some cid ->
     users (db w) !! cid = Some client ->
     (Py.truthy (f_deadline form) = true ->
      is_Some (strptime env (Py.str (f_deadline form)))) ->
     let w' := (edit_task env rq task_id form w).2 in
     one_notification w w' cid task_id /\
     emailed_once env w w' client "Task Updated"
       ("A task assigned to you has been updated: " +:+ Py.str (f_title form))) /\
  (* status changed *)
  (forall task_id task s admin,
     User.role cu = "client" ->
     tasks (db w) !! task_id = Some task ->
     Task.client_id task = Some uid ->
     users (db w) !! Task.creator_id task = Some admin ->
     In s ["pending"; "in-progress"; "completed"] ->
     s <> Task.status task ->
     let w' := (update_task_status env rq task_id (Some s) w).2 in
     one_notification w w' (Task.creator_id task) task_id /\
     emailed_once env w w' admin "Task Status Updated"
       ("Task '" +:+ Py.str (Task.title task) +:+ "' status updated from "
          +:+ Task.status task +:+ " to " +:+ s)) /\
  (* comment added *)
  (forall task_id task content rid recipient,
     tasks (db w) !! task_id = Some task ->
     Task.client_id task = Some uid \/ Task.creator_id task = uid ->
     counterparty uid task = Some rid ->
     users (db w) !! rid = Some recipient ->
     Py.truthy content = true ->
     let w' := (add_comment env rq task_id content w).2 in
     size (comments (db w')) = S (size (comments (db w))) /\
     one_notification w w' rid task_id /\ no_email w w') /\
  (* attachment added *)
  (forall task_id task file name rid recipient,
     tasks (db w) !! task_id = Some task ->
     Task.client_id task = Some uid \/ Task.creator_id task = uid ->
     counterparty uid task = Some rid ->
     users (db w) !! rid = Some recipient ->
     fs_filename file = Some name -> name <> EmptyString ->
     let w' := (upload_attachment env rq task_id (Some file) w).2 in
     size (attachments (db w')) = S (size (attachments (db w))) /\
     one_notification w w' rid task_id /\ no_email w w').
Proof.
  intros Hsession Huser. unfold one_notification, emailed_once, no_email.
  repeat match goal with |- _ /\ _ => split end.
  - intros form cid client Hrole Hpost Htitle Hcid Hclient Hdl.
    destruct (new_task_effects env rq uid cu w Hsession Huser Hrole Hpost
                form cid client Htitle Hcid Hclient Hdl)
      as (w' & created & result & H).
    cbn zeta in H. destruct H as (-> & _ & Hn & Hmail & _ & _ & _ & ->). cbn. split.
    + do 2 eexists. split; [apply new_id_fresh|]. split; [exact Hn|]. done.
    + exact Hmail.
  - intros task_id task form cid client Hrole Hpost Htask Hcreator Ht Hp Hcid Hclient Hdl.
    destruct (edit_task_effects env rq uid cu w Hsession Huser Hrole Hpost
                task_id task form cid client Htask Hcreator Ht Hp Hcid Hclient Hdl)
      as (w' & created & result & H).
    cbn zeta in H. destruct H as (-> & _ & Hn & Hmail & _ & _ & _ & ->). cbn. split.
    + do 2 eexists. split; [apply new_id_fresh|]. split; [exact Hn|]. done.
    + exact Hmail.
  - intros task_id task s admin Hrole Htask Hclient Hadmin Hs Hne.
    destruct (update_task_status_effects env rq task_id uid cu task w
                Hsession Huser Hrole Htask s admin Hclient Hadmin Hs Hne)
      as (resp & w' & k & nid & created & result & H).
    cbn zeta in H.
    destruct H as (-> & _ & _ & Hfresh & Hn & Hmail & _ & _ & _ & ->). cbn. split.
    + do 2 eexists. split; [exact Hfresh|]. split; [exact Hn|]. done.
    + exact Hmail.
  - intros task_id task content rid recipient Htask Hparty Hrid Hrecipient Hcontent.
    destruct (add_comment_effects env rq uid cu w task_id task rid recipient
                Hsession Huser Htask Hparty Hrid Hrecipient content Hcontent)
      as (resp & w' & created & ncreated & H).
    cbn zeta in H. destruct H as (-> & Hc & Hn & Hmail & _). cbn.
    split; [|split; [|exact Hmail]].
    + rewrite Hc. apply map_size_insert_None, new_id_fresh.
    + do 2 eexists. split; [apply new_id_fresh|]. split; [exact Hn|]. done.
  - intros task_id task file name rid recipient Htask Hparty Hrid Hrecipient Hname Hne.
    destruct (upload_attachment_effects env rq uid cu w task_id task rid recipient
                Hsession Huser Htask Hparty Hrid Hrecipient file name Hname Hne)
      as (resp & w' & uploaded & ncreated & H).
    cbn zeta in H. destruct H as (-> & Ha & Hn & Hmail & _). cbn.
    split; [|split; [|exact Hmail]].
    + rewrite Ha. apply map_size_insert_None, new_id_fresh.
    + do 2 eexists. split; [apply new_id_fresh|]. split; [exact Hn|]. done.
Qed.

(** Bob comments on task 0: Alice gets a notification and no email. *)
Lemma tracked_events_notify_witness :
  let w' := (add_comment Demo.env (Demo.as_user 1) 0 (Some "On it") Demo.w_task).2 in
  size (comments (db w')) = S (size (comments (db Demo.w_task))) /\
  one_notification Demo.w_task w' 0 0 /\ no_email Demo.w_task w'.
Proof.
  refine (proj1 (proj2 (proj2 (proj2
           (tracked_events_notify Demo.env (Demo.as_user 1) 1 Demo.bob_row Demo.w_task
              _ _))))
           0 Demo.audit_row (Some "On it") 0 Demo.alice_row _ _ _ _ _).
  - reflexivity.
  - vm_compute. reflexivity.
  - vm_compute. reflexivity.
  - left. reflexivity.
  - reflexivity.
  - vm_compute. reflexivity.
  - reflexivity.
Defined.

(** C6. [analyze_task_priority] returns 'low', 'medium' or 'high' for
    every description, day count and backend. It returns 'medium' when
    the backend raises or returns no choice, when the content is absent
    or empty, and when the trimmed, lower-cased content is none of the
    three tokens; otherwise it returns that token. *)
Theorem analyze_task_priority_degrades backend description days :
  let reply := first_content
                 (chat_completions_create backend (priority_request description days)) in
  let p := analyze_task_priority backend description days in
  In p ["low"; "medium"; "high"] /\
  (forall msg, reply = inl msg -> p = "medium") /\
  (reply = inr None -> p = "medium") /\
  (reply = inr (Some EmptyString) -> p = "medium") /\
  (forall content, reply = inr (Some content) ->
     ~ In (Py.lower (Py.strip content)) ["low"; "medium"; "high"] -> p = "medium") /\
  (forall content, reply = inr (Some content) ->
     In (Py.lower (Py.strip content)) ["low"; "medium"; "high"] ->
     p = Py.lower (Py.strip content)).
Proof.
  cbn zeta. unfold analyze_task_priority, and_then.
  destruct (first_content _) as [msg | [content |]].
  - split; [simpl; auto|]. repeat split; intros; done.
  - destruct (Py.in_list (Py.lower (Py.strip content)) ["low"; "medium"; "high"]) eqn:Hin.
    + apply in_list_In in Hin. split; [exact Hin|].
      split; [done|]. split; [done|]. split; [|split].
      * intros [= ->]. vm_compute in Hin. intuition discriminate.
      * intros ? [= <-] Hnot. done.
      * by intros ? [= <-] _.
    + assert (~ In (Py.lower (Py.strip content)) ["low"; "medium"; "high"]) as Hnot
        by (rewrite <- in_list_In; congruence).
      split; [simpl; auto|]. split; [done|]. split; [done|]. split; [done|]. split.
      * done.
      * by intros ? [= <-] ?.
  - split; [simpl; auto|]. repeat split; intros; done.
Qed.

(** C7, as the spec has it, fails: when the backend's payload holds both
    keys with empty texts, the draft reports success with an empty title
    and an empty description. *)
Lemma draft_success_with_empty_fields :
  generate_ai_task_description Demo.backend_empty_fields "IT" "backup" None None =
    mkDraft (Json.Str EmptyString) (Json.Str EmptyString) true None.
Proof. vm_compute. reflexivity. Qed.

(** C7, amended. [generate_ai_task_description] reports success exactly
    when the backend's content decodes to a JSON object that holds both
    keys 'title' and 'description', and then returns the two values as
    they are, empty or not. When the backend raises, returns no content,
    or the payload lacks either key, the draft has success false, an
    empty title, an empty description and a diagnostic message. *)
Theorem generate_ai_task_description_success_iff_keys
    backend service_type keywords client_name priority :
  let reply := first_content
                 (chat_completions_create backend
                    (description_request service_type keywords client_name priority)) in
  let d := generate_ai_task_description backend service_type keywords client_name
             priority in
  (draft_success d = true ->
     exists content members title description,
       reply = inr (Some content) /\
       json_loads backend content = Decoded (Json.Obj members) /\
       Json.assoc "title" members = Some title /\
       Json.assoc "description" members = Some description /\
       d = mkDraft title description true None) /\
  (draft_success d = false ->
     exists msg, d = failed_draft msg) /\
  (forall msg, reply = inl msg -> d = failed_draft msg) /\
  (reply = inr None -> d = failed_draft "No content received from AI") /\
  (forall content members,
     reply = inr (Some content) ->
     json_loads backend content = Decoded (Json.Obj members) ->
     Json.assoc "title" members = None \/ Json.assoc "description" members = None ->
     d = failed_draft "AI response missing required fields") /\
  (forall content members title description,
     reply = inr (Some content) ->
     json_loads backend content = Decoded (Json.Obj members) ->
     Json.assoc "title" members = Some title ->
     Json.assoc "description" members = Some description ->
     d = mkDraft title description true None).
Proof.
  cbn zeta. unfold generate_ai_task_description, and_then.
  destruct (first_content _) as [msg | [content |]]; cbn.
  - repeat split; try done; eauto. by intros ? [= <-].
  - destruct (json_loads backend content) as [j | msg] eqn:Hloads; cbn.
    + destruct j as [| b | n | lit | s | items | members]; cbn.
      1-6: repeat match goal with
           | |- context [existsb ?f ?l] => destruct (existsb f l); cbn
           | |- context [Py.contains ?s ?k] => destruct (Py.contains s k); cbn
           end; repeat split; try done; eauto; intros; simplify_eq; congruence.
      destruct (Json.assoc "title" members) as [t|] eqn:Ht; cbn.
      * destruct (Json.assoc "description" members) as [ds|] eqn:Hd; cbn.
        -- repeat split; try done.
           ++ intros _. exists content, members, t, ds. done.
           ++ intros ? ? [= <-] ? [?|?]; simplify_eq; congruence.
           ++ intros ? ? ? ? [= <-] ? ? ?. simplify_eq. congruence.
        -- repeat split; try done; eauto.
           intros ? ? ? ? [= <-] ? ? ?. simplify_eq. congruence.
      * repeat split; try done; eauto.
        intros ? ? ? ? [= <-] ? ? ?. simplify_eq. congruence.
    + repeat split; try done; eauto; intros; simplify_eq; congruence.
  - repeat split; try done; eauto.
Qed.

(** C9, as the spec has it, fails in its second half: with a clock that
    never runs backwards, the task that Alice creates gets its
    [created_at] from one reading and its [updated_at] from the next,
    and the two differ. *)
Lemma creation_timestamps_differ :
  monotone_clock Demo.env /\
  reachable Demo.env Demo.w_users /\
  tasks (db Demo.w_users) !! 0 = None /\
  tasks (db (new_task Demo.env (Demo.as_user 0) Demo.audit Demo.w_users).2) !! 0 =
    Some Demo.audit_row /\
  Task.created_at Demo.audit_row = 3%Z /\
  Task.updated_at Demo.audit_row = 4%Z.
Proof.
  split; [intros n; cbn; lia|]. split.
  - unfold Demo.w_users, Demo.w_bob, Demo.w_alice. repeat constructor.
  - repeat split; vm_compute; reflexivity.
Qed.

(** C9, amended. If the clock never runs backwards, every task of every
    reachable world has [updated_at >= created_at]. A task that
    [new_task] adds takes [created_at] from one reading of the clock and
    [updated_at] from the next one, so the two are equal only if the
    clock did not advance in between; and no later request changes
    [created_at]. *)
Theorem timestamps_ordered_under_monotone_clock env :
  monotone_clock env ->
  (forall w id t,
     reachable env w -> tasks (db w) !! id = Some t ->
     (Task.created_at t <= Task.updated_at t)%Z) /\
  (forall rq form w id t,
     tasks (db w) !! id = None ->
     tasks (db (new_task env rq form w).2) !! id = Some t ->
     Task.created_at t = utcnow env (clock_reads w) /\
     Task.updated_at t = utcnow env (S (clock_reads w))) /\
  (forall rq c w id t t',
     tasks (db w) !! id = Some t ->
     tasks (db (dispatch env rq c w).2) !! id = Some t' ->
     Task.created_at t' = Task.created_at t).
Proof.
  intros Hmono. split; [|split].
  - intros w id t Hreach Hl.
    by destruct (proj2 (reachable_invariant _ _ Hreach) Hmono _ _ Hl).
  - intros. by eapply new_task_timestamps.
  - intros. by eapply created_at_stable.
Qed.

(** Task 0 of [Demo.w_task], under the clock of [Demo.env]. *)
Lemma timestamps_ordered_under_monotone_clock_witness :
  (Task.created_at Demo.audit_row <= Task.updated_at Demo.audit_row)%Z.
Proof.
  refine (proj1 (timestamps_ordered_under_monotone_clock Demo.env _)
            Demo.w_task 0 Demo.audit_row _ _).
  - intros n. cbn. lia.
  - unfold Demo.w_task, Demo.w_users, Demo.w_bob, Demo.w_alice. repeat constructor.
  - vm_compute. reflexivity.
Defined.


(** * Further properties of the code *)

(** ** How a request changes each table *)

(** A request leaves the users as they are or adds one user, under a new
    key, with a name and an email that nobody else has and the role
    'admin' or 'client'. *)
Lemma users_step env rq c w :
  users (db (dispatch env rq c w).2) = users (db w) \/
  exists u,
    users (db (dispatch env rq c w).2) = <[new_id (users (db w)) := u]> (users (db w)) /\
    is_Some (User.username u) /\ is_Some (User.email u) /\
    In (User.role u) ["admin"; "client"] /\
    forall k' u', users (db w) !! k' = Some u' ->
      User.username u' <> User.username u /\ User.email u' <> User.email u.
Proof.
  destruct c; unfold_handlers; cbn.
  all: repeat step; auto.
  all: right; eexists; split; [reflexivity|]; cbn.
  all: split; [assumption|]; split; [assumption|].
  all: split; [|match goal with H : map_Forall _ _ |- _ => exact H end].
  all: auto.
  all: match goal with
       | H : negb (Py.in_list _ _) = false |- _ =>
           apply negb_false_iff, in_list_In in H; exact H
       end.
Qed.

(** The status of a task after a request is one it had before or one of
    the three tokens. *)
Lemma task_status_step env rq c w id t' :
  tasks (db (dispatch env rq c w).2) !! id = Some t' ->
  (exists t, tasks (db w) !! id = Some t /\ Task.status t' = Task.status t) \/
  In (Task.status t') ["pending"; "in-progress"; "completed"].
Proof.
  destruct c; unfold_handlers; cbn.
  all: repeat step; intros Hl; eauto.
  all: try (rewrite lookup_insert in Hl; case_decide; simplify_eq; cbn; eauto).
  all: try (right; cbn; auto; fail).
  all: try (right; match goal with
            | H : Py.in_list _ _ = true |- _ => by apply in_list_In in H
            end).
  all: try (rewrite lookup_delete in Hl; case_decide; [done|eauto]).
Qed.

Lemma reachable_statuses env w id t :
  reachable env w ->
  tasks (db w) !! id = Some t ->
  In (Task.status t) ["pending"; "in-progress"; "completed"].
Proof.
  intros Hreach. revert id t. induction Hreach as [|w rq c _ IH]; intros id t Ht.
  - cbn in Ht. by rewrite lookup_empty in Ht.
  - destruct (task_status_step _ _ _ _ _ _ Ht) as [(t0 & Ht0 & ->) | H]; eauto.
Qed.

(** A request keeps every notification, with the same content; it can
    only turn [is_read] from false to true. *)
Lemma notifications_step env rq c w k n :
  notifications (db w) !! k = Some n ->
  exists n',
    notifications (db (dispatch env rq c w).2) !! k = Some n' /\
    Notification.title n' = Notification.title n /\
    Notification.message n' = Notification.message n /\
    Notification.created_at n' = Notification.created_at n /\
    Notification.user_id n' = Notification.user_id n /\
    Notification.task_id n' = Notification.task_id n /\
    (Notification.is_read n = true -> Notification.is_read n' = true).
Proof.
  intros Hn. destruct c; unfold_handlers; cbn.
  all: repeat step; eauto 10.
  all: try (exists n; split; [|auto 10];
            repeat (rewrite lookup_insert_ne;
                    [|intros <-; by rewrite new_id_fresh in Hn]); assumption).
  all: rewrite lookup_insert; case_decide; simplify_eq; eauto 10.
Qed.

(** A task that a request adds comes with a notification that refers to
    it. *)
Lemma new_task_is_announced env rq c w id t' :
  tasks (db w) !! id = None ->
  tasks (db (dispatch env rq c w).2) !! id = Some t' ->
  exists nid n,
    notifications (db (dispatch env rq c w).2) !! nid = Some n /\
    Notification.task_id n = Some id.
Proof.
  intros Hnone. destruct c; unfold_handlers; cbn.
  all: repeat step; intros Hl; try congruence.
  all: try (rewrite lookup_insert in Hl; case_decide; simplify_eq; try congruence).
  all: try (rewrite lookup_delete in Hl; case_decide; congruence).
  all: try (do 2 eexists; split; [apply lookup_insert_eq|reflexivity]).
  all: exfalso.
  all: repeat match goal with
       | H : _ && _ = true |- _ => apply andb_true_iff in H; destruct H
       end.
  all: match goal with
       | H : _ && fk_ok _ (<[_ := _]> _) _ = false |- _ =>
           rewrite fk_ok_insert, andb_true_r in H; congruence
       end.
Qed.

(** In a reachable world some notification refers to each task. *)
Lemma tasks_are_announced env w id t :
  reachable env w ->
  tasks (db w) !! id = Some t ->
  exists nid n,
    notifications (db w) !! nid = Some n /\ Notification.task_id n = Some id.
Proof.
  intros Hreach. revert id t. induction Hreach as [|w rq c _ IH]; intros id t Ht.
  - cbn in Ht. by rewrite lookup_empty in Ht.
  - destruct (tasks (db w) !! id) as [t0|] eqn:Hold.
    + destruct (IH _ _ Hold) as (nid & n & Hn & Hid).
      destruct (notifications_step env rq c w nid n Hn)
        as (n' & Hn' & _ & _ & _ & _ & Hid' & _).
      exists nid, n'. split; [done|congruence].
    + by eapply new_task_is_announced.
Qed.

Lemma demo_task_reachable : reachable Demo.env Demo.w_task.
Proof.
  unfold Demo.w_task, Demo.w_users, Demo.w_bob, Demo.w_alice. repeat constructor.
Qed.

(** ** Users *)

(** X1. No request removes a user or changes a user's row: the name, the
    email, the password hash and the role stay as registered. *)
Theorem users_never_change env rq c w k u :
  users (db w) !! k = Some u ->
  users (db (dispatch env rq c w).2) !! k = Some u.
Proof.
  intros Hu. destruct (users_step env rq c w) as [-> | (u' & -> & _)]; [done|].
  rewrite lookup_insert_ne; [done|]. intros <-. by rewrite new_id_fresh in Hu.
Qed.

(** Bob is still there after Alice registers once more under his email. *)
Lemma users_never_change_witness :
  users (db (dispatch Demo.env Demo.anonymous
               (Register (mkRegisterForm (Some "alice2") (Some "bob@example.com")
                            (Some "x") (Some "x") (Some "admin")))
               Demo.w_task).2) !! 1 = Some Demo.bob_row.
Proof.
  apply (users_never_change Demo.env Demo.anonymous _ Demo.w_task 1 Demo.bob_row).
  vm_compute. reflexivity.
Defined.

(** X2. Every user of a reachable world has the role 'admin' or
    'client': [register] turns any other submitted role into 'client'. *)
Theorem roles_are_admin_or_client env w k u :
  reachable env w ->
  users (db w) !! k = Some u ->
  User.role u = "admin" \/ User.role u = "client".
Proof.
  intros Hreach. revert k u. induction Hreach as [|w rq c _ IH]; intros k u Hu.
  - cbn in Hu. by rewrite lookup_empty in Hu.
  - destruct (users_step env rq c w) as [Hsame | (u' & Hins & _ & _ & Hrole & _)].
    + rewrite Hsame in Hu. eauto.
    + rewrite Hins, lookup_insert in Hu. case_decide; [|eauto].
      injection Hu as <-. cbn in Hrole. intuition.
Qed.

Lemma roles_are_admin_or_client_witness :
  User.role Demo.carol_row = "admin" \/ User.role Demo.carol_row = "client".
Proof.
  apply (roles_are_admin_or_client Demo.env Demo.w_task 2 Demo.carol_row).
  - apply demo_task_reachable.
  - vm_compute. reflexivity.
Defined.

(** X3. In a reachable world no user has a NULL username or a NULL
    email, and no two users share a username or an email. The text of
    either may be empty: [register] does not look at it. *)
Theorem registered_identities_are_unique env w k1 u1 :
  reachable env w ->
  users (db w) !! k1 = Some u1 ->
  is_Some (User.username u1) /\ is_Some (User.email u1) /\
  forall k2 u2,
    users (db w) !! k2 = Some u2 ->
    User.username u1 = User.username u2 \/ User.email u1 = User.email u2 ->
    k2 = k1.
Proof.
  intros Hreach. revert k1 u1.
  induction Hreach as [|w rq c _ IH]; intros k1 u1 H1.
  - cbn in H1. by rewrite lookup_empty in H1.
  - destruct (users_step env rq c w) as [Hsame | (u & Hins & Hn & He & _ & Hnew)].
    + rewrite Hsame in H1 |- *. eauto.
    + rewrite Hins in H1 |- *.
      destruct (decide (k1 = new_id (users (db w)))) as [->|Hk1].
      * rewrite lookup_insert_eq in H1. injection H1 as <-.
        split; [done|]. split; [done|]. intros k2 u2 H2 Heq.
        destruct (decide (k2 = new_id (users (db w)))) as [->|Hk2]; [done|].
        rewrite lookup_insert_ne in H2 by done.
        destruct (Hnew _ _ H2) as [? ?]. destruct Heq; congruence.
      * rewrite lookup_insert_ne in H1 by done.
        destruct (IH _ _ H1) as (Hn1 & He1 & Huniq).
        split; [done|]. split; [done|]. intros k2 u2 H2 Heq.
        destruct (decide (k2 = new_id (users (db w)))) as [->|Hk2].
        -- rewrite lookup_insert_eq in H2. injection H2 as <-.
           destruct (Hnew _ _ H1) as [? ?]. destruct Heq; congruence.
        -- rewrite lookup_insert_ne in H2 by done. eauto.
Qed.

Lemma registered_identities_are_unique_witness :
  is_Some (User.username Demo.bob_row) /\ is_Some (User.email Demo.bob_row) /\
  forall k2 u2,
    users (db Demo.w_task) !! k2 = Some u2 ->
    User.username Demo.bob_row = User.username u2 \/
      User.email Demo.bob_row = User.email u2 ->
    k2 = 1.
Proof.
  apply (registered_identities_are_unique Demo.env Demo.w_task 1 Demo.bob_row).
  - apply demo_task_reachable.
  - vm_compute. reflexivity.
Defined.

(** X4. A request whose session names no user of the store changes
    nothing and is sent to the login page, unless it is a
    registration. *)
Theorem anonymous_request_changes_nothing env rq c w :
  (forall form, c <> Register form) ->
  session_user_id rq ≫= (fun uid => users (db w) !! uid) = None ->
  dispatch env rq c w =
    (Return (Redirect "login" (Some ("Please log in to access this page.", "info"))), w).
Proof.
  intros Hc Hanon. destruct c; try (by destruct (Hc form)).
  all: unfold_handlers; cbn.
  all: destruct (session_user_id rq) as [uid|]; cbn in *; [rewrite Hanon|]; reflexivity.
Qed.

Lemma anonymous_request_changes_nothing_witness :
  dispatch Demo.env Demo.anonymous (DeleteTask 0) Demo.w_task =
    (Return (Redirect "login" (Some ("Please log in to access this page.", "info"))),
     Demo.w_task).
Proof.
  apply (anonymous_request_changes_nothing Demo.env Demo.anonymous (DeleteTask 0)
           Demo.w_task).
  - discriminate.
  - reflexivity.
Defined.


(** ** Tasks and notifications *)

(** X5. In a reachable world the status of every task is 'pending',
    'in-progress' or 'completed'. *)
Theorem statuses_are_valid env w id t :
  reachable env w ->
  tasks (db w) !! id = Some t ->
  Task.status t = "pending" \/ Task.status t = "in-progress" \/
  Task.status t = "completed".
Proof.
  intros Hreach Ht. destruct (reachable_statuses env w id t Hreach Ht) as [H|[H|[H|[]]]];
    auto.
Qed.

Lemma statuses_are_valid_witness :
  Task.status Demo.audit_row = "pending" \/ Task.status Demo.audit_row = "in-progress" \/
  Task.status Demo.audit_row = "completed".
Proof.
  apply (statuses_are_valid Demo.env Demo.w_task 0 Demo.audit_row).
  - apply demo_task_reachable.
  - vm_compute. reflexivity.
Defined.

(** X6. No request deletes a notification or rewrites its title,
    message, recipient, task or time; a notification that is read stays
    read. *)
Theorem notifications_only_get_read env rq c w k n :
  notifications (db w) !! k = Some n ->
  exists n',
    notifications (db (dispatch env rq c w).2) !! k = Some n' /\
    Notification.title n' = Notification.title n /\
    Notification.message n' = Notification.message n /\
    Notification.created_at n' = Notification.created_at n /\
    Notification.user_id n' = Notification.user_id n /\
    Notification.task_id n' = Notification.task_id n /\
    (Notification.is_read n = true -> Notification.is_read n' = true).
Proof. apply notifications_step. Qed.

(** Bob's notification outlives the deletion of its task on an engine
    that does not check references. *)
Lemma notifications_only_get_read_witness :
  exists n',
    notifications (db (dispatch Demo.lenient_env (Demo.as_user 0) (DeleteTask 0)
                         Demo.w_task).2) !! 0 = Some n' /\
    Notification.title n' = "New Task Assigned" /\
    Notification.message n' = "You have been assigned a new task: Audit" /\
    Notification.created_at n' = 5%Z /\
    Notification.user_id n' = Some 1 /\
    Notification.task_id n' = Some 0 /\
    (false = true -> Notification.is_read n' = true).
Proof.
  apply (notifications_only_get_read Demo.lenient_env (Demo.as_user 0) (DeleteTask 0)
           Demo.w_task 0 Scene.assigned_note).
  vm_compute. reflexivity.
Defined.

Lemma fk_ok_with_mail_transport {V} raises env (table : gmap Id V) ref :
  fk_ok (with_mail_transport raises env) table ref = fk_ok env table ref.
Proof. reflexivity. Qed.

(** X7. What the mail transport does has no bearing on the reply, on
    the store, or on who is written to with what: only the recorded
    result of each call of the email helper can differ. *)
Theorem mail_failure_changes_no_outcome env raises rq c w :
  let r := dispatch env rq c w in
  let r' := dispatch (with_mail_transport raises env) rq c w in
  r'.1 = r.1 /\
  db r'.2 = db r.2 /\
  clock_reads r'.2 = clock_reads r.2 /\
  map (fun call => (mail_to call, mail_subject call, mail_body call)) (email_log r'.2) =
  map (fun call => (mail_to call, mail_subject call, mail_body call)) (email_log r.2).
Proof.
  cbn zeta. destruct c; unfold_handlers; cbn.
  all: repeat (rewrite ?fk_ok_with_mail_transport; step); try done.
  all: rewrite ?List.map_app; cbn; done.
Qed.

(** ** [mark_notification_read] *)

Lemma world_eta w :
  mkWorld (mkStore (users (db w)) (tasks (db w)) (comments (db w))
             (attachments (db w)) (notifications (db w)))
    (email_log w) (clock_reads w) (uuid_draws w) (upload_folder w) = w.
Proof. by destruct w as [[] ? ? ? ?]. Qed.

Lemma mark_notification_read_sets_flag rq nid uid cu n w :
  session_user_id rq = Some uid ->
  users (db w) !! uid = Some cu ->
  notifications (db w) !! nid = Some n ->
  Notification.user_id n = Some uid ->
  mark_notification_read rq nid w =
    (Return (Jsonify (Json.Obj [("success", Json.Bool true)])),
     mkWorld (set_notifications (<[nid := marked_read n]> (notifications (db w))) (db w))
       (email_log w) (clock_reads w) (uuid_draws w) (upload_folder w)).
Proof.
  intros Hs Hu Hn Ho. unfold_handlers; cbn.
  rewrite Hs; cbn; rewrite Hu; cbn; rewrite Hn; cbn.
  by rewrite bool_decide_eq_true_2.
Qed.

(** X8. When its owner marks a notification as read, the reply is
    success and only the [is_read] flag of that notification changes, to
    true; marking it again gives the same reply and world, and marking a
    notification that is already read changes nothing at all. *)
Theorem mark_notification_read_idempotent rq nid uid cu n w :
  session_user_id rq = Some uid ->
  users (db w) !! uid = Some cu ->
  notifications (db w) !! nid = Some n ->
  Notification.user_id n = Some uid ->
  let once := mark_notification_read rq nid w in
  once =
    (Return (Jsonify (Json.Obj [("success", Json.Bool true)])),
     mkWorld (set_notifications (<[nid := marked_read n]> (notifications (db w))) (db w))
       (email_log w) (clock_reads w) (uuid_draws w) (upload_folder w)) /\
  mark_notification_read rq nid once.2 = once /\
  (Notification.is_read n = true -> once.2 = w).
Proof.
  intros Hs Hu Hn Ho. cbn zeta.
  rewrite (mark_notification_read_sets_flag rq nid uid cu n w Hs Hu Hn Ho).
  cbn [snd]. split; [reflexivity|]. split.
  - erewrite (mark_notification_read_sets_flag rq nid uid cu (marked_read n)); cbn; eauto.
    + unfold set_notifications; cbn. by rewrite insert_insert_eq.
    + apply lookup_insert_eq.
  - intros Hr. rewrite insert_id.
    + unfold set_notifications. apply world_eta.
    + rewrite Hn. f_equal. destruct n; cbn in *; by subst.
Qed.

(** Bob reads his notification, twice. *)
Lemma mark_notification_read_idempotent_witness :
  let once := mark_notification_read (Demo.as_user 1) 0 Demo.w_task in
  once =
    (Return (Jsonify (Json.Obj [("success", Json.Bool true)])),
     mkWorld (set_notifications
                (<[0 := marked_read Scene.assigned_note]> (notifications (db Demo.w_task)))
                (db Demo.w_task))
       (email_log Demo.w_task) (clock_reads Demo.w_task) (uuid_draws Demo.w_task)
       (upload_folder Demo.w_task)) /\
  mark_notification_read (Demo.as_user 1) 0 once.2 = once /\
  (Notification.is_read Scene.assigned_note = true -> once.2 = Demo.w_task).
Proof.
  apply (mark_notification_read_idempotent (Demo.as_user 1) 0 1 Demo.bob_row
           Scene.assigned_note Demo.w_task).
  - reflexivity.
  - vm_compute. reflexivity.
  - vm_compute. reflexivity.
  - reflexivity.
Defined.

(** X9. Marking a notification that does not exist raises 404, and
    marking one that belongs to another user raises 403; neither changes
    the world. *)
Theorem mark_notification_read_refused rq nid uid cu w :
  session_user_id rq = Some uid ->
  users (db w) !! uid = Some cu ->
  (notifications (db w) !! nid = None ->
   mark_notification_read rq nid w = (Raise NotFound, w)) /\
  (forall n, notifications (db w) !! nid = Some n ->
     Notification.user_id n <> Some uid ->
     mark_notification_read rq nid w = (Raise Forbidden, w)).
Proof.
  intros Hs Hu. split; [intros Hn | intros n Hn Ho].
  all: unfold_handlers; cbn; rewrite Hs; cbn; rewrite Hu; cbn; rewrite Hn; cbn.
  - done.
  - by rewrite bool_decide_eq_false_2.
Qed.

(** Carol tries to read Bob's notification. *)
Lemma mark_notification_read_refused_witness :
  mark_notification_read (Demo.as_user 2) 0 Demo.w_task = (Raise Forbidden, Demo.w_task).
Proof.
  refine (proj2 (mark_notification_read_refused (Demo.as_user 2) 0 2 Demo.carol_row
                   Demo.w_task _ _) Scene.assigned_note _ _).
  - reflexivity.
  - vm_compute. reflexivity.
  - vm_compute. reflexivity.
  - discriminate.
Defined.


(** ** [delete_task] *)

Section DeleteTask.
Context (env : Env) (rq : Request) (uid : Id) (cu : User.t) (w : World)
  (task_id : Id) (task : Task.t).
Context (Hsession : session_user_id rq = Some uid)
  (Huser : users (db w) !! uid = Some cu)
  (Hrole : User.role cu = "admin")
  (Htask : tasks (db w) !! task_id = Some task).

Lemma delete_task_enter :
  delete_task env rq task_id w =
    (if negb (Task.creator_id task =? uid)%nat then
       ret (Redirect "admin_tasks"
              (Some ("You are not authorized to delete this task", "danger")))
     else
       bind (Session.delete_task_row env task_id)
         (fun _ => ret (Redirect "admin_tasks"
                          (Some ("Task deleted successfully!", "success"))))) w.
Proof.
  unfold delete_task, login_required, admin_required, get_or_404, query_get.
  unfold bind at 1; cbn. rewrite Hsession, Huser, (is_admin_role _ Hrole).
  unfold bind at 1 2; cbn. rewrite Htask. cbn. reflexivity.
Qed.

End DeleteTask.

(** X10. When the creator deletes a task and the engine lets the DELETE
    through (it does not check references, or no notification refers to
    the task), the task is gone together with exactly its comments and
    attachments; users, notifications and the email log are untouched. *)
Theorem delete_task_cascades env rq uid cu w task_id task :
  session_user_id rq = Some uid ->
  users (db w) !! uid = Some cu ->
  User.role cu = "admin" ->
  tasks (db w) !! task_id = Some task ->
  Task.creator_id task = uid ->
  enforce_foreign_keys env = false \/
    (forall k n, notifications (db w) !! k = Some n ->
       Notification.task_id n <> Some task_id) ->
  exists w',
    delete_task env rq task_id w =
      (Return (Redirect "admin_tasks" (Some ("Task deleted successfully!", "success"))),
       w') /\
    tasks (db w') = delete task_id (tasks (db w)) /\
    (forall k c, comments (db w') !! k = Some c <->
       comments (db w) !! k = Some c /\ Comment.task_id c <> task_id) /\
    (forall k a, attachments (db w') !! k = Some a <->
       attachments (db w) !! k = Some a /\ Attachment.task_id a <> task_id) /\
    users (db w') = users (db w) /\
    notifications (db w') = notifications (db w) /\
    email_log w' = email_log w.
Proof.
  intros Hs Hu Hr Ht Hc Hfk.
  rewrite (delete_task_enter env rq uid cu w task_id task Hs Hu Hr Ht).
  rewrite (creator_is_current _ _ Hc).
  unfold Session.delete_task_row, require, set_db, bind, ret, raise, get_world. cbn.
  replace (negb (enforce_foreign_keys env) || _) with true.
  - cbn. eexists. split; [reflexivity|]. cbn.
    split; [reflexivity|]. split; [|split; [|done]].
    all: intros k x; rewrite map_lookup_filter_Some; cbn; tauto.
  - symmetry. destruct Hfk as [-> | Hfk]; [done|].
    rewrite bool_decide_eq_true_2; [apply orb_true_r|]. exact Hfk.
Qed.

(** Alice deletes task 0, on which Bob has commented, on an engine that
    does not check references. *)
Lemma delete_task_cascades_witness :
  exists w',
    delete_task Demo.lenient_env (Demo.as_user 0) 0 Scene.w_comment =
      (Return (Redirect "admin_tasks" (Some ("Task deleted successfully!", "success"))),
       w') /\
    tasks (db w') = delete 0 (tasks (db Scene.w_comment)) /\
    (forall k c, comments (db w') !! k = Some c <->
       comments (db Scene.w_comment) !! k = Some c /\ Comment.task_id c <> 0) /\
    (forall k a, attachments (db w') !! k = Some a <->
       attachments (db Scene.w_comment) !! k = Some a /\ Attachment.task_id a <> 0) /\
    users (db w') = users (db Scene.w_comment) /\
    notifications (db w') = notifications (db Scene.w_comment) /\
    email_log w' = email_log Scene.w_comment.
Proof.
  apply (delete_task_cascades Demo.lenient_env (Demo.as_user 0) 0 Demo.alice_row
           Scene.w_comment 0 Demo.audit_row).
  - reflexivity.
  - vm_compute. reflexivity.
  - reflexivity.
  - vm_compute. reflexivity.
  - reflexivity.
  - left. reflexivity.
Defined.

(** X11. On an engine that checks references no task of a reachable
    world can be deleted: the notification that announced it still refers
    to it, the DELETE raises an integrity error and nothing changes. *)
Theorem delete_task_blocked_by_notification env rq uid cu w task_id task :
  enforce_foreign_keys env = true ->
  reachable env w ->
  session_user_id rq = Some uid ->
  users (db w) !! uid = Some cu ->
  User.role cu = "admin" ->
  tasks (db w) !! task_id = Some task ->
  Task.creator_id task = uid ->
  delete_task env rq task_id w = (Raise IntegrityError, w).
Proof.
  intros Hfk Hreach Hs Hu Hr Ht Hc.
  rewrite (delete_task_enter env rq uid cu w task_id task Hs Hu Hr Ht).
  rewrite (creator_is_current _ _ Hc).
  unfold Session.delete_task_row, require, set_db, bind, ret, raise, get_world. cbn.
  rewrite Hfk. cbn. rewrite bool_decide_eq_false_2; [done|].
  intros Hall. destruct (tasks_are_announced _ _ _ _ Hreach Ht) as (nid & n & Hn & Hid).
  by apply (Hall _ _ Hn).
Qed.

(** Alice cannot delete task 0 on the engine of the concrete
    deployment. *)
Lemma delete_task_blocked_by_notification_witness :
  delete_task Demo.env (Demo.as_user 0) 0 Demo.w_task = (Raise IntegrityError, Demo.w_task).
Proof.
  apply (delete_task_blocked_by_notification Demo.env (Demo.as_user 0) 0 Demo.alice_row
           Demo.w_task 0 Demo.audit_row).
  - reflexivity.
  - apply demo_task_reachable.
  - reflexivity.
  - vm_compute. reflexivity.
  - reflexivity.
  - vm_compute. reflexivity.
  - reflexivity.
Defined.

(** ** What the handlers refuse *)

Ltac enter_admin Hsession Huser Hrole :=
  unfold_handlers; cbn;
  rewrite Hsession; cbn; rewrite Huser; cbn;
  rewrite (is_admin_role _ Hrole); cbn.

(** X12. [new_task] stores nothing and sends nothing unless the title,
    the client and the deadline all pass: a missing title or client, and
    a deadline that does not parse, are each answered with the form and a
    message, in an unchanged world. *)
Theorem new_task_rejects_bad_input env rq form uid cu w :
  session_user_id rq = Some uid ->
  users (db w) !! uid = Some cu ->
  User.role cu = "admin" ->
  method rq = POST ->
  (Py.truthy (f_title form) = false \/ f_client_id form = None ->
   new_task env rq form w =
     (Return (RenderTemplate "admin/task_form.html"
                (Some ("Title and client are required!", "danger")) None), w)) /\
  (Py.truthy (f_title form) = true -> is_Some (f_client_id form) ->
   Py.truthy (f_deadline form) = true ->
   strptime env (Py.str (f_deadline form)) = None ->
   new_task env rq form w =
     (Return (RenderTemplate "admin/task_form.html"
                (Some ("Invalid deadline format", "danger")) None), w)).
Proof.
  intros Hs Hu Hr Hp. split.
  - intros [Ht | Hc]; enter_admin Hs Hu Hr; rewrite Hp; cbn.
    + by rewrite Ht.
    + rewrite Hc. cbn. by rewrite orb_true_r.
  - intros Ht [cid Hc] Hd Hparse. enter_admin Hs Hu Hr. rewrite Hp, Ht, Hc. cbn.
    by rewrite Hd, Hparse.
Qed.

(** Alice sends a form without a title, and one that is due "next
    week". *)
Lemma new_task_rejects_bad_input_witness :
  new_task Demo.env (Demo.as_user 0) Scene.untitled Demo.w_users =
    (Return (RenderTemplate "admin/task_form.html"
               (Some ("Title and client are required!", "danger")) None), Demo.w_users) /\
  new_task Demo.env (Demo.as_user 0) Scene.misdated Demo.w_users =
    (Return (RenderTemplate "admin/task_form.html"
               (Some ("Invalid deadline format", "danger")) None), Demo.w_users).
Proof.
  split.
  - refine (proj1 (new_task_rejects_bad_input Demo.env (Demo.as_user 0) Scene.untitled 0
                     Demo.alice_row Demo.w_users _ _ _ _) _).
    + reflexivity.
    + vm_compute. reflexivity.
    + reflexivity.
    + reflexivity.
    + left. reflexivity.
  - refine (proj2 (new_task_rejects_bad_input Demo.env (Demo.as_user 0) Scene.misdated 0
                     Demo.alice_row Demo.w_users _ _ _ _) _ _ _ _).
    + reflexivity.
    + vm_compute. reflexivity.
    + reflexivity.
    + reflexivity.
    + reflexivity.
    + eexists. reflexivity.
    + reflexivity.
    + reflexivity.
Defined.

(** X13. An admin who did not create a task can neither edit nor delete
    it: both requests are answered with a redirect and a message, in an
    unchanged world, whatever the form says. *)
Theorem foreign_admin_cannot_edit_or_delete env rq task_id form uid cu task w :
  session_user_id rq = Some uid ->
  users (db w) !! uid = Some cu ->
  User.role cu = "admin" ->
  tasks (db w) !! task_id = Some task ->
  Task.creator_id task <> uid ->
  edit_task env rq task_id form w =
    (Return (Redirect "admin_tasks"
               (Some ("You are not authorized to edit this task", "danger"))), w) /\
  delete_task env rq task_id w =
    (Return (Redirect "admin_tasks"
               (Some ("You are not authorized to delete this task", "danger"))), w).
Proof.
  intros Hs Hu Hr Ht Hne.
  assert (negb (Task.creator_id task =? uid)%nat = true) as Hb
    by by apply negb_true_iff, Nat.eqb_neq.
  split; enter_admin Hs Hu Hr; rewrite Ht; cbn; by rewrite Hb.
Qed.

(** Dave, an admin, tries his hand at Alice's task. *)
Lemma foreign_admin_cannot_edit_or_delete_witness :
  edit_task Demo.env (Demo.as_user 3) 0 Demo.audit Scene.w_dave =
    (Return (Redirect "admin_tasks"
               (Some ("You are not authorized to edit this task", "danger"))),
     Scene.w_dave) /\
  delete_task Demo.env (Demo.as_user 3) 0 Scene.w_dave =
    (Return (Redirect "admin_tasks"
               (Some ("You are not authorized to delete this task", "danger"))),
     Scene.w_dave).
Proof.
  apply (foreign_admin_cannot_edit_or_delete Demo.env (Demo.as_user 3) 0 Demo.audit 3
           Scene.dave_row Demo.audit_row Scene.w_dave).
  - reflexivity.
  - vm_compute. reflexivity.
  - reflexivity.
  - vm_compute. reflexivity.
  - cbn. lia.
Defined.

(** X14. A user who is neither the creator nor the assignee of a task
    can add neither a comment nor an attachment to it: both requests are
    answered without any change to the world. *)
Theorem outsider_cannot_comment_or_attach env rq task_id content file uid cu task w :
  session_user_id rq = Some uid ->
  users (db w) !! uid = Some cu ->
  tasks (db w) !! task_id = Some task ->
  Task.client_id task <> Some uid ->
  Task.creator_id task <> uid ->
  (exists resp, add_comment env rq task_id content w = (Return resp, w)) /\
  (exists resp, upload_attachment env rq task_id file w = (Return resp, w)).
Proof.
  intros Hs Hu Ht Hc Hcr.
  assert (negb (bool_decide (Some uid = Task.client_id task))
            && negb (uid =? Task.creator_id task)%nat = true) as Hb.
  { rewrite bool_decide_eq_false_2 by congruence.
    apply andb_true_iff. split; [done|]. apply negb_true_iff, Nat.eqb_neq. congruence. }
  split; unfold_handlers; cbn; rewrite Hs; cbn; rewrite Hu; cbn; rewrite Ht; cbn;
    rewrite Hb; destruct (User.role cu =? "admin"); eauto.
Qed.

(** Carol has nothing to do with task 0. *)
Lemma outsider_cannot_comment_or_attach_witness :
  (exists resp,
     add_comment Demo.env (Demo.as_user 2) 0 (Some "Hello") Demo.w_task =
       (Return resp, Demo.w_task)) /\
  (exists resp,
     upload_attachment Demo.env (Demo.as_user 2) 0
       (Some (mkFileStorage (Some "notes.txt") "text/plain")) Demo.w_task =
       (Return resp, Demo.w_task)).
Proof.
  apply (outsider_cannot_comment_or_attach Demo.env (Demo.as_user 2) 0 (Some "Hello")
           (Some (mkFileStorage (Some "notes.txt") "text/plain")) 2 Demo.carol_row
           Demo.audit_row Demo.w_task).
  - reflexivity.
  - vm_compute. reflexivity.
  - vm_compute. reflexivity.
  - discriminate.
  - cbn. lia.
Defined.

(** X15. From a party of the task, a comment without text is answered
    with 'Comment cannot be empty', an upload without a file part with
    'No file part', and an upload whose file has an empty name with 'No
    selected file'; each time on the page the user came from, and with
    the world unchanged. *)
Theorem empty_comment_or_upload_changes_nothing env rq task_id uid cu task w :
  session_user_id rq = Some uid ->
  users (db w) !! uid = Some cu ->
  tasks (db w) !! task_id = Some task ->
  Task.client_id task = Some uid \/ Task.creator_id task = uid ->
  let back flashed :=
    Return (Redirect (if String.eqb (User.role cu) "admin"
                      then "admin_tasks" else "client_task_detail")
              (Some (flashed, "danger"))) in
  (forall content,
     Py.truthy content = false ->
     add_comment env rq task_id content w = (back "Comment cannot be empty", w)) /\
  upload_attachment env rq task_id None w = (back "No file part", w) /\
  (forall file,
     fs_filename file = Some EmptyString ->
     upload_attachment env rq task_id (Some file) w = (back "No selected file", w)).
Proof.
  intros Hs Hu Ht Hp. cbn zeta. split; [|split].
  - intros content Hc.
    unfold_handlers; cbn; rewrite Hs; cbn; rewrite Hu; cbn; rewrite Ht; cbn.
    rewrite (party_authorized uid task Hp), Hc. cbn.
    by destruct (String.eqb (User.role cu) "admin").
  - unfold_handlers; cbn; rewrite Hs; cbn; rewrite Hu; cbn; rewrite Ht; cbn.
    rewrite (party_authorized uid task Hp). cbn.
    by destruct (String.eqb (User.role cu) "admin").
  - intros file Hf.
    unfold_handlers; cbn; rewrite Hs; cbn; rewrite Hu; cbn; rewrite Ht; cbn.
    rewrite (party_authorized uid task Hp), Hf. cbn.
    by destruct (String.eqb (User.role cu) "admin").
Qed.

(** Bob submits the comment form empty, the upload form without a file
    part, and the upload form without choosing a file. *)
Lemma empty_comment_or_upload_changes_nothing_witness :
  add_comment Demo.env (Demo.as_user 1) 0 (Some EmptyString) Demo.w_task =
    (Return (Redirect "client_task_detail" (Some ("Comment cannot be empty", "danger"))),
     Demo.w_task) /\
  upload_attachment Demo.env (Demo.as_user 1) 0 None Demo.w_task =
    (Return (Redirect "client_task_detail" (Some ("No file part", "danger"))),
     Demo.w_task) /\
  upload_attachment Demo.env (Demo.as_user 1) 0
    (Some (mkFileStorage (Some EmptyString) "application/octet-stream")) Demo.w_task =
    (Return (Redirect "client_task_detail" (Some ("No selected file", "danger"))),
     Demo.w_task).
Proof.
  pose proof (empty_comment_or_upload_changes_nothing Demo.env (Demo.as_user 1) 0 1
                Demo.bob_row Demo.audit_row Demo.w_task)
    as (Hcomment & Hnone & Hunnamed).
  - reflexivity.
  - vm_compute. reflexivity.
  - vm_compute. reflexivity.
  - left. reflexivity.
  - split; [|split].
    + apply (Hcomment (Some EmptyString)). reflexivity.
    + exact Hnone.
    + apply (Hunnamed (mkFileStorage (Some EmptyString) "application/octet-stream")).
      reflexivity.
Defined.

(** ** The email helper *)

(** X16. [send_task_notification_email] never raises: it returns [True]
    exactly when there is a recipient and the transport does not raise,
    records one call, and leaves the store and the clock alone. *)
Theorem send_task_notification_email_contract env to subject body w :
  exists ok result,
    send_task_notification_email env to subject body w =
      (Return ok,
       mkWorld (db w) (email_log w ++ [mkEmailCall to subject body result])
         (clock_reads w) (uuid_draws w) (upload_folder w)) /\
    (ok = true <-> Py.truthy to = true /\
                   mail_send_raises env (length (email_log w)) = false) /\
    (result = NoRecipient <-> Py.truthy to = false) /\
    (result = Sent <-> ok = true).
Proof.
  unfold_handlers; cbn.
  destruct (Py.truthy to); cbn; [destruct (mail_send_raises _ _); cbn|].
  all: do 2 eexists; split; [reflexivity|]; intuition congruence.
Qed.


(** * The views *)

(** ** Counting rows *)

Lemma count_insert_fresh {V} (q : V -> bool) k v (m : gmap Id V) :
  m !! k = None ->
  Query.count q (<[k := v]> m) = (if q v then 1 else 0) + Query.count q m.
Proof.
  intros Hk. unfold Query.count. rewrite map_filter_insert. cbn.
  destruct (q v) eqn:Hq.
  - rewrite decide_True by done. rewrite map_size_insert_None; [done|].
    apply map_lookup_filter_None. by left.
  - rewrite decide_False by congruence. by rewrite delete_id.
Qed.

Lemma count_replace {V} (q : V -> bool) k v0 v (m : gmap Id V) :
  m !! k = Some v0 ->
  Query.count q (<[k := v]> m) + (if q v0 then 1 else 0) =
  (if q v then 1 else 0) + Query.count q m.
Proof.
  intros Hk.
  rewrite <- (insert_delete_id m k v0 Hk) at 2.
  rewrite <- (insert_delete_eq m k v).
  rewrite !count_insert_fresh by apply lookup_delete_eq. lia.
Qed.

Lemma count_ext {V} (q q' : V -> bool) (m : gmap Id V) :
  (forall k v, m !! k = Some v -> q v = q' v) ->
  Query.count q m = Query.count q' m.
Proof.
  intros H. unfold Query.count. f_equal. apply map_filter_ext.
  intros k v Hk. cbn. by rewrite (H k v Hk).
Qed.

Lemma count_le {V} (q : V -> bool) (m m' : gmap Id V) :
  (forall k v, m !! k = Some v -> q v = true -> m' !! k = Some v) ->
  Query.count q m <= Query.count q m'.
Proof.
  intros H. apply map_subseteq_size, map_subseteq_spec. intros k v.
  rewrite !map_lookup_filter_Some. cbn. intros [Hk Hq]. auto.
Qed.

(** Decide the comparisons of two literal texts. *)
Ltac eval_eqb :=
  repeat match goal with
         | |- context [String.eqb ?a ?b] =>
             let r := eval vm_compute in (String.eqb a b) in
             change (String.eqb a b) with r
         end.

(** The rows that a condition selects split by their status when every
    status is one of the three. *)
Lemma count_by_status (mine : Task.t -> bool) (m : gmap Id Task.t) :
  (forall k t, m !! k = Some t ->
     In (Task.status t) ["pending"; "in-progress"; "completed"]) ->
  Query.count mine m =
    Query.count (fun t => mine t && String.eqb (Task.status t) "pending") m +
    Query.count (fun t => mine t && String.eqb (Task.status t) "in-progress") m +
    Query.count (fun t => mine t && String.eqb (Task.status t) "completed") m.
Proof.
  induction m as [|k t m Hk _ IH] using map_first_key_ind; intros Hall.
  - reflexivity.
  - rewrite !count_insert_fresh by done. rewrite IH.
    + specialize (Hall k t (lookup_insert_eq _ _ _)).
      destruct (mine t); cbn; [|lia].
      destruct Hall as [<-|[<-|[<-|[]]]]; eval_eqb; cbn; lia.
    + intros k' t' Hk'. apply (Hall k' t'). rewrite lookup_insert_ne; [done|].
      intros <-. congruence.
Qed.

(** ** Unread notifications *)

(** X17. When its owner marks a notification as read, the owner's count
    of unread notifications goes down by one if the notification was
    unread and stays if it was read; the count of every other user
    stays. *)
Theorem mark_notification_read_lowers_unread_count rq nid uid cu n w :
  session_user_id rq = Some uid ->
  users (db w) !! uid = Some cu ->
  notifications (db w) !! nid = Some n ->
  Notification.user_id n = Some uid ->
  let w' := (mark_notification_read rq nid w).2 in
  Views.get_unread_notification_count rq w =
    (if Notification.is_read n then 0 else 1) + Views.get_unread_notification_count rq w' /\
  forall rq', session_user_id rq' <> Some uid ->
    Views.get_unread_notification_count rq' w' =
    Views.get_unread_notification_count rq' w.
Proof.
  intros Hs Hu Hn Ho. cbn zeta.
  rewrite (mark_notification_read_sets_flag rq nid uid cu n w Hs Hu Hn Ho). cbn [snd].
  unfold Views.get_unread_notification_count, Views.current_user. cbn.
  split.
  - rewrite Hs. cbn. rewrite Hu. cbn.
    pose proof (count_replace
      (fun n => bool_decide (Notification.user_id n = Some uid)
                && negb (Notification.is_read n)) nid n (marked_read n) _ Hn) as H.
    cbn in H. rewrite andb_false_r in H. rewrite bool_decide_eq_true_2 in H by done.
    cbn in H. destruct (Notification.is_read n); cbn in *; lia.
  - intros rq' Hne. destruct (session_user_id rq') as [uid'|]; cbn; [|done].
    destruct (users (db w) !! uid') as [u'|]; cbn; [|done].
    pose proof (count_replace
      (fun n => bool_decide (Notification.user_id n = Some uid')
                && negb (Notification.is_read n)) nid n (marked_read n) _ Hn) as H.
    cbn in H. rewrite andb_false_r in H.
    rewrite bool_decide_eq_false_2 in H by congruence. cbn in H. lia.
Qed.

(** Bob reads the notification of task 0: his count goes from 1 to 0. *)
Lemma mark_notification_read_lowers_unread_count_witness :
  let w' := (mark_notification_read (Demo.as_user 1) 0 Demo.w_task).2 in
  Views.get_unread_notification_count (Demo.as_user 1) Demo.w_task =
    (if Notification.is_read Scene.assigned_note then 0 else 1)
    + Views.get_unread_notification_count (Demo.as_user 1) w' /\
  forall rq', session_user_id rq' <> Some 1 ->
    Views.get_unread_notification_count rq' w' =
    Views.get_unread_notification_count rq' Demo.w_task.
Proof.
  apply (mark_notification_read_lowers_unread_count (Demo.as_user 1) 0 1 Demo.bob_row
           Scene.assigned_note Demo.w_task).
  - reflexivity.
  - vm_compute. reflexivity.
  - vm_compute. reflexivity.
  - reflexivity.
Defined.

(** A request leaves a notification as it is, unless it is the owner
    marking it as read. *)
Lemma notification_kept env rq c w k n :
  notifications (db w) !! k = Some n ->
  (forall nid, c = MarkNotificationRead nid ->
     session_user_id rq <> Notification.user_id n) ->
  notifications (db (dispatch env rq c w).2) !! k = Some n.
Proof.
  intros Hn Hother. destruct c; unfold_handlers; cbn.
  all: repeat step; eauto.
  all: try (repeat (rewrite lookup_insert_ne;
                    [|intros <-; by rewrite new_id_fresh in Hn]); assumption).
  rewrite lookup_insert. case_decide; simplify_eq; [|done].
  exfalso. eapply Hother; [reflexivity|]. congruence.
Qed.

Lemma current_user_step env rq c w rq' uid u :
  Views.current_user rq' w = Some (uid, u) ->
  Views.current_user rq' (dispatch env rq c w).2 = Some (uid, u).
Proof.
  unfold Views.current_user. intros H.
  destruct (session_user_id rq') as [uid'|]; cbn in *; [|done].
  destruct (users (db w) !! uid') as [u'|] eqn:Hu; cbn in *; [|done].
  simplify_eq.
  destruct (users_step env rq c w) as [-> | (u0 & -> & _)].
  - by rewrite Hu.
  - rewrite lookup_insert_ne; [by rewrite Hu|].
    intros <-. by rewrite new_id_fresh in Hu.
Qed.

(** X18. Nobody but its owner lowers a user's count of unread
    notifications: a request that is not the user's own marking of a
    notification leaves the count as it is or raises it. *)
Theorem unread_count_only_lowered_by_owner env rq c w rq' :
  (forall nid, c = MarkNotificationRead nid ->
     session_user_id rq <> session_user_id rq') ->
  Views.get_unread_notification_count rq' w <=
  Views.get_unread_notification_count rq' (dispatch env rq c w).2.
Proof.
  intros Hother. unfold Views.get_unread_notification_count.
  destruct (Views.current_user rq' w) as [[uid u]|] eqn:Hcu; [|lia].
  rewrite (current_user_step env rq c w rq' uid u Hcu).
  apply count_le. intros k n Hn Hq.
  apply andb_true_iff in Hq as [Hq _]. apply bool_decide_eq_true in Hq.
  apply notification_kept; [done|].
  intros nid Hc. rewrite Hq.
  unfold Views.current_user in Hcu.
  destruct (session_user_id rq') as [uid'|] eqn:Hs'; cbn in Hcu; [|done].
  destruct (users (db w) !! uid'); cbn in Hcu; [|done]. simplify_eq.
  by apply (Hother nid).
Qed.

(** Alice deletes task 0 on the lenient engine: Bob keeps his unread
    notification. *)
Lemma unread_count_only_lowered_by_owner_witness :
  Views.get_unread_notification_count (Demo.as_user 1) Demo.w_task <=
  Views.get_unread_notification_count (Demo.as_user 1)
    (dispatch Demo.lenient_env (Demo.as_user 0) (DeleteTask 0) Demo.w_task).2.
Proof.
  apply (unread_count_only_lowered_by_owner Demo.lenient_env (Demo.as_user 0)
           (DeleteTask 0) Demo.w_task (Demo.as_user 1)).
  intros nid H. discriminate H.
Defined.


(** ** The dashboards *)

Ltac unfold_views :=
  unfold Views.index, Views.login, Views.admin_dashboard, Views.admin_tasks,
    Views.client_dashboard, Views.client_tasks, Views.client_task_detail,
    Views.download_file, Views.send_from_directory,
    Views.generate_task_description_api, Views.analyze_task_priority_api,
    Views.login_required, Views.admin_required, Views.client_required,
    get_or_404, query_get, now, bind, ret, raise, get_world.

Ltac enter_view Hsession Huser :=
  unfold_views; cbn; rewrite Hsession; cbn; rewrite Huser; cbn.

(** X19. In a reachable world the numbers on a dashboard add up: the
    tasks of the user are the pending, the in-progress and the completed
    ones. Both dashboards read the clock once and change nothing else. *)
Theorem dashboard_counts_add_up env rq uid cu w :
  reachable env w ->
  session_user_id rq = Some uid ->
  users (db w) !! uid = Some cu ->
  let w' := mkWorld (db w) (email_log w) (S (clock_reads w)) (uuid_draws w)
              (upload_folder w) in
  (User.role cu = "admin" ->
   exists ctx,
     Views.admin_dashboard env rq w = (Return (Views.AdminDashboardPage ctx), w') /\
     Views.ad_total_tasks ctx =
       Views.ad_pending_tasks ctx + Views.ad_in_progress_tasks ctx
       + Views.ad_completed_tasks ctx) /\
  (User.role cu = "client" ->
   exists ctx,
     Views.client_dashboard env rq w = (Return (Views.ClientDashboardPage ctx), w') /\
     Views.cd_total_tasks ctx =
       Views.cd_pending_tasks ctx + Views.cd_in_progress_tasks ctx
       + Views.cd_completed_tasks ctx).
Proof.
  intros Hreach Hs Hu. cbn zeta. split; intros Hr.
  - enter_view Hs Hu. rewrite (is_admin_role _ Hr). cbn.
    eexists. split; [reflexivity|]. cbn.
    apply count_by_status. intros k t. by apply reachable_statuses with (env := env).
  - enter_view Hs Hu. rewrite (is_client_role _ Hr). cbn.
    eexists. split; [reflexivity|]. cbn.
    apply count_by_status. intros k t. by apply reachable_statuses with (env := env).
Qed.

(** Bob's dashboard after Alice has given him task 0. *)
Lemma dashboard_counts_add_up_witness :
  exists ctx,
    Views.client_dashboard Demo.env (Demo.as_user 1) Demo.w_task =
      (Return (Views.ClientDashboardPage ctx),
       mkWorld (db Demo.w_task) (email_log Demo.w_task) (S (clock_reads Demo.w_task))
         (uuid_draws Demo.w_task) (upload_folder Demo.w_task)) /\
    Views.cd_total_tasks ctx =
      Views.cd_pending_tasks ctx + Views.cd_in_progress_tasks ctx
      + Views.cd_completed_tasks ctx.
Proof.
  refine (proj2 (dashboard_counts_add_up Demo.env (Demo.as_user 1) 1 Demo.bob_row
                   Demo.w_task _ _ _) _).
  - apply demo_task_reachable.
  - reflexivity.
  - vm_compute. reflexivity.
  - reflexivity.
Defined.

(** ** What a list shows *)

Lemma insert_by_perm {A} (le : A -> A -> bool) x l :
  Query.insert_by le x l ≡ₚ x :: l.
Proof.
  induction l as [|y l IH]; cbn; [done|].
  destruct (le x y); [done|]. rewrite IH. apply Permutation_swap.
Qed.

Lemma order_by_perm {A} (key : A -> Z) l : Query.order_by key l ≡ₚ l.
Proof.
  induction l as [|x l IH]; cbn; [done|].
  unfold Query.order_by in *. by rewrite insert_by_perm, IH.
Qed.

Lemma order_by_desc_perm {A} (key : A -> Z) l : Query.order_by_desc key l ≡ₚ l.
Proof.
  induction l as [|x l IH]; cbn; [done|].
  unfold Query.order_by_desc in *. by rewrite insert_by_perm, IH.
Qed.

Lemma elem_of_all {V} (q : V -> bool) (m : gmap Id V) k v :
  (k, v) ∈ Query.all q m <-> m !! k = Some v /\ q v = true.
Proof.
  unfold Query.all. rewrite elem_of_map_to_list, map_lookup_filter_Some. done.
Qed.

Lemma elem_of_limit {A} n (l : list A) x : x ∈ Query.limit n l -> x ∈ l.
Proof. unfold Query.limit. apply subseteq_take. Qed.

Lemma with_status_narrows status query t :
  Views.with_status status query t = true -> query t = true.
Proof.
  unfold Views.with_status, Query.and_also.
  destruct (Py.truthy _); [|done]. by intros [? _]%andb_true_iff.
Qed.

Lemma with_priority_narrows priority query t :
  Views.with_priority priority query t = true -> query t = true.
Proof.
  unfold Views.with_priority, Query.and_also.
  destruct (Py.truthy _); [|done]. by intros [? _]%andb_true_iff.
Qed.

Lemma with_search_narrows platform search query t :
  Views.with_search platform search query t = true -> query t = true.
Proof.
  unfold Views.with_search, Query.and_also.
  destruct (Py.truthy _); [|done]. by intros [? _]%andb_true_iff.
Qed.


(** X20. A client is shown only what is theirs: every task on the task
    list, whatever the filters, and on the dashboard is assigned to the
    client, every notification on the dashboard is addressed to the
    client, and a task detail page shows a task of the client with the
    comments and attachments of that task only. *)
Theorem client_sees_only_own_tasks env platform rq uid cu w :
  session_user_id rq = Some uid ->
  users (db w) !! uid = Some cu ->
  User.role cu = "client" ->
  (forall args, exists rows,
     Views.client_tasks platform rq args w = (Return (Views.ClientTasksPage rows), w) /\
     forall k t, (k, t) ∈ rows ->
       tasks (db w) !! k = Some t /\ Task.client_id t = Some uid) /\
  (exists ctx w',
     Views.client_dashboard env rq w = (Return (Views.ClientDashboardPage ctx), w') /\
     (forall k t, (k, t) ∈ (Views.cd_recent_tasks ctx ++ Views.cd_due_soon ctx)%list ->
        tasks (db w) !! k = Some t /\ Task.client_id t = Some uid) /\
     (forall k n, (k, n) ∈ Views.cd_notifications ctx ->
        notifications (db w) !! k = Some n /\ Notification.user_id n = Some uid)) /\
  (forall task_id task comment_rows attachment_rows w',
     Views.client_task_detail rq task_id w =
       (Return (Views.ClientTaskDetailPage task comment_rows attachment_rows), w') ->
     tasks (db w) !! task_id = Some task /\ Task.client_id task = Some uid /\
     (forall k c, (k, c) ∈ comment_rows ->
        comments (db w) !! k = Some c /\ Comment.task_id c = task_id) /\
     (forall k a, (k, a) ∈ attachment_rows ->
        attachments (db w) !! k = Some a /\ Attachment.task_id a = task_id)).
Proof.
  intros Hs Hu Hr. split; [|split].
  - intros args. enter_view Hs Hu. rewrite (is_client_role _ Hr). cbn.
    eexists. split; [reflexivity|]. intros k t.
    rewrite order_by_desc_perm, elem_of_all. intros [Hk Hq]. split; [done|].
    apply with_search_narrows, with_priority_narrows, with_status_narrows in Hq.
    by apply bool_decide_eq_true in Hq.
  - enter_view Hs Hu. rewrite (is_client_role _ Hr). cbn.
    do 2 eexists. split; [reflexivity|]. cbn. split.
    + intros k t [Hin|Hin]%elem_of_app; apply elem_of_limit in Hin.
      * rewrite order_by_desc_perm, elem_of_all in Hin. destruct Hin as [Hk Hq].
        split; [done|]. by apply bool_decide_eq_true in Hq.
      * rewrite order_by_perm, elem_of_all in Hin. destruct Hin as [Hk Hq].
        split; [done|]. apply andb_true_iff in Hq as [Hq _].
        apply andb_true_iff in Hq as [Hq _]. by apply bool_decide_eq_true in Hq.
    + intros k n Hin%elem_of_limit.
      rewrite order_by_desc_perm, elem_of_all in Hin. destruct Hin as [Hk Hq].
      split; [done|]. apply andb_true_iff in Hq as [Hq _].
      by apply bool_decide_eq_true in Hq.
  - intros task_id task cs ats w'. enter_view Hs Hu. rewrite (is_client_role _ Hr). cbn.
    destruct (tasks (db w) !! task_id) as [t|] eqn:Ht; cbn; [|done].
    destruct (bool_decide_reflect (Task.client_id t = Some uid)); cbn; [|done].
    intros H. simplify_eq. split; [done|]. split; [done|]. split.
    + intros k c. rewrite order_by_perm, elem_of_all. intros [Hk Hq].
      split; [done|]. by apply Nat.eqb_eq in Hq.
    + intros k a. rewrite order_by_desc_perm, elem_of_all. intros [Hk Hq].
      split; [done|]. by apply Nat.eqb_eq in Hq.
Qed.

(** Bob looks at his pending tasks. *)
Lemma client_sees_only_own_tasks_witness :
  exists rows,
    Views.client_tasks Visit.platform (Demo.as_user 1) Visit.pending_only Demo.w_task =
      (Return (Views.ClientTasksPage rows), Demo.w_task) /\
    forall k t, (k, t) ∈ rows ->
      tasks (db Demo.w_task) !! k = Some t /\ Task.client_id t = Some 1.
Proof.
  refine (proj1 (client_sees_only_own_tasks Demo.env Visit.platform (Demo.as_user 1) 1
                   Demo.bob_row Demo.w_task _ _ _) Visit.pending_only).
  - reflexivity.
  - vm_compute. reflexivity.
  - reflexivity.
Defined.

(** X21. The task list of an admin shows tasks that the admin created,
    and a filter only narrows it: each row listed under some filters is
    listed without filters too. A client id in the query string that is
    not a number is ignored. *)
Theorem admin_tasks_filters_narrow platform rq uid cu w args :
  session_user_id rq = Some uid ->
  users (db w) !! uid = Some cu ->
  User.role cu = "admin" ->
  (exists all_rows clients,
     Views.admin_tasks platform rq
       (Views.mkTaskFilters EmptyString EmptyString EmptyString EmptyString) w =
       (Return (Views.AdminTasksPage all_rows clients), w) /\
     (forall k t, (k, t) ∈ all_rows <->
        tasks (db w) !! k = Some t /\ Task.creator_id t = uid) /\
     forall rows clients' w',
       Views.admin_tasks platform rq args w =
         (Return (Views.AdminTasksPage rows clients'), w') ->
       clients' = clients /\ w' = w /\ forall row, row ∈ rows -> row ∈ all_rows) /\
  (Views.isdigit platform (Views.q_client_id args) = false ->
   Views.admin_tasks platform rq args w =
   Views.admin_tasks platform rq
     (Views.mkTaskFilters (Views.q_status args) (Views.q_priority args) EmptyString
        (Views.q_search args)) w).
Proof.
  intros Hs Hu Hr. split.
  - enter_view Hs Hu. rewrite (is_admin_role _ Hr). cbn.
    unfold Views.with_status, Views.with_priority, Views.with_search at 1.
    change (Py.truthy (Some EmptyString)) with false. cbn.
    do 2 eexists. split; [reflexivity|]. split.
    + intros k t. rewrite order_by_desc_perm, elem_of_all.
      by rewrite Nat.eqb_eq.
    + intros rows clients' w'.
      destruct (Py.truthy (Some (Views.q_client_id args))
                && Views.isdigit platform (Views.q_client_id args)); cbn.
      1: destruct (Views.int platform (Views.q_client_id args)); cbn; [|done].
      all: intros H; simplify_eq; split; [done|]; split; [done|].
      all: intros [k t]; rewrite !order_by_desc_perm, !elem_of_all.
      all: intros [Hk Hq]; split; [done|].
      all: apply with_search_narrows in Hq.
      1: apply andb_true_iff in Hq as [Hq _].
      all: by apply with_priority_narrows, with_status_narrows in Hq.
  - intros Hd. enter_view Hs Hu. rewrite (is_admin_role _ Hr). cbn.
    by rewrite Hd, andb_false_r.
Qed.

(** Alice filters her tasks by client "bob", which is no user id. *)
Lemma admin_tasks_filters_narrow_witness :
  Views.admin_tasks Visit.platform (Demo.as_user 0) Visit.of_client_bob Demo.w_task =
  Views.admin_tasks Visit.platform (Demo.as_user 0) Visit.everything Demo.w_task.
Proof.
  refine (proj2 (admin_tasks_filters_narrow Visit.platform (Demo.as_user 0) 0
                   Demo.alice_row Demo.w_task Visit.of_client_bob _ _ _) _).
  - reflexivity.
  - vm_compute. reflexivity.
  - reflexivity.
  - reflexivity.
Defined.


(** ** [download_file] *)

Lemma first_elem {V} (q : V -> bool) (m : gmap Id V) k v :
  Query.first q m = Some (k, v) -> m !! k = Some v /\ q v = true.
Proof.
  unfold Query.first. intros H. apply elem_of_all.
  destruct (Query.all q m) as [|x l]; cbn in H; simplify_eq. left.
Qed.

Lemma first_None {V} (q : V -> bool) (m : gmap Id V) :
  Query.first q m = None -> forall k v, m !! k = Some v -> q v = false.
Proof.
  unfold Query.first. intros H k v Hk. destruct (q v) eqn:Hq; [|done].
  assert ((k, v) ∈ Query.all q m) as Hin by by apply elem_of_all.
  destruct (Query.all q m); cbn in H; [|done]. by apply elem_of_nil in Hin.
Qed.

Lemma first_unique {V} (q : V -> bool) (m : gmap Id V) k v :
  m !! k = Some v -> q v = true ->
  (forall k' v', m !! k' = Some v' -> q v' = true -> k' = k) ->
  Query.first q m = Some (k, v).
Proof.
  intros Hk Hq Huniq. unfold Query.first, Query.all.
  replace (filter (fun kv => q kv.2 = true) m) with ({[k := v]} : gmap Id V).
  - by rewrite map_to_list_singleton.
  - apply map_eq. intros k'. apply option_eq. intros v'.
    rewrite lookup_singleton_Some, map_lookup_filter_Some. cbn. split.
    + intros [<- <-]. done.
    + intros [Hk' Hq']. pose proof (Huniq _ _ Hk' Hq') as ->. split; congruence.
Qed.

Section Download.
Context (env : Env) (rq : Request) (uid : Id) (cu : User.t) (w : World)
  (task_id : Id) (task : Task.t) (rid : Id) (recipient : User.t).
Context (Hsession : session_user_id rq = Some uid)
  (Huser : users (db w) !! uid = Some cu)
  (Htask : tasks (db w) !! task_id = Some task)
  (Hparty : Task.client_id task = Some uid \/ Task.creator_id task = uid)
  (Hrid : (if (uid =? Task.creator_id task)%nat
           then Task.client_id task else Some (Task.creator_id task)) = Some rid)
  (Hrecipient : users (db w) !! rid = Some recipient).

(** What [upload_attachment] leaves behind: the row, and the file under
    the same name. *)
Lemma upload_attachment_stores file name :
  fs_filename file = Some name ->
  name <> EmptyString ->
  exists resp w' uploaded,
    let original_filename := secure_filename env name in
    let unique_filename :=
      uuid4_hex env (uuid_draws w) +:+ splitext_ext env original_filename in
    upload_attachment env rq task_id (Some file) w = (Return resp, w') /\
    attachments (db w') =
      <[new_id (attachments (db w)) :=
          Attachment.mk unique_filename original_filename (fs_content_type file)
            uploaded task_id uid]> (attachments (db w)) /\
    upload_folder w' = (upload_folder w ++ [unique_filename])%list /\
    users (db w') = users (db w) /\
    tasks (db w') = tasks (db w).
Proof.
  intros Hname Hne.
  unfold_handlers; cbn.
  rewrite Hsession; cbn; rewrite Huser; cbn; rewrite Htask; cbn.
  rewrite (party_authorized uid task Hparty), Hname; cbn.
  rewrite bool_decide_eq_false_2 by (unfold Py.empty; congruence). cbn.
  replace (Py.truthy (Some name)) with true by (by destruct name).
  cbn. fk. rewrite Hrid; cbn. fk.
  repeat step; do 3 eexists; repeat split; reflexivity.
Qed.

End Download.

(** X22. What is uploaded can be downloaded: after [upload_attachment]
    has stored a file under a name that no earlier attachment has, the
    uploader and the other party of the task get that file from
    [download_file], under its original name. *)
Theorem download_after_upload env rq uid cu w task_id task rid recipient file name rq' :
  session_user_id rq = Some uid ->
  users (db w) !! uid = Some cu ->
  tasks (db w) !! task_id = Some task ->
  Task.client_id task = Some uid \/ Task.creator_id task = uid ->
  (if (uid =? Task.creator_id task)%nat
   then Task.client_id task else Some (Task.creator_id task)) = Some rid ->
  users (db w) !! rid = Some recipient ->
  fs_filename file = Some name ->
  name <> EmptyString ->
  let original_filename := secure_filename env name in
  let unique_filename :=
    uuid4_hex env (uuid_draws w) +:+ splitext_ext env original_filename in
  (forall k a, attachments (db w) !! k = Some a ->
     Attachment.filename a <> unique_filename) ->
  session_user_id rq' = Some uid \/ session_user_id rq' = Some rid ->
  let w' := (upload_attachment env rq task_id (Some file) w).2 in
  Views.download_file rq' unique_filename w' =
    (Return (Views.SendFromDirectory unique_filename original_filename), w').
Proof.
  intros Hs Hu Ht Hparty Hrid Hrecipient Hname Hne. cbn zeta. intros Hnew Hrq'.
  destruct (upload_attachment_stores env rq uid cu w task_id task rid recipient
              Hs Hu Ht Hparty Hrid Hrecipient file name Hname Hne)
    as (resp & w' & uploaded & Hrun & Hatt & Hfolder & Husers & Htasks).
  cbn zeta in *. rewrite Hrun. cbn [snd].
  set (stored := uuid4_hex env (uuid_draws w) +:+ splitext_ext env (secure_filename env name))
    in *.
  assert (exists uid' u', session_user_id rq' = Some uid' /\ users (db w') !! uid' = Some u'
            /\ negb (bool_decide (Some uid' = Task.client_id task))
               && negb (uid' =? Task.creator_id task)%nat = false)
    as (uid' & u' & Hs' & Hu' & Hauth).
  { destruct Hrq' as [H|H].
    - exists uid, cu. rewrite Husers. split; [done|]. split; [done|].
      by apply party_authorized.
    - exists rid, recipient. rewrite Husers. split; [done|]. split; [done|].
      destruct (uid =? Task.creator_id task)%nat eqn:He.
      + rewrite Hrid. by rewrite bool_decide_eq_true_2.
      + simplify_eq. rewrite Nat.eqb_refl. apply andb_false_r. }
  unfold_views; cbn. rewrite Hs'; cbn. rewrite Hu'; cbn.
  rewrite Hatt.
  erewrite first_unique; cycle 1.
  - apply lookup_insert_eq.
  - cbn. apply String.eqb_refl.
  - intros k' a' Hk' Hq. apply lookup_insert_Some in Hk' as [[? _]|[_ Hk']]; [done|].
    apply String.eqb_eq in Hq. by destruct (Hnew _ _ Hk').
  - cbn. rewrite Htasks, Ht. cbn. rewrite Hauth. cbn.
    rewrite Hfolder.
    replace (Py.in_list stored (upload_folder w ++ [stored])) with true; [done|].
    symmetry. apply in_list_In, in_or_app. right. by left.
Qed.

(** Bob attaches his notes to task 0, and Alice downloads them. *)
Lemma download_after_upload_witness :
  Views.download_file (Demo.as_user 0) "file0.txt" Visit.w_notes =
    (Return (Views.SendFromDirectory "file0.txt" "notes.txt"), Visit.w_notes).
Proof.
  apply (download_after_upload Demo.env (Demo.as_user 1) 1 Demo.bob_row Demo.w_task 0
           Demo.audit_row 0 Demo.alice_row Visit.notes "notes.txt" (Demo.as_user 0)).
  - reflexivity.
  - vm_compute. reflexivity.
  - vm_compute. reflexivity.
  - left. reflexivity.
  - reflexivity.
  - vm_compute. reflexivity.
  - reflexivity.
  - discriminate.
  - intros k a H. vm_compute in H. discriminate H.
  - right. reflexivity.
Defined.

(** X23. [download_file] sends a file only to a party of the task that
    the attachment belongs to: whenever it answers with a file, the
    session is that of the client or the creator of the task of an
    attachment stored under the requested name, the download name is
    that attachment's original name, and the world is unchanged. *)
Theorem download_file_only_for_parties rq filename w sent download_name w' :
  Views.download_file rq filename w =
    (Return (Views.SendFromDirectory sent download_name), w') ->
  exists uid k attachment task,
    session_user_id rq = Some uid /\
    is_Some (users (db w) !! uid) /\
    attachments (db w) !! k = Some attachment /\
    Attachment.filename attachment = filename /\
    Attachment.original_filename attachment = download_name /\
    tasks (db w) !! Attachment.task_id attachment = Some task /\
    (Task.client_id task = Some uid \/ Task.creator_id task = uid) /\
    In filename (upload_folder w) /\
    sent = filename /\ w' = w.
Proof.
  unfold_views; cbn.
  destruct (session_user_id rq) as [uid|] eqn:Hs; cbn; [|done].
  destruct (users (db w) !! uid) as [u|] eqn:Hu; cbn; [|done].
  destruct (Query.first _ _) as [[k a]|] eqn:Hfirst; cbn; [|done].
  apply first_elem in Hfirst as [Hk Hq]. apply String.eqb_eq in Hq.
  destruct (tasks (db w) !! Attachment.task_id a) as [task|] eqn:Ht; cbn; [|done].
  destruct (negb _ && negb _) eqn:Hauth; cbn; [done|].
  destruct (Py.in_list filename (upload_folder w)) eqn:Hin; cbn; [|done].
  intros H. simplify_eq. exists uid, k, a, task.
  repeat split; eauto.
  - apply andb_false_iff in Hauth as [H|H]; apply negb_false_iff in H.
    + left. apply bool_decide_eq_true in H. done.
    + right. apply Nat.eqb_eq in H. done.
  - by apply in_list_In.
Qed.

Lemma download_file_only_for_parties_witness :
  exists uid k attachment task,
    session_user_id (Demo.as_user 0) = Some uid /\
    is_Some (users (db Visit.w_notes) !! uid) /\
    attachments (db Visit.w_notes) !! k = Some attachment /\
    Attachment.filename attachment = "file0.txt" /\
    Attachment.original_filename attachment = "notes.txt" /\
    tasks (db Visit.w_notes) !! Attachment.task_id attachment = Some task /\
    (Task.client_id task = Some uid \/ Task.creator_id task = uid) /\
    In "file0.txt" (upload_folder Visit.w_notes) /\
    "file0.txt" = "file0.txt" /\ Visit.w_notes = Visit.w_notes.
Proof.
  apply (download_file_only_for_parties (Demo.as_user 0) "file0.txt" Visit.w_notes
           "file0.txt" "notes.txt" Visit.w_notes).
  vm_compute. reflexivity.
Defined.


(** ** The AI endpoints *)

Lemma analyze_task_priority_valid backend description days :
  In (analyze_task_priority backend description days) ["low"; "medium"; "high"].
Proof.
  unfold analyze_task_priority, and_then, first_content.
  destruct (chat_completions_create backend _) as [msg|[|[content|] rest]]; cbn; auto.
  destruct (Py.in_list _ _) eqn:Hin; cbn; auto.
  by apply in_list_In in Hin.
Qed.

Lemma truthy_text s : Py.truthy (Some s) = negb (String.eqb s EmptyString).
Proof. by destruct s. Qed.

(** X24. For an admin, [analyze_task_priority_api] answers 400 without a
    description; with one, a day count that is not made of digits is
    ignored, and unless [int] raises the answer is 200 with a priority
    that is 'low', 'medium' or 'high', whatever the backend does. The
    world stays as it is. *)
Theorem analyze_task_priority_api_answers platform backend rq uid cu w
    description deadline_days :
  session_user_id rq = Some uid ->
  users (db w) !! uid = Some cu ->
  User.role cu = "admin" ->
  (description = EmptyString ->
   Views.analyze_task_priority_api platform backend rq description deadline_days w =
     (Return (Views.JsonStatus
                (Json.Obj [("success", Json.Bool false);
                           ("error", Json.Str "Task description is required")]) 400),
      w)) /\
  ((forall text, deadline_days = Some text -> Views.isdigit platform text = false) ->
   Views.analyze_task_priority_api platform backend rq description deadline_days w =
   Views.analyze_task_priority_api platform backend rq description None w) /\
  (description <> EmptyString ->
   (forall text, deadline_days = Some text -> Views.isdigit platform text = true ->
      is_Some (Views.int platform text)) ->
   exists priority,
     Views.analyze_task_priority_api platform backend rq description deadline_days w =
       (Return (Views.JsonStatus
                  (Json.Obj [("success", Json.Bool true);
                             ("priority", Json.Str priority)]) 200), w) /\
     In priority ["low"; "medium"; "high"]).
Proof.
  intros Hs Hu Hr. split; [|split].
  - intros ->. enter_view Hs Hu. by rewrite (is_admin_role _ Hr).
  - intros Hd. enter_view Hs Hu. rewrite (is_admin_role _ Hr). cbn.
    destruct deadline_days as [text|]; [|done].
    by rewrite (Hd text eq_refl), andb_false_r.
  - intros Hne Hint. enter_view Hs Hu. rewrite (is_admin_role _ Hr). cbn.
    rewrite truthy_text. apply String.eqb_neq in Hne. rewrite Hne. cbn.
    destruct deadline_days as [text|]; cbn.
    1: destruct (Py.truthy (Some text) && Views.isdigit platform text) eqn:Hd; cbn.
    1: apply andb_true_iff in Hd as [_ Hd];
       destruct (Hint text eq_refl Hd) as [n ->]; cbn.
    all: eexists; split; [reflexivity|]; apply analyze_task_priority_valid.
Qed.

(** Alice asks for the priority of an audit that is due in "3.5" days
    while the backend is down. *)
Lemma analyze_task_priority_api_answers_witness :
  Views.analyze_task_priority_api Visit.platform Demo.backend_down (Demo.as_user 0)
    "Yearly audit" (Some "3.5") Demo.w_task =
  Views.analyze_task_priority_api Visit.platform Demo.backend_down (Demo.as_user 0)
    "Yearly audit" None Demo.w_task.
Proof.
  refine (proj1 (proj2 (analyze_task_priority_api_answers Visit.platform
                          Demo.backend_down (Demo.as_user 0) 0 Demo.alice_row
                          Demo.w_task "Yearly audit" (Some "3.5") _ _ _)) _).
  - reflexivity.
  - vm_compute. reflexivity.
  - reflexivity.
  - intros text H. injection H as <-. reflexivity.
Defined.

(** A draft that did not succeed carries the message of what went
    wrong. *)
Lemma failed_draft_has_error backend service_type keywords client_name priority :
  let draft := generate_ai_task_description backend service_type keywords client_name
                 priority in
  draft_success draft = false -> is_Some (draft_error draft).
Proof.
  cbn zeta. unfold generate_ai_task_description.
  match goal with |- context [match ?a with inr _ => _ | inl _ => _ end] =>
    assert ((exists msg, a = inl msg) \/ exists t d, a = inr (mkDraft t d true None))
      as [[msg ->]|(t & d & ->)]
  end.
  2: by eexists.
  2: done.
  unfold and_then.
  repeat match goal with
         | |- (exists msg, inl _ = inl msg) \/ _ => left; by eexists
         | |- _ \/ (exists t d, inr _ = inr _) => right; by do 2 eexists
         | |- context [match ?x with _ => _ end] =>
             lazymatch x with
             | context [match _ with _ => _ end] => fail
             | _ => destruct x
             end
         end.
Qed.

(** X25. For an admin, [generate_task_description_api] answers 400 when
    the service type or the keywords are missing; otherwise it answers
    200 with the title and the description of the draft, or 500 with the
    message of what went wrong in the adapter, never with the default
    text of the endpoint; when the backend is unreachable the message is
    that of the backend. The world stays as it is. *)
Theorem generate_task_description_api_answers backend rq uid cu w
    service_type keywords client_name priority :
  session_user_id rq = Some uid ->
  users (db w) !! uid = Some cu ->
  User.role cu = "admin" ->
  let reply := Views.generate_task_description_api backend rq service_type keywords
                 client_name priority w in
  (service_type = EmptyString \/ keywords = EmptyString ->
   reply =
     (Return (Views.JsonStatus
                (Json.Obj [("success", Json.Bool false);
                           ("error", Json.Str "Service type and keywords are required")])
                400), w)) /\
  (service_type <> EmptyString -> keywords <> EmptyString ->
   let draft := generate_ai_task_description backend service_type keywords client_name
                  priority in
   (draft_success draft = true /\
    reply =
      (Return (Views.JsonStatus
                 (Json.Obj [("success", Json.Bool true);
                            ("title", draft_title draft);
                            ("description", draft_description draft)]) 200), w)) \/
   (draft_success draft = false /\
    exists msg,
      draft_error draft = Some msg /\
      reply =
        (Return (Views.JsonStatus
                   (Json.Obj [("success", Json.Bool false); ("error", Json.Str msg)])
                   500), w))) /\
  (service_type <> EmptyString -> keywords <> EmptyString ->
   forall msg,
     chat_completions_create backend
       (description_request service_type keywords client_name priority) = ApiError msg ->
     reply =
       (Return (Views.JsonStatus
                  (Json.Obj [("success", Json.Bool false); ("error", Json.Str msg)])
                  500), w)).
Proof.
  intros Hs Hu Hr. cbn zeta. split; [|split].
  - intros Hmissing. enter_view Hs Hu. rewrite (is_admin_role _ Hr). cbn.
    rewrite !truthy_text. destruct Hmissing as [-> | ->]; cbn; [done|].
    by rewrite orb_true_r.
  - intros Hst Hkw. enter_view Hs Hu. rewrite (is_admin_role _ Hr). cbn.
    rewrite !truthy_text. apply String.eqb_neq in Hst, Hkw. rewrite Hst, Hkw. cbn.
    pose proof (failed_draft_has_error backend service_type keywords client_name priority)
      as Herr. cbn zeta in Herr.
    destruct (draft_success _) eqn:Hok.
    + left. done.
    + right. split; [done|]. destruct (Herr eq_refl) as [msg Hmsg].
      exists msg. split; [done|]. unfold Views.error_or. by rewrite Hmsg.
  - intros Hst Hkw msg Hdown. enter_view Hs Hu. rewrite (is_admin_role _ Hr). cbn.
    rewrite !truthy_text. apply String.eqb_neq in Hst, Hkw. rewrite Hst, Hkw. cbn.
    unfold generate_ai_task_description. rewrite Hdown. reflexivity.
Qed.

(** Alice asks for a draft while the backend is down. *)
Lemma generate_task_description_api_answers_witness :
  Views.generate_task_description_api Demo.backend_down (Demo.as_user 0) "Legal" "audit"
    None None Demo.w_task =
    (Return (Views.JsonStatus
               (Json.Obj [("success", Json.Bool false);
                          ("error", Json.Str "Connection error.")]) 500), Demo.w_task).
Proof.
  refine (proj2 (proj2 (generate_task_description_api_answers Demo.backend_down
                          (Demo.as_user 0) 0 Demo.alice_row Demo.w_task "Legal" "audit"
                          None None _ _ _)) _ _ "Connection error." _).
  - reflexivity.
  - vm_compute. reflexivity.
  - reflexivity.
  - discriminate.
  - discriminate.
  - reflexivity.
Defined.


(** ** Logging in *)

(** What a successful [register] has done. *)
Lemma register_success env rq form w w' :
  register env rq form w =
    (Return (Redirect "login"
               (Some ("Your account has been created! You can now log in", "success"))),
     w') ->
  exists pw role created,
    r_password form = Some pw /\
    users (db w') =
      <[new_id (users (db w)) :=
          User.mk (r_username form) (r_email form) (generate_password_hash env pw)
            role created]> (users (db w)) /\
    forall k u, users (db w) !! k = Some u -> User.email u <> r_email form.
Proof.
  unfold_handlers; cbn.
  repeat step; intros H; simplify_eq.
  all: do 3 eexists; split; [reflexivity|]; split; [reflexivity|].
  all: intros k u Hk He.
  all: match goal with
       | H : ~ map_Exists _ (users _) |- _ => apply H; exists k, u; by split
       end.
Qed.

(** X26. Who has registered can log in: after a successful [register],
    a visitor who is not logged in and posts the same email and password
    is logged in as the new user and sent on to the [next] of the query
    string as it stands, or to the index without one; with a password
    that the check rejects the visitor gets the login page and a
    message. *)
Theorem login_after_register env platform rq form w rq' next :
  (forall p, Views.check_password_hash platform (generate_password_hash env p) (Some p)
             = Some true) ->
  let w' := (register env rq form w).2 in
  (register env rq form w).1 =
    Return (Redirect "login"
              (Some ("Your account has been created! You can now log in", "success"))) ->
  method rq' = POST ->
  Views.current_user rq' w' = None ->
  Views.login platform rq' (Views.mkLoginForm (r_email form) (r_password form) next) w' =
    (Return (Views.LoggedIn (new_id (users (db w))) next), w') /\
  forall wrong pw,
    r_password form = Some pw ->
    Views.check_password_hash platform (generate_password_hash env pw) wrong
      = Some false ->
    Views.login platform rq' (Views.mkLoginForm (r_email form) wrong next) w' =
      (Return (Views.Plain
                 (RenderTemplate "login.html"
                    (Some ("Login unsuccessful. Please check email and password",
                           "danger")) None)), w').
Proof.
  intros Hcheck. cbn zeta. intros Hreply Hpost Hanon.
  destruct (register env rq form w) as [reply w'] eqn:Hrun. cbn in *. subst reply.
  destruct (register_success env rq form w w' Hrun)
    as (pw & role & created & Hpw & Husers & Hfresh).
  assert (Query.first (fun u => bool_decide (User.email u = r_email form)) (users (db w'))
          = Some (new_id (users (db w)),
                  User.mk (r_username form) (r_email form) (generate_password_hash env pw)
                    role created)) as Hfirst.
  { rewrite Husers. apply first_unique.
    - apply lookup_insert_eq.
    - by apply bool_decide_eq_true.
    - intros k u Hk Hq. apply lookup_insert_Some in Hk as [[? _]|[_ Hk]]; [done|].
      apply bool_decide_eq_true in Hq. by destruct (Hfresh _ _ Hk). }
  split; [|intros wrong pw' Hpw' Hwrong; simplify_eq].
  all: unfold_views; cbn; rewrite Hanon, Hpost; cbn; rewrite Hfirst; cbn.
  - by rewrite Hpw, Hcheck.
  - by rewrite Hwrong.
Qed.

(** Bob registers and logs in. *)
Lemma login_after_register_witness :
  Views.login Visit.platform Demo.anonymous Visit.bob_logs_in Demo.w_bob =
    (Return (Views.LoggedIn 1 (Some "/client/tasks")), Demo.w_bob).
Proof.
  refine (proj1 (login_after_register Demo.env Visit.platform Demo.anonymous Demo.bob
                   Demo.w_alice Demo.anonymous (Some "/client/tasks") _ _ _ _)).
  - intros p. cbn. f_equal. apply String.eqb_refl.
  - reflexivity.
  - reflexivity.
  - reflexivity.
Defined.

(** In a reachable world a user is an admin or a client. *)
Lemma reachable_roles env w k u :
  reachable env w ->
  users (db w) !! k = Some u ->
  User.role u = "admin" \/ User.role u = "client".
Proof.
  intros Hreach. revert k u. induction Hreach as [|w rq c _ IH]; intros k u Hk.
  - cbn in Hk. by rewrite lookup_empty in Hk.
  - destruct (users_step env rq c w) as [Heq | (u0 & Heq & _ & _ & Hrole & _)];
      rewrite Heq in Hk; [by eapply IH|].
    apply lookup_insert_Some in Hk as [[_ <-]|[_ Hk]]; [|by eapply IH].
    destruct Hrole as [<-|[<-|[]]]; auto.
Qed.

(** X27. The index sends a logged-in user of a reachable world to a
    dashboard that lets the user in: an admin to the admin dashboard,
    anyone else to the client dashboard, whose role check passes because
    every user is an admin or a client. *)
Theorem index_leads_to_own_dashboard env rq uid cu w :
  reachable env w ->
  session_user_id rq = Some uid ->
  users (db w) !! uid = Some cu ->
  (Views.index rq w = (Return (Views.Plain (Redirect "admin_dashboard" None)), w) /\
   exists ctx w',
     Views.admin_dashboard env rq w = (Return (Views.AdminDashboardPage ctx), w')) \/
  (Views.index rq w = (Return (Views.Plain (Redirect "client_dashboard" None)), w) /\
   exists ctx w',
     Views.client_dashboard env rq w = (Return (Views.ClientDashboardPage ctx), w')).
Proof.
  intros Hreach Hs Hu.
  destruct (reachable_roles env w uid cu Hreach Hu) as [Hr|Hr]; [left|right].
  all: unfold_views; unfold Views.current_user; cbn; rewrite Hs; cbn; rewrite Hu; cbn.
  all: rewrite Hr; cbn.
  - unfold User.is_admin. rewrite Hr. cbn. split; [done|]. by do 2 eexists.
  - unfold User.is_client. rewrite Hr. cbn. split; [done|]. by do 2 eexists.
Qed.

Lemma index_leads_to_own_dashboard_witness :
  (Views.index (Demo.as_user 1) Demo.w_task =
     (Return (Views.Plain (Redirect "admin_dashboard" None)), Demo.w_task) /\
   exists ctx w',
     Views.admin_dashboard Demo.env (Demo.as_user 1) Demo.w_task =
       (Return (Views.AdminDashboardPage ctx), w')) \/
  (Views.index (Demo.as_user 1) Demo.w_task =
     (Return (Views.Plain (Redirect "client_dashboard" None)), Demo.w_task) /\
   exists ctx w',
     Views.client_dashboard Demo.env (Demo.as_user 1) Demo.w_task =
       (Return (Views.ClientDashboardPage ctx), w')).
Proof.
  apply (index_leads_to_own_dashboard Demo.env (Demo.as_user 1) 1 Demo.bob_row
           Demo.w_task).
  - apply demo_task_reachable.
  - reflexivity.
  - vm_compute. reflexivity.
Defined.


(** ** The voice command *)

Lemma filter_out_last (name : string) (l : list string) :
  ~ In name l ->
  List.filter (fun f => negb (String.eqb f name)) (l ++ [name]) = l.
Proof.
  intros Hnew. rewrite List.filter_app. cbn. rewrite String.eqb_refl. cbn.
  rewrite app_nil_r. induction l as [|x l IH]; cbn; [done|].
  destruct (String.eqb_spec x name) as [->|_]; cbn.
  - destruct Hnew. by left.
  - rewrite IH; [done|]. intros H. apply Hnew. by right.
Qed.

(** X28. [process_voice_command] cleans up after itself except when the
    transcription fails: when the audio decodes and the transcription
    raises, the temporary file stays behind; when the transcription does
    not raise, the directory holds the files it held before. The result
    is all or nothing: with success the transcript and the task
    information, without it an empty transcript, an empty dict and the
    message, also when only the extraction failed. *)
Theorem process_voice_command_temp_file speech backend audio_base64 tmp :
  ~ In (Voice.temp_name speech (Voice.made tmp)) (Voice.files tmp) ->
  let run := Voice.process_voice_command speech backend audio_base64 tmp in
  let payload := if Py.contains audio_base64 ","
                 then Voice.second_field audio_base64 else audio_base64 in
  (forall audio_data msg,
     Voice.b64decode speech payload = inr audio_data ->
     Voice.transcriptions_create speech audio_data = inl msg ->
     run = (Voice.failed msg,
            Voice.mkTempDir
              (Voice.files tmp ++ [Voice.temp_name speech (Voice.made tmp)])
              (S (Voice.made tmp)))) /\
  ((forall audio_data,
      Voice.b64decode speech payload = inr audio_data ->
      exists text, Voice.transcriptions_create speech audio_data = inr text) ->
   Voice.files run.2 = Voice.files tmp) /\
  (Voice.success run.1 = true /\ Voice.error run.1 = None \/
   exists msg, run.1 = Voice.failed msg).
Proof.
  intros Hnew. cbn zeta. unfold Voice.process_voice_command.
  destruct (Voice.b64decode speech _) as [msg|audio_data] eqn:Hdecode.
  { split; [|split]; [intros a m H; discriminate H|done|right; by eexists]. }
  destruct (Voice.transcriptions_create speech audio_data) as [msg|text] eqn:Htext.
  { split; [|split].
    - intros a m H H'. simplify_eq. congruence.
    - intros H. destruct (H audio_data eq_refl) as [text H']. congruence.
    - right. by eexists. }
  split; [|split].
  - intros a m H H'. simplify_eq. congruence.
  - intros _.
    destruct (first_content _) as [msg|[content|]]; cbn.
    2: destruct (json_loads backend content); cbn.
    all: by rewrite filter_out_last.
  - destruct (first_content _) as [msg|[content|]]; cbn.
    2: destruct (json_loads backend content); cbn.
    all: first [left; done | right; by eexists].
Qed.

(** The transcription service is down: the file of the first recording
    stays in the directory. *)
Lemma process_voice_command_temp_file_witness :
  Voice.process_voice_command Voice.deaf Demo.backend_down
    "data:audio/webm;base64,AAAA" Voice.empty_dir =
  (Voice.failed "Connection error.", Voice.mkTempDir ["/tmp/tmp0.webm"] 1).
Proof.
  refine (proj1 (process_voice_command_temp_file Voice.deaf Demo.backend_down
                   "data:audio/webm;base64,AAAA" Voice.empty_dir _)
            "AAAA" "Connection error." _ _).
  - cbn. tauto.
  - reflexivity.
  - reflexivity.
Defined.


(** * Who changes what *)

(** X29. Only its creator edits or deletes a task, and besides the
    creator only its assignee changes it, and then the status and the
    time of the update alone: whenever a request changes or removes the
    row of a task, the session is the creator's, or it is the assignee's
    and the row differs in nothing but [status] and [updated_at]. *)
Theorem task_changed_only_by_parties env rq c w id t :
  tasks (db w) !! id = Some t ->
  tasks (db (dispatch env rq c w).2) !! id <> Some t ->
  session_user_id rq = Some (Task.creator_id t) \/
  exists uid t',
    session_user_id rq = Some uid /\
    Task.client_id t = Some uid /\
    tasks (db (dispatch env rq c w).2) !! id = Some t' /\
    Task.title t' = Task.title t /\
    Task.description t' = Task.description t /\
    Task.service_type t' = Task.service_type t /\
    Task.priority t' = Task.priority t /\
    Task.deadline t' = Task.deadline t /\
    Task.created_at t' = Task.created_at t /\
    Task.client_id t' = Task.client_id t /\
    Task.creator_id t' = Task.creator_id t.
Proof.
  intros Ht. destruct c; unfold_handlers; cbn.
  all: repeat step; intros Hchanged; try done.
  all: try (rewrite lookup_insert_ne in Hchanged;
            [done|intros <-; by rewrite new_id_fresh in Ht]).
  all: try (destruct (decide (task_id = id)) as [->|Hne];
            [|first [rewrite lookup_insert_ne in Hchanged by done
                    |rewrite lookup_delete_ne in Hchanged by done]; done]).
  all: simplify_eq.
  all: try (left; f_equal; symmetry;
            match goal with
            | H : negb (_ =? _)%nat = false |- _ =>
                by apply negb_false_iff, Nat.eqb_eq in H
            end).
  all: right; do 2 eexists; split; [reflexivity|]; split; [done|].
  all: split; [apply lookup_insert_eq|]; cbn; auto 10.
Qed.

(** Bob starts task 0: nothing but the status and the time of the update
    changes. *)
Lemma task_changed_only_by_parties_witness :
  session_user_id (Demo.as_user 1) = Some (Task.creator_id Demo.audit_row) \/
  exists uid t',
    session_user_id (Demo.as_user 1) = Some uid /\
    Task.client_id Demo.audit_row = Some uid /\
    tasks (db (dispatch Demo.env (Demo.as_user 1)
                 (UpdateTaskStatus 0 (Some "in-progress")) Demo.w_task).2) !! 0 = Some t' /\
    Task.title t' = Task.title Demo.audit_row /\
    Task.description t' = Task.description Demo.audit_row /\
    Task.service_type t' = Task.service_type Demo.audit_row /\
    Task.priority t' = Task.priority Demo.audit_row /\
    Task.deadline t' = Task.deadline Demo.audit_row /\
    Task.created_at t' = Task.created_at Demo.audit_row /\
    Task.client_id t' = Task.client_id Demo.audit_row /\
    Task.creator_id t' = Task.creator_id Demo.audit_row.
Proof.
  apply (task_changed_only_by_parties Demo.env (Demo.as_user 1)
           (UpdateTaskStatus 0 (Some "in-progress")) Demo.w_task 0 Demo.audit_row).
  - vm_compute. reflexivity.
  - vm_compute. intros H. discriminate H.
Defined.

(** X30. What is said stays said: no request rewrites a comment or the
    row of an attachment, and one disappears only when a request deletes
    the task it belongs to. *)
Theorem comments_and_attachments_are_kept env rq c w :
  (forall k x, comments (db w) !! k = Some x ->
     comments (db (dispatch env rq c w).2) !! k = Some x \/
     c = DeleteTask (Comment.task_id x) /\
     comments (db (dispatch env rq c w).2) !! k = None) /\
  (forall k a, attachments (db w) !! k = Some a ->
     attachments (db (dispatch env rq c w).2) !! k = Some a \/
     c = DeleteTask (Attachment.task_id a) /\
     attachments (db (dispatch env rq c w).2) !! k = None).
Proof.
  split; intros k x Hk.
  all: destruct c; unfold_handlers; cbn.
  all: repeat step; auto.
  all: try (left; rewrite lookup_insert_ne;
            [done|intros <-; by rewrite new_id_fresh in Hk]).
  all: match goal with
       | |- filter ?P ?m !! ?k0 = Some ?x0 \/ _ =>
           destruct (decide (P (k0, x0))) as [Hp|Hp];
           [left; by apply map_lookup_filter_Some
           |right; split;
            [f_equal; cbn in Hp; symmetry; by apply dec_stable
            |apply map_lookup_filter_None; right; intros y Hy;
             rewrite Hk in Hy; injection Hy as <-; exact Hp]]
       end.
Qed.

(** Bob's comment on task 0 goes when Alice deletes the task. *)
Lemma comments_and_attachments_are_kept_witness :
  let said := Comment.mk "On it" 6 0 1 in
  let after := (dispatch Demo.lenient_env (Demo.as_user 0) (DeleteTask 0)
                  Scene.w_comment).2 in
  comments (db after) !! 0 = Some said \/
  DeleteTask 0 = DeleteTask (Comment.task_id said) /\ comments (db after) !! 0 = None.
Proof.
  apply (proj1 (comments_and_attachments_are_kept Demo.lenient_env (Demo.as_user 0)
                  (DeleteTask 0) Scene.w_comment) 0 (Comment.mk "On it" 6 0 1)).
  vm_compute. reflexivity.
Defined.
